(** * Time-expanded transit graph: node table and link table generation

    A shallow embedding of [src/01_data_preparation/node_generator.py]
    (distances along the path, variants and routes, trip expansion),
    [src/01_data_preparation/link_generator.py] (the four link builders and
    their driver) and of [validate_config] in [config.py].

    Conventions of the embedding.
    - Python floats are exact rationals ([Q]); [round] is Python's
      round-half-to-even.  Integer columns are [Z]: the node table holds
      second counts far below the [int32] range it is read with.
    - The two haversine functions use trigonometry and are a parameter
      [haversine_distance] of the generators.
    - A pandas data frame is the list of its rows, a Python dict an
      association list in insertion order, a Python set a duplicate-free list.
    - Exceptions are explicit results; printing is left out. *)

From Stdlib Require Import ZArith QArith Qround Qabs List String Ascii Bool Lia.
From Stdlib Require Import DecimalString.
From Stdlib Require Import Lqa Sorted.
Import ListNotations.
Local Open Scope Z_scope.

(** ** Python primitives *)

Module Py.

Inductive Exn := ValueError | IndexError | KeyError | ZeroDivisionError.

(** [round(x)] on a float: nearest integer, ties to the even one. *)
Definition round (x : Q) : Z :=
  let f := Qfloor x in
  match Qcompare (x - inject_Z f) (1 # 2) with
  | Lt => f
  | Gt => f + 1
  | Eq => if Z.even f then f else f + 1
  end.

(** [str.isspace] on the ASCII range. *)
Definition isspace (c : ascii) : bool :=
  let n := nat_of_ascii c in
  (((9 <=? n) && (n <=? 13)) || ((28 <=? n) && (n <=? 32)))%nat.

Fixpoint lstrip (s : list ascii) : list ascii :=
  match s with
  | c :: r => if isspace c then lstrip r else s
  | [] => []
  end.

Definition strip (s : list ascii) : list ascii :=
  rev (lstrip (rev (lstrip s))).

(** [s.split(sep)] for a one-character separator. *)
Fixpoint split (sep : ascii) (s : list ascii) : list (list ascii) :=
  match s with
  | [] => [[]]
  | c :: r =>
      if Ascii.eqb c sep then [] :: split sep r
      else match split sep r with
           | p :: ps => (c :: p) :: ps
           | [] => [[c]]
           end
  end.

Definition digit_val (c : ascii) : option Z :=
  let n := nat_of_ascii c in
  if ((48 <=? n) && (n <=? 57))%nat then Some (Z.of_nat (n - 48)) else None.

(** Decimal digits with single underscores between digits. *)
Fixpoint int_digits (acc : Z) (after_digit : bool) (s : list ascii) : option Z :=
  match s with
  | [] => if after_digit then Some acc else None
  | c :: r =>
      if Ascii.eqb c "_" then
        if after_digit then int_digits acc false r else None
      else
        match digit_val c with
        | Some d => int_digits (10 * acc + d) true r
        | None => None
        end
  end.

(** [int(s)] on a string; [None] stands for the [ValueError]. *)
Definition int (s : list ascii) : option Z :=
  match strip s with
  | [] => None
  | c :: r =>
      if Ascii.eqb c "+" then int_digits 0 false r
      else if Ascii.eqb c "-" then option_map Z.opp (int_digits 0 false r)
      else int_digits 0 false (c :: r)
  end.

(** [str(n)] on an integer. *)
Definition str (n : Z) : string := NilZero.string_of_int (Z.to_int n).

(** The format [{n:02d}]. *)
Definition fmt_02d (n : Z) : string :=
  let s := str n in
  if (String.length s <? 2)%nat then ("0" ++ s)%string else s.

(** [d.get(k)] on a dict with integer or string keys. *)
Fixpoint get_Z {V : Type} (k : Z) (d : list (Z * V)) : option V :=
  match d with
  | [] => None
  | (k', v) :: r => if k' =? k then Some v else get_Z k r
  end.

Fixpoint get_str {V : Type} (k : string) (d : list (string * V)) : option V :=
  match d with
  | [] => None
  | (k', v) :: r => if String.eqb k' k then Some v else get_str k r
  end.

End Py.

(** ** The node table (one row per stop event) *)

Inductive EventKind := ARRIVAL | DEPARTURE.

Definition EventKind_eqb (a b : EventKind) : bool :=
  match a, b with
  | ARRIVAL, ARRIVAL | DEPARTURE, DEPARTURE => true
  | _, _ => false
  end.

Record Node := mkNode {
  NodeId : Z;
  RouteId : Z;
  RouteNo : string;
  RouteVarId : Z;
  TripId : Z;
  StopId : Z;
  Timestamp : Z;
  Event : EventKind;
  Time : string;
  StopName : string;
  Attributes : Z * Z * Z * EventKind
}.

(** A stop of a variant, as the routes JSON lists it. *)
Record Stop := mkStop {
  stop_StopId : Z;
  stop_Lat : Q;
  stop_Lng : Q;
  stop_Name : string
}.

(** ** node_generator.py *)

Module NodeGen.

(** The adjustable module constants. *)
Record Config := mkConfig {
  WAITING_TIME : Z;
  WAITING_TIME_BY_TYPE : list (string * Z);
  SKIP_INVALID_TRIPS : bool;
  MIN_AVG_SPEED : Q
}.

Definition default_config : Config :=
  {| WAITING_TIME := 30;
     WAITING_TIME_BY_TYPE := [];
     SKIP_INVALID_TRIPS := true;
     MIN_AVG_SPEED := 1 |}.

Record Trip := mkTrip {
  trip_TripId : Z;
  StartTime : option string;
  EndTime : option string
}.

(** The route and variant a trip is expanded for. *)
Record RouteCtx := mkRouteCtx {
  route_id : Z;
  route_no : string;
  variant_id : Z
}.

(** [parse_time_to_seconds]: ["HH:MM"] to seconds since midnight.  A
    missing or non-string value is [None]. *)
Definition parse_time_to_seconds (time_str : option string) (is_next_day : bool)
  : option Z :=
  match time_str with
  | None => None
  | Some s =>
      if String.eqb s "" then None
      else
        match Py.split ":" (Py.strip (list_ascii_of_string s)) with
        | [p0; p1] =>
            match Py.int p0, Py.int p1 with
            | Some hours, Some minutes =>
                if (hours <? 0) || (hours >? 23) || (minutes <? 0) || (minutes >? 59)
                then None
                else
                  let seconds := hours * 3600 + minutes * 60 in
                  Some (if is_next_day then seconds + 24 * 3600 else seconds)
            | _, _ => None
            end
        | _ => None
        end
  end.

(** [seconds_to_time]: ["HH:MM:SS"], with ["+Nd"] from the second day on. *)
Definition seconds_to_time (seconds : Z) : string :=
  if seconds <? 0 then "00:00:00"%string
  else
    let days := seconds / (24 * 3600) in
    let remaining_seconds := seconds mod (24 * 3600) in
    let hours := remaining_seconds / 3600 in
    let minutes := (remaining_seconds mod 3600) / 60 in
    let secs := remaining_seconds mod 60 in
    let hms := (Py.fmt_02d hours ++ ":" ++ Py.fmt_02d minutes ++ ":"
                ++ Py.fmt_02d secs)%string in
    if days >? 0 then (hms ++ "+" ++ Py.str days ++ "d")%string else hms.

(** Lines 162-163: the dwell time of a route, by its bus type. *)
Definition bus_type_of (type : option string) : string :=
  match type with Some t => t | None => "Unknown"%string end.

Definition resolve_waiting_time (cfg : Config) (bus_type : string) : Z :=
  match Py.get_str bus_type (WAITING_TIME_BY_TYPE cfg) with
  | Some w => w
  | None => WAITING_TIME cfg
  end.

(** The dict appended to [nodes] for one event. *)
Definition make_node (ctx : RouteCtx) (trip : Trip) (global_node_id : Z)
    (stop : Stop) (current_time : Q) (event : EventKind) : Node :=
  {| NodeId := global_node_id;
     RouteId := route_id ctx;
     RouteNo := route_no ctx;
     RouteVarId := variant_id ctx;
     TripId := trip_TripId trip;
     StopId := stop_StopId stop;
     Timestamp := Py.round current_time;
     Event := event;
     Time := seconds_to_time (Py.round current_time);
     StopName := stop_Name stop;
     Attributes := (route_id ctx, stop_StopId stop, Py.round current_time, event) |}.

(** The loop state of lines 317-410. *)
Record EmitState := mkEmit {
  current_time : Q;
  global_node_id : Z;
  nodes : list Node
}.

Definition emit (ctx : RouteCtx) (trip : Trip) (stop : Stop) (event : EventKind)
    (st : EmitState) : EmitState :=
  {| current_time := current_time st;
     global_node_id := global_node_id st + 1;
     nodes := nodes st ++ [make_node ctx trip (global_node_id st) stop
                                      (current_time st) event] |}.

Definition advance (dt : Q) (st : EmitState) : EmitState :=
  {| current_time := (current_time st + dt)%Q;
     global_node_id := global_node_id st;
     nodes := nodes st |}.

(** Lines 355-410, the body of [for i, stop in enumerate(stops)].
    [stop_distances] holds one distance per pair of consecutive stops
    (lines 225-228), so that index [i - 1] is in range. *)
Definition emit_stop (ctx : RouteCtx) (trip : Trip) (n_stops : nat)
    (stop_distances : list Q) (avg_speed : Q) (waiting_time : Z)
    (st : EmitState) (i_stop : nat * Stop) : EmitState :=
  let (i, stop) := i_stop in
  if (i =? 0)%nat then emit ctx trip stop DEPARTURE st
  else
    let distance_from_previous := nth (i - 1) stop_distances 0%Q in
    let travel_time := (distance_from_previous / avg_speed)%Q in
    let st := emit ctx trip stop ARRIVAL (advance travel_time st) in
    if (i <? n_stops - 1)%nat
    then emit ctx trip stop DEPARTURE (advance (inject_Z waiting_time) st)
    else st.

Definition enumerate {A : Type} (l : list A) : list (nat * A) :=
  combine (seq 0 (List.length l)) l.

Inductive TripResult :=
| Emitted (new_nodes : list Node) (next_node_id : Z)
| Skipped
| Raised (e : Py.Exn).

(** Lines 316-410: the events of a trip that passed validation. *)
Definition emit_trip (ctx : RouteCtx) (stops : list Stop) (is_loop_route : bool)
    (stop_distances : list Q) (avg_speed : Q) (waiting_time : Z) (trip : Trip)
    (start_seconds end_seconds : Z) (global_node_id : Z) : TripResult :=
  let st0 := {| current_time := inject_Z start_seconds;
                global_node_id := global_node_id;
                nodes := [] |} in
  if is_loop_route then
    match stops with
    | s0 :: s1 :: _ =>
        let st := emit ctx trip s0 DEPARTURE st0 in
        let st := {| current_time := inject_Z end_seconds;
                     global_node_id := NodeGen.global_node_id st;
                     nodes := nodes st |} in
        let st := emit ctx trip s1 ARRIVAL st in
        Emitted (nodes st) (NodeGen.global_node_id st)
    | _ => Raised Py.IndexError
    end
  else
    let st := fold_left (emit_stop ctx trip (List.length stops) stop_distances
                                   avg_speed waiting_time)
                        (enumerate stops) st0 in
    Emitted (nodes st) (NodeGen.global_node_id st).

(** Lines 287-314: validation of the travelling time and of the speed,
    then emission.  [total_distance] is positive here (line 233). *)
Definition validate_and_emit (cfg : Config) (ctx : RouteCtx) (stops : list Stop)
    (is_loop_route : bool) (stop_distances : list Q) (total_distance : Q)
    (waiting_time : Z) (trip : Trip) (start_seconds end_seconds : Z)
    (global_node_id : Z) : TripResult :=
  let total_waiting_time := (Z.of_nat (List.length stops) - 1) * waiting_time in
  let traveling_time := end_seconds - start_seconds - total_waiting_time in
  if traveling_time <=? 0 then
    if negb (SKIP_INVALID_TRIPS cfg) then Raised Py.ValueError else Skipped
  else
    let avg_speed := (total_distance / inject_Z traveling_time)%Q in
    if Qlt_le_dec avg_speed (MIN_AVG_SPEED cfg) then Skipped
    else if Qlt_le_dec (222 # 10) avg_speed then Skipped
    else emit_trip ctx stops is_loop_route stop_distances avg_speed
                   waiting_time trip start_seconds end_seconds global_node_id.

(** Lines 276-285: an end time not after the start is read as next-day. *)
Definition overnight_end (trip : Trip) (start_seconds end_seconds : Z) : Z :=
  if end_seconds <=? start_seconds then
    match parse_time_to_seconds (EndTime trip) true with
    | Some end_seconds_next_day =>
        if end_seconds_next_day =? 0 then end_seconds else end_seconds_next_day
    | None => end_seconds
    end
  else end_seconds.

(** Lines 263-410: the body of [for trip in trips]. *)
Definition process_trip (cfg : Config) (ctx : RouteCtx) (stops : list Stop)
    (is_loop_route : bool) (stop_distances : list Q) (total_distance : Q)
    (waiting_time : Z) (trip : Trip) (global_node_id : Z) : TripResult :=
  match parse_time_to_seconds (StartTime trip) false,
        parse_time_to_seconds (EndTime trip) false with
  | Some start_seconds, Some end_seconds =>
      let end_seconds := overnight_end trip start_seconds end_seconds in
      validate_and_emit cfg ctx stops is_loop_route stop_distances total_distance
                        waiting_time trip start_seconds end_seconds global_node_id
  | _, _ =>
      if negb (SKIP_INVALID_TRIPS cfg) then Raised Py.ValueError else Skipped
  end.

(** The events of the stops after the first one, in closed form: stop
    number [i] is reached from time [t] with next node id [gid]. *)
Fixpoint later_events (ctx : RouteCtx) (trip : Trip) (stop_distances : list Q)
    (avg_speed : Q) (waiting_time : Z) (i : nat) (t : Q) (gid : Z)
    (rest : list Stop) : list Node :=
  match rest with
  | [] => []
  | stop :: later =>
      let t_arr := (t + nth (i - 1) stop_distances 0%Q / avg_speed)%Q in
      let arr := make_node ctx trip gid stop t_arr ARRIVAL in
      match later with
      | [] => [arr]
      | _ :: _ =>
          let t_dep := (t_arr + inject_Z waiting_time)%Q in
          arr :: make_node ctx trip (gid + 1) stop t_dep DEPARTURE
              :: later_events ctx trip stop_distances avg_speed waiting_time
                              (S i) t_dep (gid + 2) later
      end
  end.



Definition nodes_of (r : TripResult) : list Node :=
  match r with
  | Emitted new_nodes _ => new_nodes
  | _ => []
  end.

(** The loop over the trips of a timetable: nodes so far, next node id. *)
Fixpoint process_trips (cfg : Config) (ctx : RouteCtx) (stops : list Stop)
    (is_loop_route : bool) (stop_distances : list Q) (total_distance : Q)
    (waiting_time : Z) (trips : list Trip) (nodes : list Node)
    (global_node_id : Z) : (list Node * Z) + Py.Exn :=
  match trips with
  | [] => inl (nodes, global_node_id)
  | trip :: rest =>
      match process_trip cfg ctx stops is_loop_route stop_distances
                         total_distance waiting_time trip global_node_id with
      | Emitted new_nodes next_id =>
          process_trips cfg ctx stops is_loop_route stop_distances total_distance
                        waiting_time rest (nodes ++ new_nodes) next_id
      | Skipped =>
          process_trips cfg ctx stops is_loop_route stop_distances total_distance
                        waiting_time rest nodes global_node_id
      | Raised e => inr e
      end
  end.

End NodeGen.

(** ** link_generator.py *)

Module LinkGen.

Inductive Mode := bus | wait | transfer | walk.

Record Link := mkLink {
  link_id : Z;
  from_node : Z;
  to_node : Z;
  duration : Z;
  mode : Mode
}.

(** The [CONFIG] dict. *)
Record Config := mkConfig {
  WALKING_RADIUS : Q;
  MAX_WALK_WAIT_TIME : Z;
  WALKING_SPEED : Q;
  MAX_TRANSFER_TIME : Z;
  MIN_TRANSFER_TIME : Z
}.

Definition CONFIG : Config :=
  {| WALKING_RADIUS := 400;
     MAX_WALK_WAIT_TIME := 3600;
     WALKING_SPEED := 12 # 10;
     MAX_TRANSFER_TIME := 1800;
     MIN_TRANSFER_TIME := 120 |}.

(** The optional [config] argument of the driver: the keys it overrides. *)
Record ConfigUpdate := mkUpdate {
  set_WALKING_RADIUS : option Q;
  set_MAX_WALK_WAIT_TIME : option Z;
  set_WALKING_SPEED : option Q;
  set_MAX_TRANSFER_TIME : option Z;
  set_MIN_TRANSFER_TIME : option Z
}.

Definition or_else {A : Type} (o : option A) (d : A) : A :=
  match o with Some a => a | None => d end.

(** [CONFIG.update(config)]. *)
Definition update (c : Config) (u : ConfigUpdate) : Config :=
  {| WALKING_RADIUS := or_else (set_WALKING_RADIUS u) (WALKING_RADIUS c);
     MAX_WALK_WAIT_TIME := or_else (set_MAX_WALK_WAIT_TIME u) (MAX_WALK_WAIT_TIME c);
     WALKING_SPEED := or_else (set_WALKING_SPEED u) (WALKING_SPEED c);
     MAX_TRANSFER_TIME := or_else (set_MAX_TRANSFER_TIME u) (MAX_TRANSFER_TIME c);
     MIN_TRANSFER_TIME := or_else (set_MIN_TRANSFER_TIME u) (MIN_TRANSFER_TIME c) |}.

(** [if config: CONFIG.update(config)]. *)
Definition configure (config : option ConfigUpdate) : Config :=
  match config with
  | Some u => update CONFIG u
  | None => CONFIG
  end.

(** *** Chunked output

    A builder holds the rows already appended to the output file, the
    buffered [chunk_links] and the next [link_id]. *)
Record Writer := mkWriter {
  out_file : list Link;
  chunk_links : list Link;
  next_link_id : Z
}.

Definition open_writer (output_file : list Link) (start_link_id : Z) : Writer :=
  {| out_file := output_file; chunk_links := []; next_link_id := start_link_id |}.

(** [chunk_links.append({...}); link_id += 1], then the chunk is written
    out when it has reached [chunk_size]. *)
Definition append_link (chunk_size : Z) (m : Mode) (from to dur : Z) (w : Writer)
  : Writer :=
  let chunk := chunk_links w ++ [mkLink (next_link_id w) from to dur m] in
  if Z.of_nat (List.length chunk) >=? chunk_size
  then {| out_file := out_file w ++ chunk;
          chunk_links := [];
          next_link_id := next_link_id w + 1 |}
  else {| out_file := out_file w;
          chunk_links := chunk;
          next_link_id := next_link_id w + 1 |}.

(** [if chunk_links: ... to_csv(mode='a')] at the end of a builder. *)
Definition flush (w : Writer) : Writer :=
  match chunk_links w with
  | [] => w
  | _ => {| out_file := out_file w ++ chunk_links w;
            chunk_links := [];
            next_link_id := next_link_id w |}
  end.

Definition close_writer (w : Writer) : list Link * Z :=
  (out_file (flush w), next_link_id (flush w)).

(** *** pandas *)

Definition is_event (e : EventKind) (r : Node) : bool := EventKind_eqb (Event r) e.

(** [df.sort_values('Timestamp')]; rows of equal timestamp keep their order. *)
Fixpoint insert_by_timestamp (r : Node) (l : list Node) : list Node :=
  match l with
  | [] => [r]
  | x :: t =>
      if Timestamp r <=? Timestamp x then r :: l
      else x :: insert_by_timestamp r t
  end.

Definition sort_values (df : list Node) : list Node :=
  fold_right insert_by_timestamp [] df.

Section GroupBy.
Context {K : Type} (compare : K -> K -> comparison).

Fixpoint insert_key (k : K) (ks : list K) : list K :=
  match ks with
  | [] => [k]
  | k' :: r =>
      match compare k k' with
      | Lt => k :: ks
      | Eq => ks
      | Gt => k' :: insert_key k r
      end
  end.

Definition same_key (k k' : K) : bool :=
  match compare k k' with Eq => true | _ => false end.

(** [df.groupby(cols)]: the groups by increasing key, each with its
    rows in the order of the frame. *)
Definition groupby (key : Node -> K) (df : list Node) : list (K * list Node) :=
  map (fun k => (k, filter (fun r => same_key (key r) k) df))
      (fold_right insert_key [] (map key df)).
End GroupBy.

Definition compare_pair (a b : Z * Z) : comparison :=
  match fst a ?= fst b with
  | Eq => snd a ?= snd b
  | c => c
  end.

(** [series.unique()]: the values in order of first appearance. *)
Fixpoint unique (l : list Z) : list Z :=
  match l with
  | [] => []
  | x :: r => x :: filter (fun y => negb (y =? x)) (unique r)
  end.

(** *** create_bus_links_to_file *)

Definition bus_departure_step (arrivals : list Node) (w : Writer) (dep : Node)
  : Writer :=
  let dep_time := Timestamp dep in
  let dep_node := NodeId dep in
  let next_arrivals := filter (fun a => Timestamp a >? dep_time) arrivals in
  match next_arrivals with
  | [] => w
  | next_arrival :: _ =>
      let time_diff := Timestamp next_arrival - dep_time in
      if time_diff <? 1800
      then append_link 10000 bus dep_node (NodeId next_arrival) time_diff w
      else w
  end.

Definition bus_group_step (w : Writer) (group : (Z * Z) * list Node) : Writer :=
  let trip_nodes := sort_values (snd group) in
  let departures := filter (is_event DEPARTURE) trip_nodes in
  let arrivals := filter (is_event ARRIVAL) trip_nodes in
  fold_left (bus_departure_step arrivals) departures w.

(** The file is opened with mode ['w']: it starts with the header only. *)
Definition create_bus_links_to_file (node_df : list Node) (start_link_id : Z)
  : list Link * Z :=
  let grouped := groupby compare_pair (fun r => (RouteId r, TripId r)) node_df in
  close_writer (fold_left bus_group_step grouped (open_writer [] start_link_id)).

(** *** append_wait_links_to_file *)

Definition wait_arrival_step (departures : list Node) (w : Writer) (arrival : Node)
  : Writer :=
  let arr_time := Timestamp arrival in
  let arr_node := NodeId arrival in
  let future_deps := filter (fun d => Timestamp d >? arr_time) departures in
  fold_left (fun w departure =>
               let dep_time := Timestamp departure in
               let wait_time := dep_time - arr_time in
               append_link 50000 wait arr_node (NodeId departure) wait_time w)
            future_deps w.

Definition wait_group_step (w : Writer) (group : (Z * Z) * list Node) : Writer :=
  let stop_nodes := snd group in
  let arrivals := sort_values (filter (is_event ARRIVAL) stop_nodes) in
  let departures := sort_values (filter (is_event DEPARTURE) stop_nodes) in
  fold_left (wait_arrival_step departures) arrivals w.

Definition append_wait_links_to_file (node_df : list Node) (output_file : list Link)
    (start_link_id : Z) : list Link * Z :=
  let grouped := groupby compare_pair (fun r => (StopId r, RouteId r)) node_df in
  close_writer (fold_left wait_group_step grouped
                          (open_writer output_file start_link_id)).

(** *** append_transfer_links_to_file *)

Definition transfer_arrival_step (cfg : Config) (max_transfer_time : Z)
    (departures : list Node) (w : Writer) (arrival : Node) : Writer :=
  let arr_time := Timestamp arrival in
  let arr_node := NodeId arrival in
  let arr_route := RouteId arrival in
  let other_route_deps :=
    filter (fun d => negb (RouteId d =? arr_route)
                     && (Timestamp d >? arr_time)
                     && (Timestamp d - arr_time <=? max_transfer_time))
           departures in
  fold_left (fun w departure =>
               let transfer_time := Timestamp departure - arr_time in
               if transfer_time >=? MIN_TRANSFER_TIME cfg
               then append_link 50000 transfer arr_node (NodeId departure)
                                transfer_time w
               else w)
            other_route_deps w.

Definition transfer_group_step (cfg : Config) (max_transfer_time : Z)
    (w : Writer) (group : Z * list Node) : Writer :=
  let stop_nodes := snd group in
  let arrivals := sort_values (filter (is_event ARRIVAL) stop_nodes) in
  let departures := sort_values (filter (is_event DEPARTURE) stop_nodes) in
  fold_left (transfer_arrival_step cfg max_transfer_time departures) arrivals w.

Definition append_transfer_links_to_file (cfg : Config) (node_df : list Node)
    (output_file : list Link) (start_link_id : Z) (max_transfer_time : Z)
  : list Link * Z :=
  let grouped := groupby Z.compare StopId node_df in
  close_writer (fold_left (transfer_group_step cfg max_transfer_time) grouped
                          (open_writer output_file start_link_id)).

(** *** load_stop_info *)

(** A route id in [stop_routes]: the [RouteId] of the JSON, or the route's
    key when the JSON has none. *)
Inductive RouteRef := ById (n : Z) | ByKey (k : string).

Definition RouteRef_eqb (a b : RouteRef) : bool :=
  match a, b with
  | ById n, ById m => n =? m
  | ByKey k, ByKey l => String.eqb k l
  | _, _ => false
  end.

Record StopEntry := mkEntry {
  Lat : Q;
  Lng : Q;
  Name : string;
  Routes : list RouteRef
}.

(** The part of a route of the bus JSON that [load_stop_info] reads. *)
Record RouteData := mkRouteData {
  getroutebyid_RouteId : option Z;
  getvarsbyroute : list Z;
  getstopsbyvar : list (string * list Stop)
}.

Definition set_add (r : RouteRef) (s : list RouteRef) : list RouteRef :=
  if existsb (RouteRef_eqb r) s then s else s ++ [r].

(** [d[k] = f(d[k])] on a key that is present. *)
Fixpoint modify {V : Type} (k : Z) (f : V -> V) (d : list (Z * V)) : list (Z * V) :=
  match d with
  | [] => []
  | (k', v) :: r => if k' =? k then (k', f v) :: r else (k', v) :: modify k f r
  end.

Definition add_route (route_id : RouteRef) (e : StopEntry) : StopEntry :=
  {| Lat := Lat e; Lng := Lng e; Name := Name e;
     Routes := set_add route_id (Routes e) |}.

Definition load_stop (route_id : RouteRef)
    (acc : list (Z * StopEntry) * list (Z * list RouteRef)) (stop : Stop)
  : list (Z * StopEntry) * list (Z * list RouteRef) :=
  let (stop_info, stop_routes) := acc in
  let stop_id := stop_StopId stop in
  let stop_info :=
    match Py.get_Z stop_id stop_info with
    | Some _ => stop_info
    | None => stop_info ++ [(stop_id, {| Lat := stop_Lat stop;
                                          Lng := stop_Lng stop;
                                          Name := stop_Name stop;
                                          Routes := [] |})]
    end in
  let stop_info := modify stop_id (add_route route_id) stop_info in
  let stop_routes :=
    match Py.get_Z stop_id stop_routes with
    | Some _ => modify stop_id (set_add route_id) stop_routes
    | None => stop_routes ++ [(stop_id, [route_id])]
    end in
  (stop_info, stop_routes).

Definition stops_of_variant (route_data : RouteData) (variant_id : Z) : list Stop :=
  or_else (Py.get_str (Py.str variant_id) (getstopsbyvar route_data)) [].

Definition load_route (acc : list (Z * StopEntry) * list (Z * list RouteRef))
    (route : string * RouteData)
  : list (Z * StopEntry) * list (Z * list RouteRef) :=
  let (route_key, route_data) := route in
  let route_id := match getroutebyid_RouteId route_data with
                  | Some n => ById n
                  | None => ByKey route_key
                  end in
  fold_left (fun acc variant_id =>
               fold_left (load_stop route_id)
                         (stops_of_variant route_data variant_id) acc)
            (getvarsbyroute route_data) acc.

Definition load_stop_info (data : list (string * RouteData))
  : list (Z * StopEntry) * list (Z * list RouteRef) :=
  fold_left load_route data ([], []).

(** [stop_routes[stop_id]] on the [defaultdict(set)]. *)
Definition routes_of (stop_routes : list (Z * list RouteRef)) (stop_id : Z)
  : list RouteRef :=
  or_else (Py.get_Z stop_id stop_routes) [].

(** The truth value of [a & b]. *)
Definition intersects (a b : list RouteRef) : bool :=
  existsb (fun r => existsb (RouteRef_eqb r) b) a.

(** *** Runs that may raise *)

Inductive Run :=
| Running (w : Writer)
| Aborted (e : Py.Exn) (w : Writer).

Definition bind (r : Run) (k : Writer -> Run) : Run :=
  match r with
  | Running w => k w
  | Aborted _ _ => r
  end.

Definition foreach {A : Type} (l : list A) (body : Writer -> A -> Run) (w : Writer)
  : Run :=
  fold_left (fun r x => bind r (fun w => body w x)) l (Running w).

Record Nearby := mkNearby {
  nearby_StopId : Z;
  Distance : Q;
  nearby_Name : string
}.

Section Walk.
(** [haversine_distance lat1 lon1 lat2 lon2], in metres. *)
Variable haversine_distance : Q -> Q -> Q -> Q -> Q.

(** [find_stops_within_radius]; the lookup of the centre raises
    [KeyError] on a stop id that [stop_info] does not have. *)
Definition find_stops_within_radius (center_stop_id : Z)
    (stop_info : list (Z * StopEntry)) (radius : Q) : option (list Nearby) :=
  match Py.get_Z center_stop_id stop_info with
  | None => None
  | Some center =>
      Some (flat_map
              (fun kv : Z * StopEntry =>
                 let (stop_id, stop) := kv in
                 if negb (stop_id =? center_stop_id) then
                   let distance := haversine_distance (Lat center) (Lng center)
                                                      (Lat stop) (Lng stop) in
                   if Qle_bool distance radius
                   then [{| nearby_StopId := stop_id;
                            Distance := distance;
                            nearby_Name := Name stop |}]
                   else []
                 else [])
              stop_info)
  end.

(** [departures_by_stop]: the departures of each stop that has one. *)
Definition departures_by_stop (node_df : list Node) : list (Z * list Node) :=
  let all_departures := filter (is_event DEPARTURE) node_df in
  map (fun stop_id =>
         (stop_id, sort_values (filter (fun r => StopId r =? stop_id)
                                       all_departures)))
      (unique (map StopId all_departures)).

(** Lines 289-327, the body of [for nearby in nearby_stops]. *)
Definition walk_nearby_step (cfg : Config) (max_walk_wait_time : Z)
    (stop_routes : list (Z * list RouteRef)) (deps : list (Z * list Node))
    (arrival : Node) (w : Writer) (nearby : Nearby) : Run :=
  let arr_stop := StopId arrival in
  let arr_time := Timestamp arrival in
  let arr_node := NodeId arrival in
  let nearby_stop_id := nearby_StopId nearby in
  let walk_distance := Distance nearby in
  if Qeq_bool (WALKING_SPEED cfg) 0 then Aborted Py.ZeroDivisionError w
  else
    let walk_time := (walk_distance / WALKING_SPEED cfg)%Q in
    let arr_routes := routes_of stop_routes arr_stop in
    let nearby_routes := routes_of stop_routes nearby_stop_id in
    if intersects arr_routes nearby_routes then Running w
    else
      match Py.get_Z nearby_stop_id deps with
      | None => Running w
      | Some nearby_deps =>
          let earliest_dep_time := (inject_Z arr_time + walk_time)%Q in
          let valid_deps :=
            filter (fun d => Qle_bool earliest_dep_time (inject_Z (Timestamp d))
                             && (Timestamp d - arr_time <=? max_walk_wait_time))
                   nearby_deps in
          Running
            (fold_left (fun w departure =>
                          let total_time := Timestamp departure - arr_time in
                          append_link 50000 walk arr_node (NodeId departure)
                                      total_time w)
                       valid_deps w)
      end.

(** Lines 278-327, the body of [for idx, arrival in arrivals.iterrows()]. *)
Definition walk_arrival_step (cfg : Config) (walking_radius : Q)
    (max_walk_wait_time : Z) (stop_info : list (Z * StopEntry))
    (stop_routes : list (Z * list RouteRef)) (deps : list (Z * list Node))
    (w : Writer) (arrival : Node) : Run :=
  match find_stops_within_radius (StopId arrival) stop_info walking_radius with
  | None => Aborted Py.KeyError w
  | Some nearby_stops =>
      foreach nearby_stops
              (walk_nearby_step cfg max_walk_wait_time stop_routes deps arrival) w
  end.

(** The state of the output file when the builder stops, and the next
    link id or the exception that ended it. *)
Definition finish (r : Run) : list Link * (Z + Py.Exn) :=
  match r with
  | Running w => (out_file (flush w), inl (next_link_id (flush w)))
  | Aborted e w => (out_file w, inr e)
  end.

Definition append_walk_links_to_file (cfg : Config) (node_df : list Node)
    (stop_info : list (Z * StopEntry)) (stop_routes : list (Z * list RouteRef))
    (output_file : list Link) (start_link_id : Z)
    (walking_radius : Q) (max_walk_wait_time : Z) : list Link * (Z + Py.Exn) :=
  let arrivals := filter (is_event ARRIVAL) node_df in
  let deps := departures_by_stop node_df in
  finish (foreach arrivals
                  (walk_arrival_step cfg walking_radius max_walk_wait_time
                                     stop_info stop_routes deps)
                  (open_writer output_file start_link_id)).

(** [create_link_table_memory_optimized], up to the last builder. *)
Definition create_link_table_memory_optimized (config : option ConfigUpdate)
    (node_df : list Node) (data : list (string * RouteData))
  : list Link * (Z + Py.Exn) :=
  let cfg := configure config in
  let (stop_info, stop_routes) := load_stop_info data in
  let (output_csv, next_link_id) := create_bus_links_to_file node_df 1 in
  let (output_csv, next_link_id) :=
    append_wait_links_to_file node_df output_csv next_link_id in
  let (output_csv, next_link_id) :=
    append_transfer_links_to_file cfg node_df output_csv next_link_id
                                  (MAX_TRANSFER_TIME cfg) in
  append_walk_links_to_file cfg node_df stop_info stop_routes output_csv
                            next_link_id (WALKING_RADIUS cfg)
                            (MAX_WALK_WAIT_TIME cfg).
End Walk.

(** *** The rows of a builder, apart from their link ids

    Each builder numbers the rows it appends from [start_link_id] on;
    the functions below give the rows in the order they are appended. *)

Definition Content : Type := Z * Z * Z * Mode.

Definition content (l : Link) : Content :=
  (from_node l, to_node l, duration l, mode l).

Fixpoint number (start : Z) (cs : list Content) : list Link :=
  match cs with
  | [] => []
  | (f, t, d, m) :: r => mkLink start f t d m :: number (start + 1) r
  end.

(** Rows written so far and rows still buffered. *)
Definition emitted (w : Writer) : list Link := out_file w ++ chunk_links w.

Definition bus_of_departure (arrivals : list Node) (dep : Node) : list Content :=
  match filter (fun a => Timestamp a >? Timestamp dep) arrivals with
  | [] => []
  | next_arrival :: _ =>
      if Timestamp next_arrival - Timestamp dep <? 1800
      then [(NodeId dep, NodeId next_arrival,
             Timestamp next_arrival - Timestamp dep, bus)]
      else []
  end.

Definition bus_of_group (group : (Z * Z) * list Node) : list Content :=
  let trip_nodes := sort_values (snd group) in
  flat_map (bus_of_departure (filter (is_event ARRIVAL) trip_nodes))
           (filter (is_event DEPARTURE) trip_nodes).

Definition bus_contents (node_df : list Node) : list Content :=
  flat_map bus_of_group
           (groupby compare_pair (fun r => (RouteId r, TripId r)) node_df).

Definition wait_of_arrival (departures : list Node) (arrival : Node) : list Content :=
  map (fun d => (NodeId arrival, NodeId d, Timestamp d - Timestamp arrival, wait))
      (filter (fun d => Timestamp d >? Timestamp arrival) departures).

Definition wait_of_group (group : (Z * Z) * list Node) : list Content :=
  flat_map (wait_of_arrival (sort_values (filter (is_event DEPARTURE) (snd group))))
           (sort_values (filter (is_event ARRIVAL) (snd group))).

Definition wait_contents (node_df : list Node) : list Content :=
  flat_map wait_of_group
           (groupby compare_pair (fun r => (StopId r, RouteId r)) node_df).

Definition transfer_of_arrival (cfg : Config) (max_transfer_time : Z)
    (departures : list Node) (arrival : Node) : list Content :=
  flat_map (fun d =>
              if Timestamp d - Timestamp arrival >=? MIN_TRANSFER_TIME cfg
              then [(NodeId arrival, NodeId d, Timestamp d - Timestamp arrival,
                     transfer)]
              else [])
           (filter (fun d => negb (RouteId d =? RouteId arrival)
                             && (Timestamp d >? Timestamp arrival)
                             && (Timestamp d - Timestamp arrival
                                 <=? max_transfer_time))
                   departures).

Definition transfer_of_group (cfg : Config) (max_transfer_time : Z)
    (group : Z * list Node) : list Content :=
  flat_map (transfer_of_arrival cfg max_transfer_time
              (sort_values (filter (is_event DEPARTURE) (snd group))))
           (sort_values (filter (is_event ARRIVAL) (snd group))).

Definition transfer_contents (cfg : Config) (max_transfer_time : Z)
    (node_df : list Node) : list Content :=
  flat_map (transfer_of_group cfg max_transfer_time)
           (groupby Z.compare StopId node_df).

Definition walk_of_nearby (cfg : Config) (max_walk_wait_time : Z)
    (stop_routes : list (Z * list RouteRef)) (deps : list (Z * list Node))
    (arrival : Node) (nearby : Nearby) : list Content :=
  if intersects (routes_of stop_routes (StopId arrival))
                (routes_of stop_routes (nearby_StopId nearby))
  then []
  else
    match Py.get_Z (nearby_StopId nearby) deps with
    | None => []
    | Some nearby_deps =>
        map (fun d => (NodeId arrival, NodeId d,
                       Timestamp d - Timestamp arrival, walk))
            (filter (fun d =>
                       Qle_bool (inject_Z (Timestamp arrival)
                                 + Distance nearby / WALKING_SPEED cfg)%Q
                                (inject_Z (Timestamp d))
                       && (Timestamp d - Timestamp arrival
                           <=? max_walk_wait_time))
                    nearby_deps)
    end.

Section WalkContents.
Variable haversine_distance : Q -> Q -> Q -> Q -> Q.

(** The distance between two entries of [stop_info]. *)
Definition between (a b : StopEntry) : Q :=
  haversine_distance (Lat a) (Lng a) (Lat b) (Lng b).

Definition walk_of_arrival (cfg : Config) (walking_radius : Q)
    (max_walk_wait_time : Z) (stop_info : list (Z * StopEntry))
    (stop_routes : list (Z * list RouteRef)) (deps : list (Z * list Node))
    (arrival : Node) : list Content :=
  match find_stops_within_radius haversine_distance (StopId arrival)
                                 stop_info walking_radius with
  | None => []
  | Some nearby_stops =>
      flat_map (walk_of_nearby cfg max_walk_wait_time stop_routes deps arrival)
               nearby_stops
  end.

(** The exception, if any, that the walk builder raises at an arrival. *)
Definition walk_failure (cfg : Config) (walking_radius : Q)
    (stop_info : list (Z * StopEntry)) (arrival : Node) : option Py.Exn :=
  match find_stops_within_radius haversine_distance (StopId arrival)
                                 stop_info walking_radius with
  | None => Some Py.KeyError
  | Some [] => None
  | Some (_ :: _) =>
      if Qeq_bool (WALKING_SPEED cfg) 0 then Some Py.ZeroDivisionError else None
  end.

Definition walk_contents (cfg : Config) (walking_radius : Q)
    (max_walk_wait_time : Z) (stop_info : list (Z * StopEntry))
    (stop_routes : list (Z * list RouteRef)) (node_df : list Node)
  : list Content :=
  flat_map (walk_of_arrival cfg walking_radius max_walk_wait_time stop_info
                            stop_routes (departures_by_stop node_df))
           (filter (is_event ARRIVAL) node_df).
End WalkContents.

(** [w'] is [w] after the rows [cs] were appended, in this order: they
    are numbered from [next_link_id w] on, and the file has only grown. *)
Definition produces (w w' : Writer) (cs : list Content) : Prop :=
  emitted w' = emitted w ++ number (next_link_id w) cs
  /\ next_link_id w' = next_link_id w + Z.of_nat (List.length cs)
  /\ exists written, out_file w' = out_file w ++ written.

(** The output file and the next link id when the walk builder starts. *)
Definition build_before_walk (cfg : Config) (node_df : list Node) : list Link * Z :=
  let (output_csv, next_link_id) := create_bus_links_to_file node_df 1 in
  let (output_csv, next_link_id) :=
    append_wait_links_to_file node_df output_csv next_link_id in
  append_transfer_links_to_file cfg node_df output_csv next_link_id
                                (MAX_TRANSFER_TIME cfg).

(** A stop id is listed when some variant named in [getvarsbyroute] has it
    among its stops. *)
Definition stop_listed (data : list (string * RouteData)) (stop_id : Z) : Prop :=
  exists route_key route_data variant_id stop,
    In (route_key, route_data) data
    /\ In variant_id (getvarsbyroute route_data)
    /\ In stop (stops_of_variant route_data variant_id)
    /\ stop_StopId stop = stop_id.

End LinkGen.

(** ** config.py *)

Module Settings.





End Settings.

(** ** Example inputs *)

Module Examples.
Import NodeGen.

(** A distance that can be computed on rationals, to run the walk builder
    on examples: about 111 km per degree along each axis.  Like the
    haversine distance it is non-negative and 0 on identical coordinates. *)
Definition planar_distance (lat1 lon1 lat2 lon2 : Q) : Q :=
  (111000 * (Qabs (lat2 - lat1) + Qabs (lon2 - lon1)))%Q.

(** A row of the node table. *)
Definition row (id route trip stop ts : Z) (e : EventKind) : Node :=
  {| NodeId := id; RouteId := route; RouteNo := Py.str route; RouteVarId := 1;
     TripId := trip; StopId := stop; Timestamp := ts; Event := e;
     Time := seconds_to_time ts; StopName := Py.str stop;
     Attributes := (route, stop, ts, e) |}.

(** The single-trip line: route 7, stops A, B, C, dwell 30 s, one trip
    07:00 -> 07:10 over two segments of equal length. *)
Definition line_ctx : RouteCtx := mkRouteCtx 7 "7" 1.
Definition stop_A : Stop := mkStop 1 10 106 "1".
Definition stop_B : Stop := mkStop 2 10 (10601 # 100) "2".
Definition stop_C : Stop := mkStop 3 10 (10602 # 100) "3".
Definition line_stops : list Stop := [stop_A; stop_B; stop_C].
Definition line_trip : Trip := mkTrip 100 (Some "07:00"%string) (Some "07:10"%string).

Definition single_trip_nodes : list Node :=
  nodes_of (process_trip default_config line_ctx line_stops false
                         [1100; 1100]%Q 2200 30 line_trip 1).

(** The four events of the line, with the two arrival times left open. *)
Definition line_nodes (t_b t_c : Z) : list Node :=
  [row 1 7 100 1 25200 DEPARTURE; row 2 7 100 2 t_b ARRIVAL;
   row 3 7 100 2 25500 DEPARTURE; row 4 7 100 3 t_c ARRIVAL].

Definition line_data : list (string * LinkGen.RouteData) :=
  [("7"%string, LinkGen.mkRouteData (Some 7) [1] [("1"%string, line_stops)])].

(** The same line when A and B project to the same vertex of the path:
    the first segment has length 0. *)
Definition zero_segment_nodes : list Node :=
  nodes_of (process_trip default_config line_ctx line_stops false
                         [0; 2200]%Q 2200 30 line_trip 1).



(** An overnight trip 22:30 -> 01:30 between two stops 21540 m apart. *)
Definition night_trip : Trip := mkTrip 300 (Some "22:30"%string) (Some "01:30"%string).

Definition night_nodes : list Node :=
  nodes_of (process_trip default_config line_ctx [stop_A; stop_C] false
                         [21540]%Q 21540 30 night_trip 1).

(** The line at exactly 22.2 m/s and at exactly 1 m/s: its 540 s of
    travel over 11988 m and over 540 m. *)
Definition fast_distance : Q := 11988.
Definition slow_distance : Q := 540.


(** Two routes that end and start at the same place under two stop ids
    (11 and 12): route 1 arrives there at 1000, route 2 leaves at 1000. *)
Definition terminal_data : list (string * LinkGen.RouteData) :=
  [("1"%string,
    LinkGen.mkRouteData (Some 1) [1]
      [("1"%string, [mkStop 10 (1049 # 100) (1065 # 10) "West";
                     mkStop 11 (105 # 10) (1065 # 10) "Terminal"])]);
   ("2"%string,
    LinkGen.mkRouteData (Some 2) [2]
      [("2"%string, [mkStop 12 (105 # 10) (1065 # 10) "Terminal";
                     mkStop 13 (1051 # 100) (1065 # 10) "East"])])].

Definition terminal_nodes : list Node :=
  [row 1 1 10 10 400 DEPARTURE; row 2 1 10 11 1000 ARRIVAL;
   row 3 2 20 12 1000 DEPARTURE; row 4 2 20 13 1600 ARRIVAL].

(** The line and a second route 8 through B whose last stop, 99, is in no
    stop list of the JSON. *)
Definition unlisted_nodes : list Node :=
  line_nodes 25470 25770
  ++ [row 5 8 200 2 25700 DEPARTURE; row 6 8 200 99 26000 ARRIVAL].

Definition unlisted_data : list (string * LinkGen.RouteData) :=
  line_data
  ++ [("8"%string, LinkGen.mkRouteData (Some 8) [3] [("3"%string, [stop_B])])].

Definition zero_speed : LinkGen.ConfigUpdate :=
  LinkGen.mkUpdate None None (Some 0%Q) None None.

End Examples.

(** [sum(l)] on a list of floats. *)
Definition Qsum (l : list Q) : Q := fold_left Qplus l 0%Q.

(** ** node_generator.py: distances along the path, variants and routes *)

Module Variants.
Import NodeGen.

(** A function that may raise, and the loop [for x in l] over such a body. *)
Definition Result (A : Type) : Type := (A + Py.Exn)%type.

Definition ret {A : Type} (x : A) : Result A := inl x.

Definition raise {A : Type} (e : Py.Exn) : Result A := inr e.

Definition bind {A B : Type} (r : Result A) (k : A -> Result B) : Result B :=
  match r with
  | inl x => k x
  | inr e => inr e
  end.

Notation "x <- r ;; k" := (bind r (fun x => k))
  (at level 61, r at next level, right associativity).

Fixpoint foldM {A S : Type} (body : S -> A -> Result S) (l : list A) (s : S)
  : Result S :=
  match l with
  | [] => ret s
  | x :: rest => s' <- body s x ;; foldM body rest s'
  end.

(** [l[i]] for an index [i >= 0]. *)
Definition getitem (l : list Q) (i : nat) : Result Q :=
  match nth_error l i with
  | Some x => ret x
  | None => raise Py.IndexError
  end.

(** The part of a route of the bus JSON that the node generator reads.  A
    key read with [d.get(k)] is an option; a list or dict read with
    [d.get(k, [])] or [d.get(k, {})] is empty when the key is missing.
    [getvarsbyroute] holds the [RouteVarId] of each variant. *)
Record TimeTable := mkTimeTable {
  tt_RouteVarId : Z;
  TimeTableId : Z
}.

Record Paths := mkPaths {
  lat : list Q;
  lng : list Q
}.

Record RouteJson := mkRouteJson {
  getroutebyid_RouteId : option Z;
  getroutebyid_RouteNo : option string;
  getroutebyid_Type : option string;
  getvarsbyroute : list Z;
  getstopsbyvar : list (string * list Stop);
  getpathsbyvar : list (string * Paths);
  gettimetablebyroute : list TimeTable;
  gettripsbytimetable : list (string * list Trip)
}.

(** The dict returned by [find_nearest_point_on_path]; [distance] is
    [None] for [float('inf')]. *)
Record Nearest := mkNearest {
  index : nat;
  distance : option Q;
  nearest_lat : Q;
  nearest_lng : Q
}.

Section Distances.

Variable haversine_distance : Q -> Q -> Q -> Q -> Q.

(** Lines 112-116, the body of [for i in range(len(path_lats))] on the
    state [(min_distance, nearest_index)]. *)
Definition nearest_step (stop_lat stop_lng : Q) (path_lats path_lngs : list Q)
    (st : option Q * nat) (i : nat) : Result (option Q * nat) :=
  lat_i <- getitem path_lats i ;;
  lng_i <- getitem path_lngs i ;;
  let distance := haversine_distance stop_lat stop_lng lat_i lng_i in
  ret (match fst st with
       | Some min_distance =>
           if Qlt_le_dec distance min_distance then (Some distance, i) else st
       | None => (Some distance, i)
       end).

Definition find_nearest_point_on_path (stop_lat stop_lng : Q)
    (path_lats path_lngs : list Q) : Result Nearest :=
  st <- foldM (nearest_step stop_lat stop_lng path_lats path_lngs)
              (seq 0 (List.length path_lats)) (None, 0%nat) ;;
  lat_n <- getitem path_lats (snd st) ;;
  lng_n <- getitem path_lngs (snd st) ;;
  ret {| index := snd st; distance := fst st;
         nearest_lat := lat_n; nearest_lng := lng_n |}.

(** Lines 138-143 and 211-216: the length of the path from vertex
    [start_idx] to vertex [end_idx], the loop over
    [range(start_idx, end_idx)]. *)
Definition segment_step (path_lats path_lngs : list Q) (total_distance : Q)
    (i : nat) : Result Q :=
  lat_i <- getitem path_lats i ;;
  lng_i <- getitem path_lngs i ;;
  lat_j <- getitem path_lats (i + 1) ;;
  lng_j <- getitem path_lngs (i + 1) ;;
  ret (total_distance + haversine_distance lat_i lng_i lat_j lng_j)%Q.

Definition path_length (path_lats path_lngs : list Q) (start_idx end_idx : nat)
  : Result Q :=
  foldM (segment_step path_lats path_lngs)
        (seq start_idx (end_idx - start_idx)) 0%Q.

Definition calculate_real_distance (stop1 stop2 : Stop)
    (path_lats path_lngs : list Q) : Result Q :=
  nearest1 <- find_nearest_point_on_path (stop_Lat stop1) (stop_Lng stop1)
                                         path_lats path_lngs ;;
  nearest2 <- find_nearest_point_on_path (stop_Lat stop2) (stop_Lng stop2)
                                         path_lats path_lngs ;;
  let start_idx := Nat.min (index nearest1) (index nearest2) in
  let end_idx := Nat.max (index nearest1) (index nearest2) in
  path_length path_lats path_lngs start_idx end_idx.

(** Lines 200-206: two stops at the same coordinates. *)
Definition is_loop (stops : list Stop) : bool :=
  match stops with
  | [s0; s1] => Qeq_bool (stop_Lat s0) (stop_Lat s1)
                && Qeq_bool (stop_Lng s0) (stop_Lng s1)
  | _ => false
  end.

(** Lines 224-228: the distance of each pair of consecutive stops. *)
Fixpoint consecutive_distances (stops : list Stop) (path_lats path_lngs : list Q)
  : Result (list Q) :=
  match stops with
  | stop :: (next :: _) as rest =>
      distance <- calculate_real_distance stop next path_lats path_lngs ;;
      stop_distances <- consecutive_distances rest path_lats path_lngs ;;
      ret (distance :: stop_distances)
  | _ => ret []
  end.

(** Lines 208-230: the distances [(stop_distances, total_distance)]. *)
Definition distances (stops : list Stop) (is_loop_route : bool)
    (path_lats path_lngs : list Q) : Result (list Q * Q) :=
  if is_loop_route then
    total_distance <- path_length path_lats path_lngs 0
                                  (List.length path_lats - 1) ;;
    ret ([total_distance], total_distance)
  else
    stop_distances <- consecutive_distances stops path_lats path_lngs ;;
    ret (stop_distances, Qsum stop_distances).

(** Lines 252-413, the body of [for timetable in timetables]. *)
Definition process_timetable (cfg : Config) (route_data : RouteJson)
    (ctx : RouteCtx) (stops : list Stop) (is_loop_route : bool)
    (stop_distances : list Q) (total_distance : Q) (waiting_time : Z)
    (st : list Node * Z) (timetable : TimeTable) : Result (list Node * Z) :=
  let trips :=
    match Py.get_str (Py.str (TimeTableId timetable))
                     (gettripsbytimetable route_data) with
    | Some trips => trips
    | None => []
    end in
  process_trips cfg ctx stops is_loop_route stop_distances total_distance
                waiting_time trips (fst st) (snd st).

(** [process_route_variant].  Each of the checks of lines 171-198 and 233
    returns the empty list of nodes and the node id unchanged.  A variant
    without an entry in [getpathsbyvar] has the falsy [{}] for its paths;
    an entry without coordinates is caught by the check of line 186. *)
Definition process_route_variant (cfg : Config) (route_data : RouteJson)
    (variant_id route_id : Z) (route_no : string) (global_node_id : Z)
  : Result (list Node * Z) :=
  let nodes : list Node := [] in
  let bus_type := bus_type_of (getroutebyid_Type route_data) in
  let waiting_time := resolve_waiting_time cfg bus_type in
  if negb (existsb (fun v => v =? variant_id) (getvarsbyroute route_data))
  then ret (nodes, global_node_id)
  else
    let stops :=
      match Py.get_str (Py.str variant_id) (getstopsbyvar route_data) with
      | Some stops => stops
      | None => []
      end in
    match stops, Py.get_str (Py.str variant_id) (getpathsbyvar route_data) with
    | [], _ | _, None => ret (nodes, global_node_id)
    | _ :: _, Some paths =>
        let path_lats := lat paths in
        let path_lngs := lng paths in
        if ((List.length path_lats =? 0) || (List.length path_lngs =? 0))%nat
        then ret (nodes, global_node_id)
        else if (List.length stops <? 2)%nat then ret (nodes, global_node_id)
        else if ((List.length path_lats <? 2) || (List.length path_lngs <? 2))%nat
        then ret (nodes, global_node_id)
        else
          let is_loop_route := is_loop stops in
          ds <- distances stops is_loop_route path_lats path_lngs ;;
          let stop_distances := fst ds in
          let total_distance := snd ds in
          if Qle_bool total_distance 0 then ret (nodes, global_node_id)
          else
            let timetables :=
              filter (fun t => tt_RouteVarId t =? variant_id)
                     (gettimetablebyroute route_data) in
            foldM (process_timetable cfg route_data
                     (mkRouteCtx route_id route_no variant_id) stops
                     is_loop_route stop_distances total_distance waiting_time)
                  timetables (nodes, global_node_id)
    end.

(** Line 436: [all_route_keys[:ROUTE_LIMIT] if ROUTE_LIMIT else
    all_route_keys], on the items of the JSON. *)
Definition select_routes {A : Type} (ROUTE_LIMIT : option Z) (all_routes : list A)
  : list A :=
  match ROUTE_LIMIT with
  | None => all_routes
  | Some n =>
      if n =? 0 then all_routes
      else if 0 <? n then firstn (Z.to_nat n) all_routes
      else firstn (List.length all_routes - Z.to_nat (- n)) all_routes
  end.

(** Lines 445-461, the body of [for idx, route_key in enumerate(route_keys, 1)]
    on the state [(all_nodes, global_node_id)].  The default [int(route_key)]
    of [.get] is evaluated before the lookup. *)
Definition process_route (cfg : Config) (st : list Node * Z)
    (route : string * RouteJson) : Result (list Node * Z) :=
  let route_key := fst route in
  let route_data := snd route in
  key_id <- match Py.int (list_ascii_of_string route_key) with
            | Some n => ret n
            | None => raise Py.ValueError
            end ;;
  let route_id :=
    match getroutebyid_RouteId route_data with Some r => r | None => key_id end in
  let route_no :=
    match getroutebyid_RouteNo route_data with
    | Some r => r
    | None => route_key
    end in
  foldM (fun st variant_id =>
           r <- process_route_variant cfg route_data variant_id route_id route_no
                                      (snd st) ;;
           ret (fst st ++ fst r, snd r))
        (getvarsbyroute route_data) st.

(** [process_all_routes] on the items of the JSON object, in the order of
    the file: the rows written to the CSV file.  Node ids start at 1. *)
Definition process_all_routes (cfg : Config) (ROUTE_LIMIT : option Z)
    (data : list (string * RouteJson)) : Result (list Node) :=
  st <- foldM (process_route cfg) (select_routes ROUTE_LIMIT data) ([], 1) ;;
  ret (fst st).

End Distances.

End Variants.

(** ** Notions used in the statements *)

Module Notions.
Import NodeGen.
Import LinkGen.
Import Examples.

(** The order of the [Timestamp] column. *)
Definition by_time (a b : Node) : Prop := Timestamp a <= Timestamp b.
(** The file holds [base] rows and a whole number of chunks; the rows of
    the chunk in progress are fewer than a chunk. *)
Definition whole_chunks (chunk_size : Z) (base : nat) (w : Writer) : Prop :=
  Z.of_nat (List.length (chunk_links w)) < chunk_size
  /\ exists k, List.length (out_file w) = (base + k * Z.to_nat chunk_size)%nat.

(** The writer a run ends with. *)
Definition run_writer (r : Run) : Writer :=
  match r with
  | Running w => w
  | Aborted _ w => w
  end.

Definition route_ref (route : string * RouteData) : RouteRef :=
  match getroutebyid_RouteId (snd route) with
  | Some n => ById n
  | None => ByKey (fst route)
  end.

(** The stops of the JSON in the order [load_stop_info] visits them, each
    with the route id it is recorded under. *)
Definition listed_stops (data : list (string * RouteData)) : list (RouteRef * Stop) :=
  flat_map (fun route =>
              flat_map (fun variant_id =>
                          map (fun stop => (route_ref route, stop))
                              (stops_of_variant (snd route) variant_id))
                       (getvarsbyroute (snd route)))
           data.

Definition has_stop_id (stop_id : Z) (p : RouteRef * Stop) : bool :=
  stop_StopId (snd p) =? stop_id.

(** What [load_stop_info] has built after the stops [seen]. *)
Definition table_ok (seen : list (RouteRef * Stop))
    (acc : list (Z * StopEntry) * list (Z * list RouteRef)) : Prop :=
  NoDup (map fst (fst acc))
  /\ map fst (snd acc) = map fst (fst acc)
  /\ forall stop_id,
       match find (has_stop_id stop_id) seen with
       | Some (_, first) =>
           exists e, Py.get_Z stop_id (fst acc) = Some e
                     /\ Lat e = stop_Lat first /\ Lng e = stop_Lng first
                     /\ Name e = stop_Name first
                     /\ Py.get_Z stop_id (snd acc) = Some (Routes e)
       | None => Py.get_Z stop_id (fst acc) = None
                 /\ Py.get_Z stop_id (snd acc) = None
       end
       /\ NoDup (routes_of (snd acc) stop_id)
       /\ forall r, In r (routes_of (snd acc) stop_id) <->
                    exists stop, In (r, stop) seen /\ stop_StopId stop = stop_id.

(** The ids [first], [first + 1], ... of [n] consecutive rows. *)
Definition ids_from (first : Z) (n : nat) : list Z :=
  map (fun i => first + Z.of_nat i) (seq 0 n).

(** A node of the given trip at one of the given stops. *)
Definition node_of_trip (ctx : RouteCtx) (trip : Trip) (stops : list Stop)
    (n : Node) : Prop :=
  RouteId n = route_id ctx /\ RouteNo n = route_no ctx
  /\ RouteVarId n = variant_id ctx /\ TripId n = trip_TripId trip
  /\ Time n = seconds_to_time (Timestamp n)
  /\ Attributes n = (RouteId n, StopId n, Timestamp n, Event n)
  /\ exists stop, In stop stops /\ StopId n = stop_StopId stop
                  /\ StopName n = stop_Name stop.

(** A timetable of three trips of the line, the second with an hour out
    of range, and the nodes it is expanded to. *)
Definition line_trips : list Trip :=
  [line_trip;
   mkTrip 101 (Some "25:00"%string) (Some "07:40"%string);
   mkTrip 102 (Some "07:30"%string) (Some "07:40"%string)].

Definition line_timetable_nodes : list Node :=
  match process_trips default_config line_ctx line_stops false
                      [1100; 1100]%Q 2200 30 line_trips [] 1 with
  | inl (all_nodes, _) => all_nodes
  | inr _ => []
  end.

(** The timetable's ["HH:MM"] for an hour and a minute. *)
Definition hh_mm (hours minutes : Z) : string :=
  (Py.fmt_02d hours ++ ":" ++ Py.fmt_02d minutes)%string.

(** One case of the round trip between ["HH:MM"] and seconds, decided. *)
Definition round_trip_ok (hours minutes : Z) : bool :=
  match parse_time_to_seconds (Some (hh_mm hours minutes)) false with
  | Some seconds =>
      (seconds =? hours * 3600 + minutes * 60)
      && String.eqb (seconds_to_time seconds) (hh_mm hours minutes ++ ":00")
  | None => false
  end.
(** The shipped constants with [SKIP_INVALID_TRIPS] off, and a trip whose
    start hour is out of range. *)
Definition strict_config : NodeGen.Config := NodeGen.mkConfig 30 [] false 1.

Definition invalid_trip : Trip :=
  mkTrip 101 (Some "25:00"%string) (Some "07:40"%string).

(** The distance from a stop to vertex [j] of the path, and the length of
    the segment of the path that starts at vertex [i]. *)
Definition vertex_distance (haversine_distance : Q -> Q -> Q -> Q -> Q)
    (stop_lat stop_lng : Q) (path_lats path_lngs : list Q) (j : nat) : Q :=
  haversine_distance stop_lat stop_lng (nth j path_lats 0%Q) (nth j path_lngs 0%Q).

Definition segment_length (haversine_distance : Q -> Q -> Q -> Q -> Q)
    (path_lats path_lngs : list Q) (i : nat) : Q :=
  haversine_distance (nth i path_lats 0%Q) (nth i path_lngs 0%Q)
                     (nth (i + 1) path_lats 0%Q) (nth (i + 1) path_lngs 0%Q).
(** A node of a trip that the route lists in a timetable of the node's
    variant, at a stop of that variant. *)
Definition node_of_variant (route_data : Variants.RouteJson) (n : Node) : Prop :=
  In (RouteVarId n) (Variants.getvarsbyroute route_data)
  /\ exists timetable trips trip stops,
       In timetable (Variants.gettimetablebyroute route_data)
       /\ Variants.tt_RouteVarId timetable = RouteVarId n
       /\ Py.get_str (Py.str (Variants.TimeTableId timetable))
                     (Variants.gettripsbytimetable route_data) = Some trips
       /\ In trip trips
       /\ Py.get_str (Py.str (RouteVarId n)) (Variants.getstopsbyvar route_data)
          = Some stops
       /\ node_of_trip (mkRouteCtx (RouteId n) (RouteNo n) (RouteVarId n))
                       trip stops n.

(** A node of the route stored under [route_key]: the route id and number
    are those of [getroutebyid], or else the key. *)
Definition node_of_route (route : string * Variants.RouteJson) (n : Node) : Prop :=
  match Variants.getroutebyid_RouteId (snd route) with
  | Some route_id => RouteId n = route_id
  | None => Py.int (list_ascii_of_string (fst route)) = Some (RouteId n)
  end
  /\ RouteNo n = match Variants.getroutebyid_RouteNo (snd route) with
                 | Some route_no => route_no
                 | None => fst route
                 end
  /\ node_of_variant (snd route) n.

End Notions.

(** ** Example routes *)

Module RouteExamples.
Import NodeGen.
Import Variants.
Import Examples.
Import Notions.

(** The path of the line: one vertex at each of the stops A, B and C. *)
Definition line_paths : Paths :=
  mkPaths [10; 10; 10]%Q [106; 10601 # 100; 10602 # 100]%Q.

Definition line_route : RouteJson :=
  {| getroutebyid_RouteId := Some 7;
     getroutebyid_RouteNo := Some "7"%string;
     getroutebyid_Type := None;
     getvarsbyroute := [1];
     getstopsbyvar := [("1"%string, line_stops)];
     getpathsbyvar := [("1"%string, line_paths)];
     gettimetablebyroute := [mkTimeTable 1 11];
     gettripsbytimetable := [("11"%string, line_trips)] |}.

(** The nearest vertex of the path of the line, for one of its stops. *)
Definition line_nearest (stop : Stop) : Nearest :=
  match find_nearest_point_on_path planar_distance (stop_Lat stop) (stop_Lng stop)
                                   (lat line_paths) (lng line_paths) with
  | inl nearest => nearest
  | inr _ => mkNearest 0 None 0 0
  end.

(** The same route with one longitude missing from the path. *)
Definition short_lng_route : RouteJson :=
  {| getroutebyid_RouteId := Some 7;
     getroutebyid_RouteNo := Some "7"%string;
     getroutebyid_Type := None;
     getvarsbyroute := [1];
     getstopsbyvar := [("1"%string, line_stops)];
     getpathsbyvar := [("1"%string, mkPaths [10; 10; 10]%Q [106; 10601 # 100]%Q)];
     gettimetablebyroute := [mkTimeTable 1 11];
     gettripsbytimetable := [("11"%string, line_trips)] |}.

(** The JSON with this route only, and its node table. *)
Definition line_json : list (string * RouteJson) := [("7"%string, line_route)].

Definition line_table : list Node :=
  match process_all_routes planar_distance default_config None line_json with
  | inl all_nodes => all_nodes
  | inr _ => []
  end.

End RouteExamples.

(** * Proofs *)

(** ** Rounding *)



Lemma round_inject_Z (z : Z) : Py.round (inject_Z z) = z.
Proof.
  unfold Py.round. rewrite Qfloor_Z.
  assert (E : (inject_Z z - inject_Z z == 0)%Q) by ring.
  rewrite E. reflexivity.
Qed.

Import NodeGen.

Section TripEvents.
Variables (ctx : RouteCtx) (trip : Trip) (stop_distances : list Q)
          (avg_speed : Q) (waiting_time : Z).

Lemma emit_stop_later (n i : nat) (stop : Stop) (st : EmitState) :
  (1 <= i)%nat ->
  emit_stop ctx trip n stop_distances avg_speed waiting_time st (i, stop)
  = let st1 := emit ctx trip stop ARRIVAL
                    (advance (nth (i - 1) stop_distances 0%Q / avg_speed)%Q st) in
    if (i <? n - 1)%nat
    then emit ctx trip stop DEPARTURE (advance (inject_Z waiting_time) st1)
    else st1.
Proof.
  intros Hi. unfold emit_stop.
  destruct (Nat.eqb_spec i 0) as [E|_]; [lia | reflexivity].
Qed.

Lemma fold_emit_stop (n : nat) :
  forall (rest : list Stop) (i : nat) (st : EmitState),
    (1 <= i)%nat -> n = (i + List.length rest)%nat ->
    let st' := fold_left (emit_stop ctx trip n stop_distances avg_speed waiting_time)
                         (combine (seq i (List.length rest)) rest) st in
    nodes st' = nodes st ++ later_events ctx trip stop_distances avg_speed
                                         waiting_time i (current_time st)
                                         (global_node_id st) rest
    /\ global_node_id st'
       = global_node_id st
         + Z.of_nat (List.length (later_events ctx trip stop_distances avg_speed
                                    waiting_time i (current_time st)
                                    (global_node_id st) rest)).
Proof.
  induction rest as [|stop later IH]; intros i st Hi Hn.
  - simpl. rewrite app_nil_r. split; [reflexivity | lia].
  - cbn [List.length seq combine fold_left].
    rewrite emit_stop_later by exact Hi. cbn zeta.
    destruct later as [|next later'].
    + assert (E1 : (i <? n - 1)%nat = false)
        by (apply Nat.ltb_ge; simpl in Hn; lia).
      rewrite E1. simpl. split; [reflexivity | lia].
    + assert (E1 : (i <? n - 1)%nat = true)
        by (apply Nat.ltb_lt; simpl in Hn; lia).
      rewrite E1.
      match goal with
      | |- context [fold_left _ _ ?s] => set (st2 := s)
      end.
      destruct (IH (S i) st2) as [IHn IHg]; [lia | simpl in *; lia |].
      cbn zeta in IHn, IHg |- *.
      rewrite IHn, IHg.
      cbn [later_events].
      replace (global_node_id st2) with (global_node_id st + 2)
        by (subst st2; simpl; lia).
      subst st2. cbn [nodes emit advance current_time global_node_id].
      replace (global_node_id st + 1 + 1) with (global_node_id st + 2) by lia.
      rewrite <- !app_assoc. simpl.
      split; [reflexivity | ].
      lia.
Qed.
End TripEvents.

Lemma emit_trip_non_loop ctx first rest stop_distances avg_speed waiting_time trip
      start_seconds end_seconds gid :
  emit_trip ctx (first :: rest) false stop_distances avg_speed waiting_time trip
            start_seconds end_seconds gid
  = let new_nodes :=
      make_node ctx trip gid first (inject_Z start_seconds) DEPARTURE
      :: later_events ctx trip stop_distances avg_speed waiting_time 1
                      (inject_Z start_seconds) (gid + 1) rest in
    Emitted new_nodes (gid + Z.of_nat (List.length new_nodes)).
Proof.
  unfold emit_trip, enumerate.
  cbn [List.length seq combine fold_left emit_stop Nat.eqb].
  match goal with
  | |- context [fold_left _ _ ?s] => set (st1 := s)
  end.
  destruct (fold_emit_stop ctx trip stop_distances avg_speed waiting_time
              (S (List.length rest)) rest 1 st1) as [Hn Hg]; [lia | lia |].
  cbn zeta in Hn, Hg |- *. rewrite Hn, Hg.
  subst st1. cbn [nodes emit current_time global_node_id app List.length].
  f_equal. lia.
Qed.

Lemma emit_trip_non_loop_nil ctx stop_distances avg_speed waiting_time trip
      start_seconds end_seconds gid :
  emit_trip ctx [] false stop_distances avg_speed waiting_time trip
            start_seconds end_seconds gid = Emitted [] gid.
Proof. reflexivity. Qed.

Lemma later_events_step ctx trip stop_distances avg_speed waiting_time i t gid
      stop next later :
  later_events ctx trip stop_distances avg_speed waiting_time i t gid
               (stop :: next :: later)
  = let t_arr := (t + nth (i - 1) stop_distances 0%Q / avg_speed)%Q in
    let t_dep := (t_arr + inject_Z waiting_time)%Q in
    make_node ctx trip gid stop t_arr ARRIVAL
    :: make_node ctx trip (gid + 1) stop t_dep DEPARTURE
    :: later_events ctx trip stop_distances avg_speed waiting_time (S i) t_dep
                    (gid + 2) (next :: later).
Proof. reflexivity. Qed.




(** ** Chunked output *)

Import LinkGen.


Lemma number_app cs1 : forall start cs2,
  number start (cs1 ++ cs2)
  = number start cs1 ++ number (start + Z.of_nat (List.length cs1)) cs2.
Proof.
  induction cs1 as [|[[[f t] d] m] r IH]; intros start cs2.
  - simpl. f_equal. lia.
  - cbn [app number List.length]. rewrite IH. simpl app. do 3 f_equal. lia.
Qed.

Lemma map_content_number cs : forall start, map content (number start cs) = cs.
Proof.
  induction cs as [|[[[f t] d] m] r IH]; intros start; [reflexivity |].
  cbn [number map]. rewrite IH. reflexivity.
Qed.

Lemma length_number cs : forall start, List.length (number start cs) = List.length cs.
Proof.
  intros start. rewrite <- (map_content_number cs start) at 2.
  symmetry. apply length_map.
Qed.

Lemma in_number l start cs : In l (number start cs) -> In (content l) cs.
Proof.
  intros H. rewrite <- (map_content_number cs start). apply in_map. exact H.
Qed.

Lemma number_in c cs start :
  In c cs -> exists l, In l (number start cs) /\ content l = c.
Proof.
  intros H. rewrite <- (map_content_number cs start) in H.
  apply in_map_iff in H. destruct H as [l [E Hl]]. exists l. auto.
Qed.

Lemma link_ids_number cs : forall start,
  map link_id (number start cs)
  = map (fun i => start + Z.of_nat i) (seq 0 (List.length cs)).
Proof.
  induction cs as [|[[[f t] d] m] r IH]; intros start; [reflexivity |].
  cbn [number map List.length seq link_id]. f_equal; [lia |].
  rewrite IH, <- seq_shift, map_map. apply map_ext. intros i. lia.
Qed.

Lemma produces_refl w : produces w w [].
Proof.
  unfold produces. simpl. rewrite app_nil_r.
  split; [reflexivity | split; [lia |]].
  exists []. rewrite app_nil_r. reflexivity.
Qed.

Lemma produces_trans w1 w2 w3 cs1 cs2 :
  produces w1 w2 cs1 -> produces w2 w3 cs2 -> produces w1 w3 (cs1 ++ cs2).
Proof.
  intros [E1 [N1 [u1 F1]]] [E2 [N2 [u2 F2]]]. unfold produces.
  rewrite E2, E1, N1, number_app, <- app_assoc, N2, F2, F1, length_app.
  split; [reflexivity | split; [lia |]].
  exists (u1 ++ u2). rewrite app_assoc. reflexivity.
Qed.

Lemma produces_append_link chunk_size m f t d w :
  produces w (append_link chunk_size m f t d w) [(f, t, d, m)].
Proof.
  unfold produces, append_link, emitted.
  destruct (Z.of_nat _ >=? chunk_size); cbn [out_file chunk_links next_link_id number List.length].
  - split; [| split; [lia | eexists; reflexivity]].
    rewrite app_nil_r, app_assoc. reflexivity.
  - split; [| split; [lia |]].
    + rewrite app_assoc. reflexivity.
    + exists []. rewrite app_nil_r. reflexivity.
Qed.

Lemma produces_flush w : produces w (flush w) [].
Proof.
  unfold produces, flush, emitted. destruct (chunk_links w) as [|l r] eqn:E.
  - rewrite E. simpl. repeat rewrite app_nil_r.
    split; [reflexivity | split; [lia |]].
    exists []. rewrite app_nil_r. reflexivity.
  - cbn [out_file chunk_links next_link_id number List.length].
    split; [| split; [lia | eexists; reflexivity]].
    repeat rewrite app_nil_r. reflexivity.
Qed.

Lemma chunk_links_flush w : chunk_links (flush w) = [].
Proof. unfold flush. destruct (chunk_links w) eqn:E; [exact E | reflexivity]. Qed.

Lemma produces_fold {A : Type} (step : Writer -> A -> Writer) (rows : A -> list Content) :
  (forall w x, produces w (step w x) (rows x)) ->
  forall xs w, produces w (fold_left step xs w) (flat_map rows xs).
Proof.
  intros Hstep. induction xs as [|x xs IH]; intros w.
  - apply produces_refl.
  - cbn [fold_left flat_map]. eapply produces_trans; [apply Hstep | apply IH].
Qed.

Lemma close_writer_spec output_file start w cs :
  produces (open_writer output_file start) w cs ->
  close_writer w = (output_file ++ number start cs, start + Z.of_nat (List.length cs)).
Proof.
  intros H. pose proof (produces_trans _ _ _ _ _ H (produces_flush w)) as [E [N _]].
  unfold close_writer. rewrite app_nil_r in E, N.
  unfold emitted in E. rewrite chunk_links_flush, app_nil_r in E.
  cbn [open_writer out_file chunk_links next_link_id] in E, N.
  rewrite app_nil_r in E. rewrite E, N. reflexivity.
Qed.

(** Builders without exceptions *)

Lemma bus_departure_step_produces arrivals w dep :
  produces w (bus_departure_step arrivals w dep) (bus_of_departure arrivals dep).
Proof.
  unfold bus_departure_step, bus_of_departure.
  destruct (filter _ arrivals) as [|next_arrival rest]; [apply produces_refl |].
  destruct (_ <? 1800); [apply produces_append_link | apply produces_refl].
Qed.

Lemma bus_group_step_produces w group :
  produces w (bus_group_step w group) (bus_of_group group).
Proof.
  unfold bus_group_step, bus_of_group. apply produces_fold.
  intros w' dep. apply bus_departure_step_produces.
Qed.

Lemma create_bus_links_exact node_df start :
  create_bus_links_to_file node_df start
  = (number start (bus_contents node_df),
     start + Z.of_nat (List.length (bus_contents node_df))).
Proof.
  unfold create_bus_links_to_file.
  rewrite (close_writer_spec [] start _ (bus_contents node_df)); [reflexivity |].
  apply produces_fold. intros w g. apply bus_group_step_produces.
Qed.

Lemma flat_map_single {A B : Type} (f : A -> B) (l : list A) :
  flat_map (fun x => [f x]) l = map f l.
Proof. induction l as [|x l IH]; [reflexivity | simpl; rewrite IH; reflexivity]. Qed.

Lemma wait_arrival_step_produces departures w arrival :
  produces w (wait_arrival_step departures w arrival)
           (wait_of_arrival departures arrival).
Proof.
  unfold wait_arrival_step, wait_of_arrival. rewrite <- flat_map_single.
  apply produces_fold. intros w' d. apply produces_append_link.
Qed.

Lemma wait_group_step_produces w group :
  produces w (wait_group_step w group) (wait_of_group group).
Proof.
  unfold wait_group_step, wait_of_group. apply produces_fold.
  intros w' a. apply wait_arrival_step_produces.
Qed.

Lemma append_wait_links_exact node_df output_file start :
  append_wait_links_to_file node_df output_file start
  = (output_file ++ number start (wait_contents node_df),
     start + Z.of_nat (List.length (wait_contents node_df))).
Proof.
  unfold append_wait_links_to_file. apply close_writer_spec.
  apply produces_fold. intros w g. apply wait_group_step_produces.
Qed.

Lemma transfer_arrival_step_produces cfg max_transfer_time departures w arrival :
  produces w (transfer_arrival_step cfg max_transfer_time departures w arrival)
           (transfer_of_arrival cfg max_transfer_time departures arrival).
Proof.
  unfold transfer_arrival_step, transfer_of_arrival.
  apply produces_fold. intros w' d.
  destruct (_ >=? MIN_TRANSFER_TIME cfg);
    [apply produces_append_link | apply produces_refl].
Qed.

Lemma transfer_group_step_produces cfg max_transfer_time w group :
  produces w (transfer_group_step cfg max_transfer_time w group)
           (transfer_of_group cfg max_transfer_time group).
Proof.
  unfold transfer_group_step, transfer_of_group. apply produces_fold.
  intros w' a. apply transfer_arrival_step_produces.
Qed.

Lemma append_transfer_links_exact cfg node_df output_file start max_transfer_time :
  append_transfer_links_to_file cfg node_df output_file start max_transfer_time
  = (output_file ++ number start (transfer_contents cfg max_transfer_time node_df),
     start + Z.of_nat (List.length
                         (transfer_contents cfg max_transfer_time node_df))).
Proof.
  unfold append_transfer_links_to_file. apply close_writer_spec.
  apply produces_fold. intros w g. apply transfer_group_step_produces.
Qed.

(** pandas: membership *)

Lemma in_insert_by_timestamp r x l :
  In x (insert_by_timestamp r l) <-> x = r \/ In x l.
Proof.
  induction l as [|y l IH]; simpl.
  - intuition congruence.
  - destruct (Timestamp r <=? Timestamp y); simpl; [intuition congruence |].
    rewrite IH. intuition congruence.
Qed.

Lemma in_sort_values x df : In x (sort_values df) <-> In x df.
Proof.
  induction df as [|r df IH]; simpl; [tauto |].
  rewrite in_insert_by_timestamp, IH. intuition congruence.
Qed.

Lemma length_insert_by_timestamp r l :
  List.length (insert_by_timestamp r l) = S (List.length l).
Proof.
  induction l as [|y l IH]; simpl; [reflexivity |].
  destruct (Timestamp r <=? Timestamp y); simpl; [reflexivity | rewrite IH; reflexivity].
Qed.

Section GroupByFacts.
Context {K : Type} (compare : K -> K -> comparison).
Hypothesis compare_eq : forall a b, compare a b = Eq <-> a = b.

Lemma in_insert_key x k ks : In x (insert_key compare k ks) <-> x = k \/ In x ks.
Proof.
  induction ks as [|k' r IH]; simpl.
  - intuition congruence.
  - destruct (compare k k') eqn:E; simpl.
    + apply compare_eq in E. subst k'. intuition congruence.
    + intuition congruence.
    + rewrite IH. intuition congruence.
Qed.

Lemma in_group_keys x ks : In x (fold_right (insert_key compare) [] ks) <-> In x ks.
Proof.
  induction ks as [|k r IH]; simpl; [tauto |].
  rewrite in_insert_key, IH. intuition congruence.
Qed.

Lemma same_key_true a b : same_key compare a b = true <-> a = b.
Proof.
  unfold same_key. rewrite <- compare_eq.
  destruct (compare a b); intuition congruence.
Qed.

(** A row belongs to the group of its key, and to no other. *)
Lemma in_groupby key df k rows r :
  In (k, rows) (groupby compare key df) ->
  (In r rows <-> In r df /\ key r = k).
Proof.
  unfold groupby. intros H. apply in_map_iff in H.
  destruct H as [k' [E _]]. injection E as -> <-.
  rewrite filter_In, same_key_true. tauto.
Qed.

Lemma groupby_has_group key df r :
  In r df -> exists rows, In (key r, rows) (groupby compare key df) /\ In r rows.
Proof.
  intros H. unfold groupby.
  exists (filter (fun r' => same_key compare (key r') (key r)) df). split.
  - apply in_map_iff. exists (key r). split; [reflexivity |].
    apply in_group_keys, in_map, H.
  - apply filter_In. split; [exact H | apply same_key_true; reflexivity].
Qed.
End GroupByFacts.

Lemma compare_pair_eq a b : compare_pair a b = Eq <-> a = b.
Proof.
  destruct a as [a1 a2], b as [b1 b2]. unfold compare_pair. simpl.
  destruct (a1 ?= b1) eqn:E1.
  - apply Z.compare_eq_iff in E1. subst. rewrite Z.compare_eq_iff.
    split; [intros -> ; reflexivity | intros E; injection E; auto].
  - split; [discriminate |]. intros E. injection E as -> _.
    rewrite Z.compare_refl in E1. discriminate.
  - split; [discriminate |]. intros E. injection E as -> _.
    rewrite Z.compare_refl in E1. discriminate.
Qed.

Lemma is_event_true e r : is_event e r = true <-> Event r = e.
Proof. unfold is_event. destruct (Event r), e; simpl; intuition congruence. Qed.

(** Which rows each builder appends *)

Lemma in_transfer_contents cfg max_transfer_time node_df c :
  In c (transfer_contents cfg max_transfer_time node_df) <->
  exists a dep,
    In a node_df /\ In dep node_df
    /\ Event a = ARRIVAL /\ Event dep = DEPARTURE
    /\ StopId dep = StopId a /\ RouteId dep <> RouteId a
    /\ Timestamp a < Timestamp dep
    /\ Timestamp dep - Timestamp a <= max_transfer_time
    /\ MIN_TRANSFER_TIME cfg <= Timestamp dep - Timestamp a
    /\ c = (NodeId a, NodeId dep, Timestamp dep - Timestamp a, transfer).
Proof.
  unfold transfer_contents. rewrite in_flat_map. split.
  - intros [[k rows] [Hg Hc]]. unfold transfer_of_group in Hc. cbn [snd] in Hc.
    apply in_flat_map in Hc. destruct Hc as [a [Ha Hc]].
    unfold transfer_of_arrival in Hc.
    apply in_flat_map in Hc. destruct Hc as [dep [Hd Hc]].
    apply in_sort_values, filter_In in Ha. destruct Ha as [Ha Hea].
    apply filter_In in Hd. destruct Hd as [Hd Hf].
    apply in_sort_values, filter_In in Hd. destruct Hd as [Hd Hed].
    apply (in_groupby Z.compare Z.compare_eq_iff StopId node_df k rows a Hg) in Ha.
    apply (in_groupby Z.compare Z.compare_eq_iff StopId node_df k rows dep Hg) in Hd.
    apply is_event_true in Hea, Hed.
    apply andb_true_iff in Hf. destruct Hf as [Hf H3].
    apply andb_true_iff in Hf. destruct Hf as [H1 H2].
    apply negb_true_iff, Z.eqb_neq in H1.
    apply Z.gtb_lt in H2. apply Z.leb_le in H3.
    destruct (Timestamp dep - Timestamp a >=? MIN_TRANSFER_TIME cfg) eqn:H4;
      [| destruct Hc].
    destruct Hc as [<- | []].
    exists a, dep. rewrite Z.geb_le in H4.
    destruct Ha as [Ha Ka], Hd as [Hd Kd].
    repeat split; try assumption; try lia; congruence.
  - intros [a [dep [Ha [Hd [Hea [Hed [Hs [Hr [Ht [Hmax [Hmin ->]]]]]]]]]]].
    destruct (groupby_has_group Z.compare Z.compare_eq_iff StopId node_df a Ha)
      as [rows [Hg Har]].
    exists (StopId a, rows). split; [exact Hg |].
    unfold transfer_of_group. cbn [snd]. apply in_flat_map. exists a. split.
    + apply in_sort_values, filter_In. split; [exact Har |].
      apply is_event_true; exact Hea.
    + unfold transfer_of_arrival. apply in_flat_map. exists dep. split.
      * apply filter_In. split.
        -- apply in_sort_values, filter_In. split.
           ++ apply (in_groupby Z.compare Z.compare_eq_iff StopId node_df
                                (StopId a) rows dep Hg). auto.
           ++ apply is_event_true; exact Hed.
        -- apply andb_true_iff. split; [apply andb_true_iff; split |].
           ++ apply negb_true_iff, Z.eqb_neq. exact Hr.
           ++ apply Z.gtb_lt. exact Ht.
           ++ apply Z.leb_le. exact Hmax.
      * apply Z.geb_le in Hmin. rewrite Hmin. left. reflexivity.
Qed.

Lemma in_wait_contents node_df c :
  In c (wait_contents node_df) <->
  exists a dep,
    In a node_df /\ In dep node_df
    /\ Event a = ARRIVAL /\ Event dep = DEPARTURE
    /\ StopId dep = StopId a /\ RouteId dep = RouteId a
    /\ Timestamp a < Timestamp dep
    /\ c = (NodeId a, NodeId dep, Timestamp dep - Timestamp a, wait).
Proof.
  unfold wait_contents. rewrite in_flat_map. split.
  - intros [[k rows] [Hg Hc]]. unfold wait_of_group in Hc. cbn [snd] in Hc.
    apply in_flat_map in Hc. destruct Hc as [a [Ha Hc]].
    unfold wait_of_arrival in Hc.
    apply in_map_iff in Hc. destruct Hc as [dep [<- Hd]].
    apply in_sort_values, filter_In in Ha. destruct Ha as [Ha Hea].
    apply filter_In in Hd. destruct Hd as [Hd Hf].
    apply in_sort_values, filter_In in Hd. destruct Hd as [Hd Hed].
    apply (in_groupby compare_pair compare_pair_eq _ node_df k rows a Hg) in Ha.
    apply (in_groupby compare_pair compare_pair_eq _ node_df k rows dep Hg) in Hd.
    apply is_event_true in Hea, Hed. apply Z.gtb_lt in Hf.
    destruct Ha as [Ha Ka], Hd as [Hd Kd]. subst k. injection Kd as Ks Kr.
    exists a, dep. repeat split; assumption.
  - intros [a [dep [Ha [Hd [Hea [Hed [Hs [Hr [Ht ->]]]]]]]]].
    destruct (groupby_has_group compare_pair compare_pair_eq
                (fun r => (StopId r, RouteId r)) node_df a Ha) as [rows [Hg Har]].
    exists ((StopId a, RouteId a), rows). split; [exact Hg |].
    unfold wait_of_group. cbn [snd]. apply in_flat_map. exists a. split.
    + apply in_sort_values, filter_In. split; [exact Har |].
      apply is_event_true; exact Hea.
    + unfold wait_of_arrival. apply in_map_iff. exists dep.
      split; [reflexivity |]. apply filter_In. split.
      * apply in_sort_values, filter_In. split.
        -- apply (in_groupby compare_pair compare_pair_eq _ node_df
                              (StopId a, RouteId a) rows dep Hg).
           split; [exact Hd | congruence].
        -- apply is_event_true; exact Hed.
      * apply Z.gtb_lt. exact Ht.
Qed.

Lemma in_bus_contents node_df c :
  In c (bus_contents node_df) ->
  exists dep arr,
    In dep node_df /\ In arr node_df
    /\ Event dep = DEPARTURE /\ Event arr = ARRIVAL
    /\ RouteId arr = RouteId dep /\ TripId arr = TripId dep
    /\ Timestamp dep < Timestamp arr
    /\ Timestamp arr - Timestamp dep < 1800
    /\ c = (NodeId dep, NodeId arr, Timestamp arr - Timestamp dep, bus).
Proof.
  unfold bus_contents. rewrite in_flat_map.
  intros [[k rows] [Hg Hc]]. unfold bus_of_group in Hc. cbn [snd] in Hc.
  apply in_flat_map in Hc. destruct Hc as [dep [Hd Hc]].
  apply filter_In in Hd. destruct Hd as [Hd Hed]. apply -> in_sort_values in Hd.
  unfold bus_of_departure in Hc.
  destruct (filter _ _) as [|arr rest] eqn:Ef; [destruct Hc |].
  assert (Ha : In arr (arr :: rest)) by (left; reflexivity).
  rewrite <- Ef in Ha. apply filter_In in Ha. destruct Ha as [Ha Hgt].
  apply filter_In in Ha. destruct Ha as [Ha Hea]. apply -> in_sort_values in Ha.
  destruct (Timestamp arr - Timestamp dep <? 1800) eqn:Hlt; [| destruct Hc].
  destruct Hc as [<- | []].
  apply (in_groupby compare_pair compare_pair_eq _ node_df k rows dep Hg) in Hd.
  apply (in_groupby compare_pair compare_pair_eq _ node_df k rows arr Hg) in Ha.
  apply is_event_true in Hea, Hed. apply Z.gtb_lt in Hgt. apply Z.ltb_lt in Hlt.
  destruct Ha as [Ha Ka], Hd as [Hd Kd]. subst k. injection Ka as Kr Kt.
  exists dep, arr. repeat split; assumption.
Qed.

(** Runs that may raise *)

Lemma foreach_aborted {A : Type} (body : Writer -> A -> Run) e w xs :
  fold_left (fun r x => bind r (fun w => body w x)) xs (Aborted e w) = Aborted e w.
Proof. induction xs as [|x xs IH]; [reflexivity | exact IH]. Qed.

Lemma foreach_cons {A : Type} (body : Writer -> A -> Run) x xs w :
  foreach (x :: xs) body w
  = match body w x with
    | Running w' => foreach xs body w'
    | Aborted e w' => Aborted e w'
    end.
Proof.
  unfold foreach. cbn [fold_left bind].
  destruct (body w x) as [w'|e w']; [reflexivity | apply foreach_aborted].
Qed.

Section ForeachRun.
Context {A : Type} (body : Writer -> A -> Run)
        (fails : A -> option Py.Exn) (rows : A -> list Content).
Hypothesis body_ok : forall w x, fails x = None ->
  exists w', body w x = Running w' /\ produces w w' (rows x).
Hypothesis body_raises : forall w x e, fails x = Some e -> body w x = Aborted e w.

Lemma foreach_completes xs : forall w,
  Forall (fun x => fails x = None) xs ->
  exists w', foreach xs body w = Running w' /\ produces w w' (flat_map rows xs).
Proof.
  induction xs as [|x xs IH]; intros w Hall.
  - exists w. split; [reflexivity | apply produces_refl].
  - inversion Hall as [|? ? Hx Hxs]; subst.
    destruct (body_ok w x Hx) as [w1 [E1 P1]].
    destruct (IH w1 Hxs) as [w2 [E2 P2]].
    exists w2. rewrite foreach_cons, E1. split; [exact E2 |].
    cbn [flat_map]. eapply produces_trans; eassumption.
Qed.

Lemma foreach_aborts pre : forall w x post e,
  Forall (fun x => fails x = None) pre -> fails x = Some e ->
  exists w', foreach (pre ++ x :: post) body w = Aborted e w'
             /\ produces w w' (flat_map rows pre).
Proof.
  induction pre as [|y pre IH]; intros w x post e Hall Hx.
  - exists w. cbn [app]. rewrite foreach_cons, (body_raises w x e Hx).
    split; [reflexivity | apply produces_refl].
  - inversion Hall as [|? ? Hy Hpre]; subst.
    destruct (body_ok w y Hy) as [w1 [E1 P1]].
    destruct (IH w1 x post e Hpre Hx) as [w2 [E2 P2]].
    exists w2. cbn [app]. rewrite foreach_cons, E1. split; [exact E2 |].
    cbn [flat_map]. eapply produces_trans; eassumption.
Qed.

Lemma first_failure xs :
  Forall (fun x => fails x = None) xs
  \/ exists pre x post e, xs = pre ++ x :: post
                          /\ Forall (fun x => fails x = None) pre
                          /\ fails x = Some e.
Proof.
  induction xs as [|x xs IH]; [left; constructor |].
  destruct (fails x) as [e|] eqn:Ex.
  - right. exists [], x, xs, e. repeat split; [constructor | exact Ex].
  - destruct IH as [Hall | [pre [y [post [e [-> [Hpre Hy]]]]]]].
    + left. constructor; assumption.
    + right. exists (x :: pre), y, post, e.
      repeat split; [constructor; assumption | exact Hy].
Qed.
End ForeachRun.

Section WalkFacts.
Variable haversine_distance : Q -> Q -> Q -> Q -> Q.
Variables (cfg : Config) (walking_radius : Q) (max_walk_wait_time : Z)
          (stop_info : list (Z * StopEntry))
          (stop_routes : list (Z * list RouteRef)).

Lemma walk_nearby_step_ok deps arrival w nearby :
  Qeq_bool (WALKING_SPEED cfg) 0 = false ->
  exists w', walk_nearby_step cfg max_walk_wait_time stop_routes deps arrival
                              w nearby = Running w'
             /\ produces w w' (walk_of_nearby cfg max_walk_wait_time stop_routes
                                              deps arrival nearby).
Proof.
  intros Hs. unfold walk_nearby_step, walk_of_nearby. rewrite Hs.
  destruct (intersects _ _); [exists w; split; [reflexivity | apply produces_refl] |].
  destruct (Py.get_Z _ deps) as [nearby_deps|];
    [| exists w; split; [reflexivity | apply produces_refl]].
  eexists. split; [reflexivity |].
  rewrite <- flat_map_single. apply produces_fold.
  intros w' d. apply produces_append_link.
Qed.

Lemma walk_nearby_step_raises deps arrival w nearby :
  Qeq_bool (WALKING_SPEED cfg) 0 = true ->
  walk_nearby_step cfg max_walk_wait_time stop_routes deps arrival w nearby
  = Aborted Py.ZeroDivisionError w.
Proof. intros Hs. unfold walk_nearby_step. rewrite Hs. reflexivity. Qed.

Lemma walk_arrival_step_ok deps w arrival :
  walk_failure haversine_distance cfg walking_radius stop_info arrival = None ->
  exists w',
    walk_arrival_step haversine_distance cfg walking_radius max_walk_wait_time
                      stop_info stop_routes deps w arrival = Running w'
    /\ produces w w' (walk_of_arrival haversine_distance cfg walking_radius
                                      max_walk_wait_time stop_info stop_routes
                                      deps arrival).
Proof.
  unfold walk_failure, walk_arrival_step, walk_of_arrival.
  destruct (find_stops_within_radius _ _ _ _) as [nearby_stops|]; [| discriminate].
  destruct nearby_stops as [|n ns].
  - intros _. exists w. split; [reflexivity | apply produces_refl].
  - destruct (Qeq_bool (WALKING_SPEED cfg) 0) eqn:Hs; [discriminate |]. intros _.
    apply (foreach_completes _ (fun _ => None)).
    + intros w' x _. apply walk_nearby_step_ok. exact Hs.
    + apply Forall_forall. reflexivity.
Qed.

Lemma walk_arrival_step_raises deps w arrival e :
  walk_failure haversine_distance cfg walking_radius stop_info arrival = Some e ->
  walk_arrival_step haversine_distance cfg walking_radius max_walk_wait_time
                    stop_info stop_routes deps w arrival = Aborted e w.
Proof.
  unfold walk_failure, walk_arrival_step.
  destruct (find_stops_within_radius _ _ _ _) as [nearby_stops|].
  - destruct nearby_stops as [|n ns]; [discriminate |].
    destruct (Qeq_bool (WALKING_SPEED cfg) 0) eqn:Hs; [| discriminate].
    intros E. injection E as <-.
    rewrite foreach_cons, walk_nearby_step_raises by exact Hs. reflexivity.
  - intros E. injection E as <-. reflexivity.
Qed.

(** The walk builder completes exactly when no arrival fails. *)
Lemma append_walk_links_completes node_df output_file start :
  Forall (fun a => walk_failure haversine_distance cfg walking_radius
                                stop_info a = None)
         (filter (is_event ARRIVAL) node_df) ->
  let rows := walk_contents haversine_distance cfg walking_radius
                            max_walk_wait_time stop_info stop_routes node_df in
  append_walk_links_to_file haversine_distance cfg node_df stop_info stop_routes
                            output_file start walking_radius max_walk_wait_time
  = (output_file ++ number start rows, inl (start + Z.of_nat (List.length rows))).
Proof.
  intros Hall rows. unfold append_walk_links_to_file.
  destruct (foreach_completes _ _ _
              (fun w a => walk_arrival_step_ok (departures_by_stop node_df) w a)
              _ (open_writer output_file start) Hall) as [w' [E P]].
  rewrite E. unfold finish.
  pose proof (close_writer_spec _ _ _ _ P) as C. unfold close_writer in C.
  injection C as C1 C2. rewrite C1, C2. reflexivity.
Qed.

Lemma append_walk_links_aborts node_df output_file start pre a post e :
  filter (is_event ARRIVAL) node_df = pre ++ a :: post ->
  Forall (fun a => walk_failure haversine_distance cfg walking_radius
                                stop_info a = None) pre ->
  walk_failure haversine_distance cfg walking_radius stop_info a = Some e ->
  exists written buffered,
    append_walk_links_to_file haversine_distance cfg node_df stop_info stop_routes
                              output_file start walking_radius max_walk_wait_time
    = (output_file ++ written, inr e)
    /\ written ++ buffered
       = number start
           (flat_map (walk_of_arrival haversine_distance cfg walking_radius
                        max_walk_wait_time stop_info stop_routes
                        (departures_by_stop node_df)) pre).
Proof.
  intros Ef Hpre Ha. unfold append_walk_links_to_file. rewrite Ef.
  destruct (foreach_aborts _ _ _
              (fun w a => walk_arrival_step_ok (departures_by_stop node_df) w a)
              (fun w a e => walk_arrival_step_raises (departures_by_stop node_df)
                                                     w a e)
              pre (open_writer output_file start) a post e Hpre Ha)
    as [w' [E [P1 [_ [u P3]]]]].
  rewrite E. unfold finish. cbn [open_writer out_file] in P3.
  exists u, (chunk_links w'). split; [rewrite P3; reflexivity |].
  unfold emitted in P1. rewrite P3 in P1.
  cbn [open_writer out_file chunk_links next_link_id] in P1.
  rewrite app_nil_r, <- app_assoc in P1. apply app_inv_head in P1. exact P1.
Qed.
End WalkFacts.

(** Dicts *)

Lemma get_Z_in {V : Type} k (d : list (Z * V)) v : Py.get_Z k d = Some v -> In (k, v) d.
Proof.
  induction d as [|[k' v'] d IH]; simpl; [discriminate |].
  destruct (Z.eqb_spec k' k) as [->|_].
  - intros E. injection E as ->. left. reflexivity.
  - intros E. right. apply IH, E.
Qed.

Lemma get_Z_none {V : Type} k (d : list (Z * V)) :
  Py.get_Z k d = None <-> ~ In k (map fst d).
Proof.
  induction d as [|[k' v'] d IH]; simpl; [tauto |].
  destruct (Z.eqb_spec k' k) as [->|Hne].
  - split; [discriminate | intros H; exfalso; apply H; left; reflexivity].
  - rewrite IH. tauto.
Qed.

Lemma get_Z_some_key {V : Type} k (d : list (Z * V)) :
  In k (map fst d) <-> exists v, Py.get_Z k d = Some v.
Proof.
  destruct (Py.get_Z k d) as [v|] eqn:E.
  - split; [intros _; exists v; reflexivity |].
    intros _. apply get_Z_in in E. apply (in_map fst) in E. exact E.
  - apply get_Z_none in E. split; [tauto | intros [v Hv]; discriminate].
Qed.

Lemma get_Z_tabulate {V : Type} (f : Z -> V) k keys :
  Py.get_Z k (map (fun s => (s, f s)) keys)
  = if in_dec Z.eq_dec k keys then Some (f k) else None.
Proof.
  induction keys as [|s keys IH]; [reflexivity |].
  cbn [map Py.get_Z]. destruct (Z.eqb_spec s k) as [->|Hne].
  - destruct (in_dec Z.eq_dec k (k :: keys)) as [_|H]; [reflexivity |].
    exfalso. apply H. left. reflexivity.
  - rewrite IH. destruct (in_dec Z.eq_dec k keys) as [H|H];
      destruct (in_dec Z.eq_dec k (s :: keys)) as [H'|H']; try reflexivity.
    + exfalso. apply H'. right. exact H.
    + exfalso. destruct H' as [E|H']; [exact (Hne E) | exact (H H')].
Qed.

Lemma in_unique x l : In x (unique l) <-> In x l.
Proof.
  induction l as [|y l IH]; simpl; [tauto |].
  rewrite filter_In, IH, negb_true_iff, Z.eqb_neq.
  destruct (Z.eq_dec y x); intuition congruence.
Qed.

Lemma departures_by_stop_spec node_df stop_id :
  match Py.get_Z stop_id (departures_by_stop node_df) with
  | Some deps => forall d, In d deps <->
                           In d node_df /\ Event d = DEPARTURE /\ StopId d = stop_id
  | None => forall d, In d node_df -> Event d = DEPARTURE -> StopId d <> stop_id
  end.
Proof.
  unfold departures_by_stop. rewrite get_Z_tabulate.
  destruct (in_dec Z.eq_dec stop_id _) as [H|H].
  - intros d. rewrite in_sort_values, !filter_In, is_event_true, Z.eqb_eq. tauto.
  - intros d Hd He Hs. apply H, in_unique. rewrite <- Hs. apply in_map.
    apply filter_In. split; [exact Hd | apply is_event_true; exact He].
Qed.

Lemma RouteRef_eqb_eq a b : RouteRef_eqb a b = true <-> a = b.
Proof.
  destruct a as [n|k], b as [m|l]; simpl.
  - rewrite Z.eqb_eq. split; congruence.
  - split; discriminate.
  - split; discriminate.
  - rewrite String.eqb_eq. split; congruence.
Qed.

Lemma intersects_false a b :
  intersects a b = false <-> forall r, In r a -> ~ In r b.
Proof.
  unfold intersects. split.
  - intros H r Ha Hb.
    assert (T : existsb (fun r => existsb (RouteRef_eqb r) b) a = true).
    { apply existsb_exists. exists r. split; [exact Ha |].
      apply existsb_exists. exists r. split; [exact Hb |].
      apply RouteRef_eqb_eq. reflexivity. }
    congruence.
  - intros H. destruct (existsb _ a) eqn:E; [| reflexivity].
    apply existsb_exists in E. destruct E as [r [Ha E]].
    apply existsb_exists in E. destruct E as [r' [Hb E]].
    apply RouteRef_eqb_eq in E. subst r'. exfalso. exact (H r Ha Hb).
Qed.

Section WalkRows.
Variable haversine_distance : Q -> Q -> Q -> Q -> Q.

Lemma in_find_stops_within_radius center_stop_id stop_info radius center n :
  Py.get_Z center_stop_id stop_info = Some center ->
  match find_stops_within_radius haversine_distance center_stop_id stop_info
                                 radius with
  | Some nearby_stops =>
      In n nearby_stops <->
      exists stop_id stop,
        In (stop_id, stop) stop_info /\ stop_id <> center_stop_id
        /\ (between haversine_distance center stop <= radius)%Q
        /\ n = {| nearby_StopId := stop_id;
                  Distance := between haversine_distance center stop;
                  nearby_Name := Name stop |}
  | None => False
  end.
Proof.
  intros Hc. unfold find_stops_within_radius. rewrite Hc.
  rewrite in_flat_map. split.
  - intros [[stop_id stop] [Hin Hn]].
    destruct (Z.eqb_spec stop_id center_stop_id) as [E|Hne]; [destruct Hn |].
    cbn [negb] in Hn.
    destruct (Qle_bool _ radius) eqn:Hr; [| destruct Hn].
    destruct Hn as [<- | []]. apply Qle_bool_iff in Hr.
    exists stop_id, stop. repeat split; assumption.
  - intros [stop_id [stop [Hin [Hne [Hr ->]]]]].
    exists (stop_id, stop). split; [exact Hin |].
    destruct (Z.eqb_spec stop_id center_stop_id) as [E|_]; [contradiction |].
    cbn [negb]. apply Qle_bool_iff in Hr. unfold between in Hr. rewrite Hr.
    left. reflexivity.
Qed.

Lemma in_walk_contents cfg walking_radius max_walk_wait_time stop_info
      stop_routes node_df c :
  In c (walk_contents haversine_distance cfg walking_radius max_walk_wait_time
                      stop_info stop_routes node_df) <->
  exists a dep ea eb,
    In a node_df /\ Event a = ARRIVAL
    /\ In dep node_df /\ Event dep = DEPARTURE
    /\ Py.get_Z (StopId a) stop_info = Some ea
    /\ In (StopId dep, eb) stop_info
    /\ StopId dep <> StopId a
    /\ (between haversine_distance ea eb <= walking_radius)%Q
    /\ (forall r, In r (routes_of stop_routes (StopId a)) ->
                  ~ In r (routes_of stop_routes (StopId dep)))
    /\ (inject_Z (Timestamp a) + between haversine_distance ea eb / WALKING_SPEED cfg
        <= inject_Z (Timestamp dep))%Q
    /\ Timestamp dep - Timestamp a <= max_walk_wait_time
    /\ c = (NodeId a, NodeId dep, Timestamp dep - Timestamp a, walk).
Proof.
  unfold walk_contents. rewrite in_flat_map. split.
  - intros [a [Ha Hc]]. apply filter_In in Ha. destruct Ha as [Ha Hea].
    apply is_event_true in Hea. unfold walk_of_arrival in Hc.
    destruct (Py.get_Z (StopId a) stop_info) as [ea|] eqn:Hget.
    2:{ unfold find_stops_within_radius in Hc. rewrite Hget in Hc. destruct Hc. }
    pose proof (fun n => in_find_stops_within_radius (StopId a) stop_info
                           walking_radius ea n Hget) as Hfind.
    destruct (find_stops_within_radius _ _ _ _) as [nearby_stops|];
      [| destruct Hc].
    apply in_flat_map in Hc. destruct Hc as [n [Hn Hc]].
    apply Hfind in Hn. destruct Hn as [sid [eb [Hin [Hne [Hr ->]]]]].
    unfold walk_of_nearby in Hc. cbn [nearby_StopId Distance] in Hc.
    destruct (intersects _ _) eqn:Hi; [destruct Hc |].
    pose proof (departures_by_stop_spec node_df sid) as Hdeps.
    destruct (Py.get_Z sid (departures_by_stop node_df)) as [deps|];
      [| destruct Hc].
    apply in_map_iff in Hc. destruct Hc as [dep [<- Hd]].
    apply filter_In in Hd. destruct Hd as [Hd Hf].
    apply Hdeps in Hd. destruct Hd as [Hd [Hed Hs]]. subst sid.
    apply andb_true_iff in Hf. destruct Hf as [H1 H2].
    apply Qle_bool_iff in H1. apply Z.leb_le in H2.
    exists a, dep, ea, eb. rewrite intersects_false in Hi.
    repeat split; assumption.
  - intros [a [dep [ea [eb [Ha [Hea [Hd [Hed [Hget [Hin [Hne [Hr [Hdis
                                                                    [Ht [Hmax ->]]]]]]]]]]]]]]].
    exists a. split; [apply filter_In; split;
                      [exact Ha | apply is_event_true; exact Hea] |].
    unfold walk_of_arrival.
    pose proof (fun n => in_find_stops_within_radius (StopId a) stop_info
                           walking_radius ea n Hget) as Hfind.
    destruct (find_stops_within_radius _ _ _ _) as [nearby_stops|];
      [| exact (Hfind {| nearby_StopId := 0; Distance := 0; nearby_Name := "" |})].
    apply in_flat_map.
    exists {| nearby_StopId := StopId dep; Distance := between haversine_distance ea eb;
              nearby_Name := Name eb |}.
    split; [apply Hfind; exists (StopId dep), eb; repeat split; assumption |].
    unfold walk_of_nearby. cbn [nearby_StopId Distance].
    apply intersects_false in Hdis. rewrite Hdis.
    pose proof (departures_by_stop_spec node_df (StopId dep)) as Hdeps.
    destruct (Py.get_Z (StopId dep) (departures_by_stop node_df)) as [deps|].
    + apply in_map_iff. exists dep. split; [reflexivity |].
      apply filter_In. split; [apply Hdeps; auto |].
      apply andb_true_iff. split; [apply Qle_bool_iff; exact Ht |].
      apply Z.leb_le; exact Hmax.
    + exfalso. exact (Hdeps dep Hd Hed eq_refl).
Qed.
End WalkRows.

(** load_stop_info *)

Lemma map_fst_modify {V : Type} k (f : V -> V) d : map fst (modify k f d) = map fst d.
Proof.
  induction d as [|[k' v] d IH]; [reflexivity |]. cbn [modify].
  destruct (k' =? k); cbn [map fst]; [reflexivity | rewrite IH; reflexivity].
Qed.

Lemma load_stop_keys route_id acc stop k :
  In k (map fst (fst (load_stop route_id acc stop)))
  <-> In k (map fst (fst acc)) \/ k = stop_StopId stop.
Proof.
  destruct acc as [stop_info stop_routes]. unfold load_stop. cbn [fst].
  rewrite map_fst_modify.
  destruct (Py.get_Z (stop_StopId stop) stop_info) as [e|] eqn:E.
  - split; [tauto |]. intros [H | ->]; [exact H |].
    apply get_Z_some_key. exists e. exact E.
  - rewrite map_app, in_app_iff. simpl. intuition congruence.
Qed.

Lemma fold_load_stop_keys route_id stops : forall acc k,
  In k (map fst (fst (fold_left (load_stop route_id) stops acc)))
  <-> In k (map fst (fst acc)) \/ exists stop, In stop stops /\ stop_StopId stop = k.
Proof.
  induction stops as [|s stops IH]; intros acc k.
  - simpl. split; [tauto | intros [H | [s [[] _]]]; exact H].
  - cbn [fold_left]. rewrite IH, load_stop_keys. split.
    + intros [[H | ->] | [s' [H E]]].
      * left; exact H.
      * right. exists s. split; [left; reflexivity | reflexivity].
      * right. exists s'. split; [right; exact H | exact E].
    + intros [H | [s' [[-> | H] E]]].
      * left; left; exact H.
      * left; right. symmetry. exact E.
      * right. exists s'. split; assumption.
Qed.

Lemma load_route_keys route acc k :
  In k (map fst (fst (load_route acc route)))
  <-> In k (map fst (fst acc))
      \/ exists variant_id stop,
           In variant_id (getvarsbyroute (snd route))
           /\ In stop (stops_of_variant (snd route) variant_id)
           /\ stop_StopId stop = k.
Proof.
  destruct route as [route_key route_data]. unfold load_route. cbn [snd].
  generalize (getvarsbyroute route_data) as variants.
  intros variants. revert acc. induction variants as [|v variants IH]; intros acc.
  - simpl. split; [tauto | intros [H | [v [s [[] _]]]]; exact H].
  - cbn [fold_left]. rewrite IH, fold_load_stop_keys. split.
    + intros [[H | [s [Hs E]]] | [v' [s [Hv [Hs E]]]]].
      * left; exact H.
      * right. exists v, s. repeat split; [left; reflexivity | exact Hs | exact E].
      * right. exists v', s. repeat split; [right; exact Hv | exact Hs | exact E].
    + intros [H | [v' [s [[-> | Hv] [Hs E]]]]].
      * left; left; exact H.
      * left; right. exists s. split; assumption.
      * right. exists v', s. repeat split; assumption.
Qed.

Lemma fold_load_route_keys data : forall acc k,
  In k (map fst (fst (fold_left load_route data acc)))
  <-> In k (map fst (fst acc)) \/ stop_listed data k.
Proof.
  unfold stop_listed. induction data as [|route data IH]; intros acc k.
  - simpl. split; [tauto | intros [H | [? [? [? [? [[] _]]]]]]; exact H].
  - cbn [fold_left]. rewrite IH, load_route_keys. split.
    + intros [[H | [v [s [Hv [Hs E]]]]] | [rk [rd [v [s [Hr [Hv [Hs E]]]]]]]].
      * left; exact H.
      * right. destruct route as [rk rd]. exists rk, rd, v, s.
        repeat split; [left; reflexivity | exact Hv | exact Hs | exact E].
      * right. exists rk, rd, v, s.
        repeat split; [right; exact Hr | exact Hv | exact Hs | exact E].
    + intros [H | [rk [rd [v [s [[-> | Hr] [Hv [Hs E]]]]]]]].
      * left; left; exact H.
      * left; right. exists v, s. repeat split; assumption.
      * right. exists rk, rd, v, s. repeat split; assumption.
Qed.

(** The stops of [stop_info] are the listed ones. *)
Lemma load_stop_info_keys data k :
  In k (map fst (fst (load_stop_info data))) <-> stop_listed data k.
Proof.
  unfold load_stop_info. rewrite fold_load_route_keys. simpl. tauto.
Qed.

Lemma walk_failure_key_error hav cfg walking_radius stop_info a :
  ~ In (StopId a) (map fst stop_info) ->
  walk_failure hav cfg walking_radius stop_info a = Some Py.KeyError.
Proof.
  intros H. apply get_Z_none in H.
  unfold walk_failure, find_stops_within_radius. rewrite H. reflexivity.
Qed.

Lemma walk_failure_none_key hav cfg walking_radius stop_info a :
  walk_failure hav cfg walking_radius stop_info a = None ->
  In (StopId a) (map fst stop_info).
Proof.
  intros H. apply get_Z_some_key.
  unfold walk_failure, find_stops_within_radius in H.
  destruct (Py.get_Z (StopId a) stop_info) as [e|]; [exists e; reflexivity | discriminate].
Qed.

Lemma walk_failure_ok hav cfg walking_radius stop_info a :
  In (StopId a) (map fst stop_info) ->
  ~ (WALKING_SPEED cfg == 0)%Q ->
  walk_failure hav cfg walking_radius stop_info a = None.
Proof.
  intros H Hs. apply get_Z_some_key in H. destruct H as [e He].
  unfold walk_failure, find_stops_within_radius. rewrite He.
  destruct (flat_map _ stop_info); [reflexivity |].
  destruct (Qeq_bool (WALKING_SPEED cfg) 0) eqn:E; [| reflexivity].
  apply Qeq_bool_iff in E. contradiction.
Qed.

Import Examples.

(** ** Trip expansion *)

Lemma parse_time_next_day time_str seconds :
  parse_time_to_seconds time_str false = Some seconds ->
  parse_time_to_seconds time_str true = Some (seconds + 86400).
Proof.
  unfold parse_time_to_seconds. destruct time_str as [s|]; [| discriminate].
  destruct (String.eqb s ""); [discriminate |].
  destruct (Py.split _ _) as [|p0 [|p1 [|p2 ps]]]; try discriminate.
  destruct (Py.int p0) as [hours|]; [| discriminate].
  destruct (Py.int p1) as [minutes|]; [| discriminate].
  destruct (_ || _); [discriminate |].
  intros E. injection E as <-. reflexivity.
Qed.

Lemma parse_time_range time_str is_next_day seconds :
  parse_time_to_seconds time_str is_next_day = Some seconds ->
  let base := if is_next_day then 86400 else 0 in
  base <= seconds < base + 86400 /\ (seconds mod 60 = 0).
Proof.
  unfold parse_time_to_seconds. destruct time_str as [s|]; [| discriminate].
  destruct (String.eqb s ""); [discriminate |].
  destruct (Py.split _ _) as [|p0 [|p1 [|p2 ps]]]; try discriminate.
  destruct (Py.int p0) as [hours|]; [| discriminate].
  destruct (Py.int p1) as [minutes|]; [| discriminate].
  destruct (_ || _) eqn:R; [discriminate |].
  apply orb_false_iff in R. destruct R as [R R4].
  apply orb_false_iff in R. destruct R as [R R3].
  apply orb_false_iff in R. destruct R as [R1 R2].
  apply Z.ltb_ge in R1, R3. rewrite Z.gtb_ltb in R2, R4. apply Z.ltb_ge in R2, R4.
  intros E. injection E as <-.
  destruct is_next_day; cbn zeta; split; try lia.
  - apply Z.mod_divide; [discriminate |].
    exists (hours * 60 + minutes + 1440). lia.
  - apply Z.mod_divide; [discriminate |].
    exists (hours * 60 + minutes). lia.
Qed.

Lemma overnight_end_spec trip start_seconds end_seconds :
  parse_time_to_seconds (EndTime trip) false = Some end_seconds ->
  overnight_end trip start_seconds end_seconds
  = if end_seconds <=? start_seconds then end_seconds + 86400 else end_seconds.
Proof.
  intros He. unfold overnight_end. destruct (end_seconds <=? start_seconds); [| reflexivity].
  rewrite (parse_time_next_day _ _ He).
  pose proof (parse_time_range _ _ _ He) as [R _]. cbn zeta in R.
  destruct (Z.eqb_spec (end_seconds + 86400) 0); [lia | reflexivity].
Qed.

Lemma process_trip_parsed cfg ctx stops is_loop_route stop_distances total_distance
      waiting_time trip gid start_seconds end_seconds :
  parse_time_to_seconds (StartTime trip) false = Some start_seconds ->
  parse_time_to_seconds (EndTime trip) false = Some end_seconds ->
  process_trip cfg ctx stops is_loop_route stop_distances total_distance
               waiting_time trip gid
  = validate_and_emit cfg ctx stops is_loop_route stop_distances total_distance
                      waiting_time trip start_seconds
                      (overnight_end trip start_seconds end_seconds) gid.
Proof. intros Hs He. unfold process_trip. rewrite Hs, He. reflexivity. Qed.

Lemma process_trip_emitted cfg ctx stops is_loop_route stop_distances total_distance
      waiting_time trip gid new_nodes next_id :
  process_trip cfg ctx stops is_loop_route stop_distances total_distance
               waiting_time trip gid = Emitted new_nodes next_id ->
  exists start_seconds end_seconds avg_speed,
    emit_trip ctx stops is_loop_route stop_distances avg_speed waiting_time trip
              start_seconds end_seconds gid = Emitted new_nodes next_id.
Proof.
  unfold process_trip.
  destruct (parse_time_to_seconds (StartTime trip) false) as [s|];
    [| destruct (negb _); discriminate].
  destruct (parse_time_to_seconds (EndTime trip) false) as [e|];
    [| destruct (negb _); discriminate].
  unfold validate_and_emit.
  destruct (_ <=? 0); [destruct (negb _); discriminate |].
  destruct (Qlt_le_dec _ _); [discriminate |].
  destruct (Qlt_le_dec _ _); [discriminate |].
  intros E. eauto.
Qed.

Lemma seconds_to_time_next_days t :
  86400 <= t ->
  seconds_to_time t
  = (seconds_to_time (t mod 86400) ++ "+" ++ Py.str (t / 86400) ++ "d")%string.
Proof.
  intros Ht. unfold seconds_to_time. change (24 * 3600) with 86400.
  assert (R : 0 <= t mod 86400 < 86400) by (apply Z.mod_pos_bound; lia).
  destruct (Z.ltb_spec t 0) as [H|_]; [lia |].
  destruct (Z.ltb_spec (t mod 86400) 0) as [H|_]; [lia |].
  rewrite Z.mod_mod by discriminate.
  rewrite (Z.div_small (t mod 86400) 86400) by exact R.
  assert (D : 1 <= t / 86400) by (apply Z.div_le_lower_bound; lia).
  destruct (Z.gtb_spec (t / 86400) 0) as [_|H]; [| lia].
  reflexivity.
Qed.





(** C7.  A trip whose average speed is below [MIN_AVG_SPEED] or above
    22.2 m/s is skipped and emits no node; a trip whose speed lies between
    the two bounds, the bounds included, is expanded with that very speed. *)
Theorem C7_speed_filter (cfg : NodeGen.Config) ctx stops is_loop_route
        stop_distances total_distance waiting_time trip gid
        start_seconds end_seconds :
  parse_time_to_seconds (StartTime trip) false = Some start_seconds ->
  parse_time_to_seconds (EndTime trip) false = Some end_seconds ->
  let end_seconds' := overnight_end trip start_seconds end_seconds in
  let traveling_time :=
    end_seconds' - start_seconds - (Z.of_nat (List.length stops) - 1) * waiting_time in
  0 < traveling_time ->
  let avg_speed := (total_distance / inject_Z traveling_time)%Q in
  let result := process_trip cfg ctx stops is_loop_route stop_distances
                             total_distance waiting_time trip gid in
  let kept := emit_trip ctx stops is_loop_route stop_distances avg_speed
                        waiting_time trip start_seconds end_seconds' gid in
  ((avg_speed < MIN_AVG_SPEED cfg \/ 222 # 10 < avg_speed)%Q ->
   result = Skipped /\ nodes_of result = [])
  /\ ((MIN_AVG_SPEED cfg <= avg_speed /\ avg_speed <= 222 # 10)%Q -> result = kept)
  /\ ((MIN_AVG_SPEED cfg <= 222 # 10)%Q ->
      (avg_speed == MIN_AVG_SPEED cfg \/ avg_speed == 222 # 10)%Q -> result = kept)
  /\ (is_loop_route = false -> stops <> [] -> nodes_of kept <> []).
Proof.
  intros Hs He end' tt Htt v result kept.
  assert (R : result = validate_and_emit cfg ctx stops is_loop_route stop_distances
                         total_distance waiting_time trip start_seconds end' gid)
    by (apply process_trip_parsed; assumption).
  assert (V : validate_and_emit cfg ctx stops is_loop_route stop_distances
                total_distance waiting_time trip start_seconds end' gid
              = if Qlt_le_dec v (MIN_AVG_SPEED cfg) then Skipped
                else if Qlt_le_dec (222 # 10) v then Skipped else kept).
  { unfold validate_and_emit. fold tt.
    destruct (Z.leb_spec tt 0) as [H|_]; [lia | reflexivity]. }
  rewrite V in R. clear V.
  assert (In_range : (MIN_AVG_SPEED cfg <= v /\ v <= 222 # 10)%Q -> result = kept).
  { intros [Hlo Hhi]. rewrite R.
    destruct (Qlt_le_dec v (MIN_AVG_SPEED cfg)) as [H|_];
      [exfalso; exact (Qlt_not_le _ _ H Hlo) |].
    destruct (Qlt_le_dec (222 # 10) v) as [H|_];
      [exfalso; exact (Qlt_not_le _ _ H Hhi) | reflexivity]. }
  split; [| split; [exact In_range | split]].
  - intros Hout. assert (E : result = Skipped).
    { rewrite R. destruct (Qlt_le_dec v (MIN_AVG_SPEED cfg)) as [_|Hlo]; [reflexivity |].
      destruct (Qlt_le_dec (222 # 10) v) as [_|Hhi]; [reflexivity |].
      destruct Hout as [H|H]; exfalso;
        [exact (Qlt_not_le _ _ H Hlo) | exact (Qlt_not_le _ _ H Hhi)]. }
    rewrite E. split; reflexivity.
  - intros Hcfg [E|E]; apply In_range; rewrite E; split;
      try apply Qle_refl; exact Hcfg.
  - intros -> Hstops. unfold kept. destruct stops as [|first rest]; [contradiction |].
    rewrite emit_trip_non_loop. discriminate.
Qed.

Lemma C7_speed_filter_witness :
  process_trip default_config line_ctx line_stops false [5994; 5994]%Q
               fast_distance 30 line_trip 1
  = emit_trip line_ctx line_stops false [5994; 5994]%Q
              (fast_distance / inject_Z 540)%Q 30 line_trip 25200 25800 1
  /\ process_trip default_config line_ctx line_stops false [270; 270]%Q
                  slow_distance 30 line_trip 1
     = emit_trip line_ctx line_stops false [270; 270]%Q
                 (slow_distance / inject_Z 540)%Q 30 line_trip 25200 25800 1
  /\ process_trip default_config line_ctx line_stops false [6000; 6000]%Q
                  12000 30 line_trip 1 = Skipped.
Proof.
  split; [| split].
  - apply (C7_speed_filter default_config line_ctx line_stops false
             [5994; 5994]%Q fast_distance 30 line_trip 1 25200 25800
             eq_refl eq_refl eq_refl).
    + vm_compute. discriminate.
    + right. vm_compute. reflexivity.
  - apply (C7_speed_filter default_config line_ctx line_stops false
             [270; 270]%Q slow_distance 30 line_trip 1 25200 25800
             eq_refl eq_refl eq_refl).
    + vm_compute. discriminate.
    + left. vm_compute. reflexivity.
  - apply (C7_speed_filter default_config line_ctx line_stops false
             [6000; 6000]%Q 12000 30 line_trip 1 25200 25800
             eq_refl eq_refl eq_refl).
    right. vm_compute. reflexivity.
Defined.

(** C8.  A trip whose parsed end time is not after its parsed start time is
    validated and expanded with the end time moved to the next day
    (+ 86400 s); a timestamp of the second day or later is rendered with the
    suffix ["+Nd"].  The trip 22:30 -> 01:30 spans 10800 s and its arrival
    is stamped after 86400. *)
Theorem C8_overnight_reinterpretation (cfg : NodeGen.Config) ctx stops
        is_loop_route stop_distances total_distance waiting_time trip gid
        start_seconds end_seconds :
  parse_time_to_seconds (StartTime trip) false = Some start_seconds ->
  parse_time_to_seconds (EndTime trip) false = Some end_seconds ->
  end_seconds <= start_seconds ->
  overnight_end trip start_seconds end_seconds = end_seconds + 86400
  /\ process_trip cfg ctx stops is_loop_route stop_distances total_distance
                  waiting_time trip gid
     = validate_and_emit cfg ctx stops is_loop_route stop_distances total_distance
                         waiting_time trip start_seconds (end_seconds + 86400) gid
  /\ (forall t, 86400 <= t ->
        seconds_to_time t
        = (seconds_to_time (t mod 86400) ++ "+" ++ Py.str (t / 86400) ++ "d")%string).
Proof.
  intros Hs He Hle.
  assert (E : overnight_end trip start_seconds end_seconds = end_seconds + 86400).
  { rewrite (overnight_end_spec _ _ _ He).
    destruct (Z.leb_spec end_seconds start_seconds); [reflexivity | lia]. }
  split; [exact E | split].
  - rewrite (process_trip_parsed _ _ _ _ _ _ _ _ _ _ _ Hs He), E. reflexivity.
  - exact seconds_to_time_next_days.
Qed.

Lemma C8_overnight_reinterpretation_witness :
  parse_time_to_seconds (StartTime night_trip) false = Some 81000
  /\ parse_time_to_seconds (EndTime night_trip) false = Some 5400
  /\ overnight_end night_trip 81000 5400 - 81000 = 10800
  /\ map (fun n => (Event n, Timestamp n, Time n)) night_nodes
     = [(DEPARTURE, 81000, "22:30:00"%string);
        (ARRIVAL, 91770, "01:29:30+1d"%string)].
Proof.
  destruct (C8_overnight_reinterpretation default_config line_ctx
              [stop_A; stop_C] false [21540]%Q 21540 30 night_trip 1 81000 5400
              eq_refl eq_refl ltac:(lia)) as [E [P _]].
  split; [reflexivity | split; [reflexivity | split]].
  - rewrite E. reflexivity.
  - unfold night_nodes. rewrite P. vm_compute. reflexivity.
Defined.

(** ** The driver *)

Lemma build_before_walk_exact cfg node_df :
  build_before_walk cfg node_df
  = (number 1
       (bus_contents node_df ++ wait_contents node_df
        ++ transfer_contents cfg (MAX_TRANSFER_TIME cfg) node_df),
     1 + Z.of_nat (List.length
                     (bus_contents node_df ++ wait_contents node_df
                      ++ transfer_contents cfg (MAX_TRANSFER_TIME cfg) node_df))).
Proof.
  unfold build_before_walk.
  rewrite create_bus_links_exact, append_wait_links_exact,
    append_transfer_links_exact.
  rewrite !number_app, !length_app, !Nat2Z.inj_add, <- !app_assoc, !Z.add_assoc.
  reflexivity.
Qed.

Lemma create_link_table_unfold hav config node_df data :
  create_link_table_memory_optimized hav config node_df data
  = append_walk_links_to_file hav (configure config) node_df
      (fst (load_stop_info data)) (snd (load_stop_info data))
      (fst (build_before_walk (configure config) node_df))
      (snd (build_before_walk (configure config) node_df))
      (WALKING_RADIUS (configure config)) (MAX_WALK_WAIT_TIME (configure config)).
Proof.
  unfold create_link_table_memory_optimized, build_before_walk.
  destruct (load_stop_info data) as [stop_info stop_routes].
  destruct (create_bus_links_to_file node_df 1) as [f1 n1].
  destruct (append_wait_links_to_file node_df f1 n1) as [f2 n2].
  destruct (append_transfer_links_to_file _ node_df f2 n2 _) as [f3 n3].
  reflexivity.
Qed.

(** Whatever its outcome, the walk builder only appends rows of
    [walk_contents] to the file. *)
Lemma append_walk_links_sound hav cfg node_df stop_info stop_routes output_file
      start walking_radius max_walk_wait_time :
  exists written outcome,
    append_walk_links_to_file hav cfg node_df stop_info stop_routes output_file
                              start walking_radius max_walk_wait_time
    = (output_file ++ written, outcome)
    /\ (forall l, In l written ->
                  In (content l)
                     (walk_contents hav cfg walking_radius max_walk_wait_time
                                    stop_info stop_routes node_df))
    /\ (forall next, outcome = inl next ->
          Forall (fun a => walk_failure hav cfg walking_radius stop_info a = None)
                 (filter (is_event ARRIVAL) node_df)
          /\ written = number start
                         (walk_contents hav cfg walking_radius max_walk_wait_time
                                        stop_info stop_routes node_df))
    /\ (forall e, outcome = inr e ->
          exists a, In a node_df /\ Event a = ARRIVAL
                    /\ walk_failure hav cfg walking_radius stop_info a = Some e).
Proof.
  destruct (first_failure (walk_failure hav cfg walking_radius stop_info)
              (filter (is_event ARRIVAL) node_df))
    as [Hall | [pre [a [post [e [Ef [Hpre Ha]]]]]]].
  - pose proof (append_walk_links_completes hav cfg walking_radius
                  max_walk_wait_time stop_info stop_routes node_df output_file
                  start Hall) as E. cbn zeta in E.
    eexists _, _. split; [exact E | split; [| split]].
    + intros l Hl. eapply in_number, Hl.
    + intros next _. split; [exact Hall | reflexivity].
    + intros e E'. discriminate E'.
  - destruct (append_walk_links_aborts hav cfg walking_radius max_walk_wait_time
                stop_info stop_routes node_df output_file start pre a post e
                Ef Hpre Ha) as [written [buffered [E W]]].
    exists written, (inr e). split; [exact E | split; [| split]].
    + intros l Hl.
      assert (Hl' : In l (written ++ buffered)) by (apply in_or_app; left; exact Hl).
      rewrite W in Hl'. apply in_number in Hl'.
      unfold walk_contents. rewrite Ef, flat_map_app. apply in_or_app. left. exact Hl'.
    + intros next E'. discriminate E'.
    + intros e' E'. injection E' as <-. exists a.
      assert (Hin : In a (filter (is_event ARRIVAL) node_df))
        by (rewrite Ef; apply in_or_app; right; left; reflexivity).
      apply filter_In in Hin. destruct Hin as [Hin He]. apply is_event_true in He.
      repeat split; assumption.
Qed.






(** C3 (amended).  On the four events of the single-trip line the wait
    builder appends exactly one row: from the arrival at B to the departure
    of the same trip from B, with the dwell as duration. *)
Theorem C3_single_trip_wait_link t_b t_c output_file start :
  t_b < 25500 ->
  append_wait_links_to_file (line_nodes t_b t_c) output_file start
  = (output_file ++ [mkLink start 2 3 (25500 - t_b) wait], start + 1).
Proof.
  intros Ht. rewrite append_wait_links_exact.
  assert (E : wait_contents (line_nodes t_b t_c) = [(2, 3, 25500 - t_b, wait)]).
  { unfold wait_contents, line_nodes. cbn.
    destruct (Z.gtb_spec 25500 t_b) as [_|H]; [reflexivity | lia]. }
  rewrite E. reflexivity.
Qed.

Lemma C3_single_trip_wait_link_witness :
  single_trip_nodes = line_nodes 25470 25770
  /\ append_wait_links_to_file (line_nodes 25470 25770) [] 1
     = ([] ++ [mkLink 1 2 3 (25500 - 25470) wait], 1 + 1).
Proof.
  split; [vm_compute; reflexivity |].
  apply (C3_single_trip_wait_link 25470 25770 [] 1). reflexivity.
Defined.

(** C3, as stated, fails: the events of the single-trip line give one
    wait link, from the arrival at B (node 2) to the departure from B
    (node 3). *)
Lemma C3_counterexample :
  map (fun n => (NodeId n, StopId n, RouteId n, Event n, Timestamp n))
      single_trip_nodes
  = [(1, 1, 7, DEPARTURE, 25200); (2, 2, 7, ARRIVAL, 25470);
     (3, 2, 7, DEPARTURE, 25500); (4, 3, 7, ARRIVAL, 25770)]
  /\ append_wait_links_to_file single_trip_nodes [] 1
     = ([mkLink 1 2 3 30 wait], 2).
Proof. split; vm_compute; reflexivity. Qed.

(** C4 (the code at the failing input).  When the first segment of the line
    has length 0, the arrival at B carries the timestamp of the departure
    from A; the ride link of that departure goes to the arrival at C
    (node 4) and no ride link reaches the arrival at B (node 2). *)
Theorem C4_zero_length_segment :
  process_trip default_config line_ctx line_stops false [0; 2200]%Q 2200 30
               line_trip 1 = Emitted zero_segment_nodes 5
  /\ map (fun n => (NodeId n, StopId n, Event n, Timestamp n)) zero_segment_nodes
     = [(1, 1, DEPARTURE, 25200); (2, 2, ARRIVAL, 25200);
        (3, 2, DEPARTURE, 25230); (4, 3, ARRIVAL, 25770)]
  /\ create_bus_links_to_file zero_segment_nodes 1
     = ([mkLink 1 1 4 570 bus; mkLink 2 3 4 540 bus], 3).
Proof. repeat split; vm_compute; reflexivity. Qed.


Lemma planar_distance_nonneg lat1 lon1 lat2 lon2 :
  (0 <= planar_distance lat1 lon1 lat2 lon2)%Q.
Proof.
  unfold planar_distance. apply Qmult_le_0_compat; [discriminate |].
  apply (Qplus_le_compat 0 _ 0); apply Qabs_nonneg.
Qed.




(** The zero-duration walk link does not depend on the distance used: any
    distance that is 0 between identical coordinates gives it. *)
Lemma colocated_walk_link hav :
  (forall lat lon, hav lat lon lat lon == 0)%Q ->
  In (2, 3, 0, walk)
     (walk_contents hav CONFIG (WALKING_RADIUS CONFIG) (MAX_WALK_WAIT_TIME CONFIG)
                    (fst (load_stop_info terminal_data))
                    (snd (load_stop_info terminal_data)) terminal_nodes).
Proof.
  intros H0. apply in_walk_contents.
  exists (row 2 1 10 11 1000 ARRIVAL), (row 3 2 20 12 1000 DEPARTURE),
    (mkEntry (105 # 10) (1065 # 10) "Terminal" [ById 1]),
    (mkEntry (105 # 10) (1065 # 10) "Terminal" [ById 2]).
  assert (B : (between hav (mkEntry (105 # 10) (1065 # 10) "Terminal" [ById 1])
                       (mkEntry (105 # 10) (1065 # 10) "Terminal" [ById 2]) == 0)%Q)
    by apply H0.
  repeat split; try (vm_compute; tauto); try (vm_compute; discriminate).
  - rewrite B. discriminate.
  - intros r Hr Hr'. vm_compute in Hr, Hr'.
    destruct Hr as [<- | []]. destruct Hr' as [E' | []]. discriminate E'.
  - rewrite B. vm_compute. discriminate.
Qed.

(** ** Configuration *)





(** C10.  If the link generator completes, every stop id of an ARRIVAL row
    is listed in the bus JSON.  If some ARRIVAL row has a stop id that is
    not listed, the run ends with an exception (a [KeyError], when the
    walking speed is not 0) and leaves the bus, wait and transfer links,
    and possibly some walk links, in the output file. *)
Theorem C10_unlisted_arrival_stop hav config node_df data :
  (forall file next,
      create_link_table_memory_optimized hav config node_df data = (file, inl next) ->
      forall a, In a node_df -> Event a = ARRIVAL -> stop_listed data (StopId a))
  /\ (forall a,
        In a node_df -> Event a = ARRIVAL -> ~ stop_listed data (StopId a) ->
        exists rest e,
          create_link_table_memory_optimized hav config node_df data
          = (fst (build_before_walk (configure config) node_df) ++ rest, inr e)
          /\ (~ (WALKING_SPEED (configure config) == 0)%Q -> e = Py.KeyError)).
Proof.
  rewrite create_link_table_unfold.
  destruct (append_walk_links_sound hav (configure config) node_df
              (fst (load_stop_info data)) (snd (load_stop_info data))
              (fst (build_before_walk (configure config) node_df))
              (snd (build_before_walk (configure config) node_df))
              (WALKING_RADIUS (configure config))
              (MAX_WALK_WAIT_TIME (configure config)))
    as [written [outcome [E [_ [Hdone Hraised]]]]].
  rewrite E.
  assert (Hkeys : forall next, outcome = inl next ->
            forall a, In a node_df -> Event a = ARRIVAL -> stop_listed data (StopId a)).
  { intros next Ho a Ha He. destruct (Hdone next Ho) as [Hall _].
    rewrite Forall_forall in Hall. apply load_stop_info_keys.
    apply (walk_failure_none_key hav (configure config)
             (WALKING_RADIUS (configure config))).
    apply Hall, filter_In. split; [exact Ha | apply is_event_true; exact He]. }
  split.
  - intros file next Ef. injection Ef as _ Ho. exact (Hkeys next Ho).
  - intros a Ha He Hunlisted. destruct outcome as [next | e].
    + exfalso. exact (Hunlisted (Hkeys next eq_refl a Ha He)).
    + exists written, e. split; [reflexivity |]. intros Hspeed.
      destruct (Hraised e eq_refl) as [b [Hb [Heb Hf]]].
      destruct (in_dec Z.eq_dec (StopId b) (map fst (fst (load_stop_info data))))
        as [Hin | Hout].
      * rewrite (walk_failure_ok hav _ _ _ b Hin Hspeed) in Hf. discriminate Hf.
      * rewrite (walk_failure_key_error hav _ _ _ b Hout) in Hf.
        injection Hf as <-. reflexivity.
Qed.

Lemma C10_unlisted_arrival_stop_witness :
  exists rest,
    create_link_table_memory_optimized planar_distance None unlisted_nodes
                                       unlisted_data
    = ([mkLink 1 1 2 270 bus; mkLink 2 3 4 270 bus; mkLink 3 5 6 300 bus;
        mkLink 4 2 3 30 wait; mkLink 5 2 5 230 transfer] ++ rest,
       inr Py.KeyError).
Proof.
  destruct (C10_unlisted_arrival_stop planar_distance None unlisted_nodes
              unlisted_data) as [_ H].
  destruct (H (row 6 8 200 99 26000 ARRIVAL)) as [rest [e [E He]]].
  - vm_compute. tauto.
  - reflexivity.
  - intros Hl. apply load_stop_info_keys in Hl. vm_compute in Hl.
    repeat (destruct Hl as [Hl | Hl]; [discriminate Hl |]). destruct Hl.
  - exists rest. rewrite E. rewrite He by (vm_compute; discriminate).
    reflexivity.
Defined.

(** * Further properties of the generators *)

Import NodeGen.
Import LinkGen.
Import Examples.
Import Notions.

(** ** The link table as a whole *)

(** What the driver leaves in the file: the rows of the first three
    builders and the walk rows of the arrivals handled so far, numbered from
    1, except for the walk rows still buffered when an exception ends the
    run. *)
Lemma create_link_table_rows hav config node_df data :
  let cfg := configure config in
  let before := bus_contents node_df ++ wait_contents node_df
                ++ transfer_contents cfg (MAX_TRANSFER_TIME cfg) node_df in
  let all_walk := walk_contents hav cfg (WALKING_RADIUS cfg) (MAX_WALK_WAIT_TIME cfg)
                    (fst (load_stop_info data)) (snd (load_stop_info data)) node_df in
  exists written walk_rows not_reached lost outcome,
    create_link_table_memory_optimized hav config node_df data
    = (number 1 before ++ written, outcome)
    /\ written ++ lost = number (1 + Z.of_nat (List.length before)) walk_rows
    /\ (forall l, In l lost -> mode l = walk)
    /\ all_walk = walk_rows ++ not_reached
    /\ (forall next, outcome = inl next ->
          lost = [] /\ not_reached = []
          /\ next = 1 + Z.of_nat (List.length (number 1 before ++ written))).
Proof.
  intros cfg before all_walk. rewrite create_link_table_unfold.
  fold cfg. rewrite build_before_walk_exact. fold before. cbn [fst snd].
  destruct (first_failure (walk_failure hav cfg (WALKING_RADIUS cfg)
                                        (fst (load_stop_info data)))
              (filter (is_event ARRIVAL) node_df))
    as [Hall | [pre [a [post [e [Ef [Hpre Ha]]]]]]].
  - pose proof (append_walk_links_completes hav cfg (WALKING_RADIUS cfg)
                  (MAX_WALK_WAIT_TIME cfg) (fst (load_stop_info data))
                  (snd (load_stop_info data)) node_df (number 1 before)
                  (1 + Z.of_nat (List.length before)) Hall) as E.
    cbn zeta in E. fold all_walk in E. rewrite E.
    eexists _, all_walk, [], [], _. split; [reflexivity |].
    rewrite !app_nil_r.
    split; [reflexivity | split; [intros l [] | split; [reflexivity |]]].
    intros next E'.
    apply (f_equal (fun o : Z + Py.Exn => match o with inl n => n | inr _ => 0 end))
      in E'. cbv beta iota in E'. subst next.
    rewrite length_app, !length_number, Nat2Z.inj_add.
    split; [reflexivity | split; [reflexivity | lia]].
  - destruct (append_walk_links_aborts hav cfg (WALKING_RADIUS cfg)
                (MAX_WALK_WAIT_TIME cfg) (fst (load_stop_info data))
                (snd (load_stop_info data)) node_df (number 1 before)
                (1 + Z.of_nat (List.length before)) pre a post e Ef Hpre Ha)
      as [written [buffered [E W]]].
    rewrite E.
    eexists _, _, _, buffered, _. split; [reflexivity |].
    split; [| split; [| split]].
    + exact W.
    + intros l Hl.
      assert (Hl' : In l (written ++ buffered)) by (apply in_or_app; right; exact Hl).
      rewrite W in Hl'. apply in_number in Hl'.
      apply in_flat_map in Hl'. destruct Hl' as [b [_ Hb]].
      unfold walk_of_arrival in Hb.
      destruct (find_stops_within_radius _ _ _ _); [| destruct Hb].
      apply in_flat_map in Hb. destruct Hb as [n [_ Hn]].
      unfold walk_of_nearby in Hn. destruct (intersects _ _); [destruct Hn |].
      destruct (Py.get_Z _ _); [| destruct Hn].
      apply in_map_iff in Hn. destruct Hn as [d [Hc _]].
      unfold content in Hc. injection Hc as _ _ _ Hm. symmetry. exact Hm.
    + unfold all_walk, walk_contents. rewrite Ef, flat_map_app. reflexivity.
    + intros next E'. discriminate E'.
Qed.

Lemma firstn_seq_le n : forall a m, (n <= m)%nat -> firstn n (seq a m) = seq a n.
Proof.
  induction n as [|n IH]; intros a m H; [reflexivity |].
  destruct m as [|m]; [lia |]. cbn [seq firstn]. rewrite IH by lia. reflexivity.
Qed.

Lemma number_modes cs m start :
  (forall c, In c cs -> snd c = m) -> forall l, In l (number start cs) -> mode l = m.
Proof. intros H l Hl. apply in_number in Hl. exact (H _ Hl). Qed.

(** X1.  Whatever the outcome of the run, the links in the output file are
    numbered 1, 2, 3, ... without gap or repetition; when the run
    completes, the id it returns is one more than the number of links. *)
Theorem link_ids_dense hav config node_df data :
  let file := fst (create_link_table_memory_optimized hav config node_df data) in
  map link_id file = map (fun i => 1 + Z.of_nat i) (seq 0 (List.length file))
  /\ forall next,
       snd (create_link_table_memory_optimized hav config node_df data) = inl next ->
       next = 1 + Z.of_nat (List.length file).
Proof.
  destruct (create_link_table_rows hav config node_df data)
    as [written [walk_rows [not_reached [lost [outcome [E [W [_ [_ Hnext]]]]]]]]].
  cbn zeta in *. rewrite E. cbn [fst snd].
  split; [| intros next Hn; exact (proj2 (proj2 (Hnext next Hn)))].
  set (before := bus_contents node_df ++ wait_contents node_df ++ _) in *.
  assert (A : (number 1 before ++ written) ++ lost = number 1 (before ++ walk_rows))
    by (rewrite number_app, <- app_assoc, W; reflexivity).
  apply (f_equal (map link_id)) in A. rewrite link_ids_number, map_app in A.
  apply (f_equal (firstn (List.length (number 1 before ++ written)))) in A.
  rewrite <- (length_map link_id (number 1 before ++ written)) in A at 1.
  rewrite firstn_app, firstn_all, Nat.sub_diag, firstn_O, app_nil_r in A.
  apply (f_equal (@List.length _)) in W.
  rewrite length_app, length_number in W.
  rewrite A, firstn_map, firstn_seq_le; [reflexivity |].
  rewrite length_app, (length_app before), length_number. lia.
Qed.

(** X2.  The output file holds the bus links, then the wait links, then
    the transfer links, then walk links; the first three groups are complete
    whatever the outcome of the run. *)
Theorem link_table_order hav config node_df data :
  exists bus_links wait_links transfer_links walk_links,
    fst (create_link_table_memory_optimized hav config node_df data)
    = bus_links ++ wait_links ++ transfer_links ++ walk_links
    /\ map content bus_links = bus_contents node_df
    /\ map content wait_links = wait_contents node_df
    /\ map content transfer_links
       = transfer_contents (configure config)
                           (MAX_TRANSFER_TIME (configure config)) node_df
    /\ Forall (fun l => mode l = bus) bus_links
    /\ Forall (fun l => mode l = wait) wait_links
    /\ Forall (fun l => mode l = transfer) transfer_links
    /\ Forall (fun l => mode l = walk) walk_links.
Proof.
  destruct (create_link_table_rows hav config node_df data)
    as [written [walk_rows [not_reached [lost [outcome [E [W [_ [Hall _]]]]]]]]].
  cbn zeta in *. rewrite E. cbn [fst]. rewrite !number_app, <- !app_assoc.
  eexists _, _, _, written. split; [reflexivity |].
  rewrite !map_content_number. repeat split; try reflexivity.
  - apply Forall_forall. apply number_modes. intros c Hc.
    apply in_bus_contents in Hc.
    destruct Hc as [? [? [_ [_ [_ [_ [_ [_ [_ [_ ->]]]]]]]]]]. reflexivity.
  - apply Forall_forall. apply number_modes. intros c Hc.
    apply in_wait_contents in Hc.
    destruct Hc as [? [? [_ [_ [_ [_ [_ [_ [_ ->]]]]]]]]]. reflexivity.
  - apply Forall_forall. apply number_modes. intros c Hc.
    apply in_transfer_contents in Hc.
    destruct Hc as [? [? [_ [_ [_ [_ [_ [_ [_ [_ [_ ->]]]]]]]]]]]. reflexivity.
  - apply Forall_forall. intros l Hl.
    assert (Hl' : In l (written ++ lost)) by (apply in_or_app; left; exact Hl).
    rewrite W in Hl'. apply in_number in Hl'.
    assert (Hw : In (content l)
                    (walk_contents hav (configure config)
                       (WALKING_RADIUS (configure config))
                       (MAX_WALK_WAIT_TIME (configure config))
                       (fst (load_stop_info data)) (snd (load_stop_info data))
                       node_df))
      by (rewrite Hall; apply in_or_app; left; exact Hl').
    apply in_walk_contents in Hw.
    destruct Hw as [? [? [? [? [_ [_ [_ [_ [_ [_ [_ [_ [_ [_ [_ Hc]]]]]]]]]]]]]]].
    unfold content in Hc. injection Hc as _ _ _ Hm. exact Hm.
Qed.

(** ** Wait and ride links *)

(** X3.  The wait builder appends a row from arrival [a] to departure
    [dep] exactly when both are events of the same stop and the same route
    and [dep] is strictly later; the duration is the time between them, with
    no upper bound. *)
Theorem wait_links_exact node_df output_file start :
  exists new_links,
    append_wait_links_to_file node_df output_file start
    = (output_file ++ new_links, start + Z.of_nat (List.length new_links))
    /\ forall c,
         In c (map content new_links) <->
         exists a dep,
           In a node_df /\ In dep node_df
           /\ Event a = ARRIVAL /\ Event dep = DEPARTURE
           /\ StopId dep = StopId a /\ RouteId dep = RouteId a
           /\ Timestamp a < Timestamp dep
           /\ c = (NodeId a, NodeId dep, Timestamp dep - Timestamp a, wait).
Proof.
  exists (number start (wait_contents node_df)).
  rewrite append_wait_links_exact, length_number. split; [reflexivity |].
  intros c. rewrite map_content_number. apply in_wait_contents.
Qed.








(** ** Chunks *)


Lemma append_link_whole_chunks chunk_size m f t d w base :
  0 < chunk_size -> whole_chunks chunk_size base w ->
  whole_chunks chunk_size base (append_link chunk_size m f t d w).
Proof.
  intros Hcs [Hc [k Hk]]. unfold whole_chunks, append_link.
  rewrite length_app. cbn [List.length].
  destruct (Z.geb_spec (Z.of_nat (List.length (chunk_links w) + 1)) chunk_size)
    as [H|H]; cbn [out_file chunk_links].
  - split; [simpl; lia |]. exists (S k).
    rewrite !length_app, Hk. cbn [List.length]. lia.
  - split; [rewrite length_app; cbn [List.length]; lia |]. exists k. exact Hk.
Qed.

Lemma fold_whole_chunks {A : Type} (step : Writer -> A -> Writer) chunk_size base :
  (forall w x, whole_chunks chunk_size base w ->
               whole_chunks chunk_size base (step w x)) ->
  forall xs w, whole_chunks chunk_size base w ->
               whole_chunks chunk_size base (fold_left step xs w).
Proof.
  intros Hstep. induction xs as [|x xs IH]; intros w Hw; [exact Hw |].
  cbn [fold_left]. apply IH, Hstep, Hw.
Qed.

Lemma foreach_whole_chunks {A : Type} (body : Writer -> A -> Run) chunk_size base :
  (forall w x, whole_chunks chunk_size base w ->
               whole_chunks chunk_size base (run_writer (body w x))) ->
  forall xs w, whole_chunks chunk_size base w ->
               whole_chunks chunk_size base (run_writer (foreach xs body w)).
Proof.
  intros Hbody. induction xs as [|x xs IH]; intros w Hw; [exact Hw |].
  rewrite foreach_cons. specialize (Hbody w x Hw).
  destruct (body w x) as [w'|e w']; [apply IH, Hbody | exact Hbody].
Qed.

Lemma walk_arrival_step_whole_chunks hav cfg walking_radius max_walk_wait_time
      stop_info stop_routes deps base w arrival :
  whole_chunks 50000 base w ->
  whole_chunks 50000 base
    (run_writer (walk_arrival_step hav cfg walking_radius max_walk_wait_time
                                   stop_info stop_routes deps w arrival)).
Proof.
  intros Hw. unfold walk_arrival_step.
  destruct (find_stops_within_radius _ _ _ _) as [nearby_stops|]; [| exact Hw].
  apply foreach_whole_chunks; [| exact Hw].
  intros w' nearby Hw'. unfold walk_nearby_step.
  destruct (Qeq_bool _ _); [exact Hw' |].
  destruct (intersects _ _); [exact Hw' |].
  destruct (Py.get_Z _ _); [| exact Hw'].
  cbn [run_writer]. apply fold_whole_chunks; [| exact Hw'].
  intros w'' d. apply append_link_whole_chunks. lia.
Qed.

Lemma aborted_walk_whole_chunks hav cfg node_df stop_info stop_routes
      output_file start walking_radius max_walk_wait_time file e :
  append_walk_links_to_file hav cfg node_df stop_info stop_routes output_file
                            start walking_radius max_walk_wait_time
  = (file, inr e) ->
  exists walk_links k,
    file = output_file ++ walk_links
    /\ 0 <= k /\ Z.of_nat (List.length walk_links) = k * 50000.
Proof.
  unfold append_walk_links_to_file. intros E.
  pose proof (foreach_whole_chunks
                (walk_arrival_step hav cfg walking_radius max_walk_wait_time
                                   stop_info stop_routes (departures_by_stop node_df))
                50000 (List.length output_file)
                (fun w a => walk_arrival_step_whole_chunks hav cfg walking_radius
                              max_walk_wait_time stop_info stop_routes
                              (departures_by_stop node_df)
                              (List.length output_file) w a)
                (filter (is_event ARRIVAL) node_df)
                (open_writer output_file start)) as Hchunks.
  destruct (append_walk_links_sound hav cfg node_df stop_info stop_routes
              output_file start walking_radius max_walk_wait_time)
    as [written [outcome [E' _]]].
  unfold append_walk_links_to_file in E'. rewrite E' in E.
  injection E as <- ->.
  destruct (foreach _ _ _) as [w|e' w]; cbn [finish] in E';
    [discriminate E' |].
  injection E' as Ew _. cbn [run_writer] in Hchunks.
  destruct Hchunks as [_ [k Hk]].
  - split; [cbn; lia | exists 0%nat; cbn; lia].
  - exists written, (Z.of_nat k). split; [reflexivity |].
    rewrite Ew, length_app in Hk. lia.
Qed.

(** X5.  When an exception ends the run in the walk builder, the file
    holds the bus, wait and transfer links followed by whole chunks of walk
    links: their number is a multiple of 50000, the links still buffered
    are lost. *)
Theorem aborted_run_leaves_whole_chunks hav config node_df data file e :
  create_link_table_memory_optimized hav config node_df data = (file, inr e) ->
  exists walk_links k,
    file = fst (build_before_walk (configure config) node_df) ++ walk_links
    /\ 0 <= k /\ Z.of_nat (List.length walk_links) = k * 50000.
Proof.
  rewrite create_link_table_unfold. apply aborted_walk_whole_chunks.
Qed.

Lemma aborted_run_leaves_whole_chunks_witness :
  exists walk_links k,
    [mkLink 1 1 2 600 bus; mkLink 2 3 4 600 bus]
    = fst (build_before_walk (configure (Some zero_speed)) terminal_nodes)
      ++ walk_links
    /\ 0 <= k /\ Z.of_nat (List.length walk_links) = k * 50000.
Proof.
  apply (aborted_run_leaves_whole_chunks planar_distance (Some zero_speed)
           terminal_nodes terminal_data _ Py.ZeroDivisionError).
  vm_compute. reflexivity.
Defined.

(** ** The stop table *)

Lemma get_Z_app {V : Type} k (d d' : list (Z * V)) :
  Py.get_Z k (d ++ d') = match Py.get_Z k d with
                         | Some v => Some v
                         | None => Py.get_Z k d'
                         end.
Proof.
  induction d as [|[k' v'] d IH]; [reflexivity |]. cbn [app Py.get_Z].
  destruct (k' =? k); [reflexivity | exact IH].
Qed.

Lemma get_Z_modify {V : Type} k k' (f : V -> V) d :
  Py.get_Z k (modify k' f d)
  = if k =? k' then option_map f (Py.get_Z k d) else Py.get_Z k d.
Proof.
  induction d as [|[k0 v0] d IH]; [destruct (k =? k'); reflexivity |].
  cbn [modify Py.get_Z].
  destruct (Z.eqb_spec k0 k') as [E0|N0]; cbn [Py.get_Z].
  - subst k0. destruct (Z.eqb_spec k k') as [->|N].
    + rewrite Z.eqb_refl. reflexivity.
    + destruct (Z.eqb_spec k' k) as [E|_]; [congruence | reflexivity].
  - destruct (Z.eqb_spec k0 k) as [E|N].
    + subst k0. destruct (Z.eqb_spec k k') as [E|_]; [congruence | reflexivity].
    + exact IH.
Qed.

Lemma load_route_as_fold route acc :
  load_route acc route
  = fold_left (fun acc p => load_stop (fst p) acc (snd p))
              (flat_map (fun variant_id =>
                           map (fun stop => (route_ref route, stop))
                               (stops_of_variant (snd route) variant_id))
                        (getvarsbyroute (snd route)))
              acc.
Proof.
  destruct route as [route_key route_data]. unfold load_route, route_ref.
  cbn [fst snd]. set (r := match getroutebyid_RouteId route_data with
                           | Some n => ById n | None => ByKey route_key end).
  generalize (getvarsbyroute route_data) as variants. intros variants. revert acc.
  induction variants as [|v variants IH]; intros acc; [reflexivity |].
  cbn [fold_left flat_map]. rewrite fold_left_app, IH. f_equal.
  generalize (stops_of_variant route_data v) as stops. intros stops. revert acc.
  induction stops as [|s stops IHs]; intros acc; [reflexivity |].
  cbn [fold_left map fst snd]. apply IHs.
Qed.

Lemma load_stop_info_as_fold data :
  load_stop_info data
  = fold_left (fun acc p => load_stop (fst p) acc (snd p)) (listed_stops data) ([], []).
Proof.
  unfold load_stop_info, listed_stops. generalize (@nil (Z * StopEntry), @nil (Z * list RouteRef)).
  induction data as [|route data IH]; intros acc; [reflexivity |].
  cbn [fold_left flat_map]. rewrite fold_left_app, IH, load_route_as_fold. reflexivity.
Qed.

Lemma find_app {A : Type} (f : A -> bool) l l' :
  find f (l ++ l') = match find f l with Some x => Some x | None => find f l' end.
Proof.
  induction l as [|x l IH]; [reflexivity |]. cbn [app find].
  destruct (f x); [reflexivity | exact IH].
Qed.

Lemma in_set_add r s x : In x (set_add r s) <-> x = r \/ In x s.
Proof.
  unfold set_add. destruct (existsb (RouteRef_eqb r) s) eqn:E.
  - apply existsb_exists in E. destruct E as [y [Hy E]].
    apply RouteRef_eqb_eq in E. subst y. intuition congruence.
  - rewrite in_app_iff. simpl. intuition congruence.
Qed.

Lemma NoDup_set_add r s : NoDup s -> NoDup (set_add r s).
Proof.
  intros H. unfold set_add. destruct (existsb (RouteRef_eqb r) s) eqn:E; [exact H |].
  apply NoDup_app; [exact H | constructor; [intros [] | constructor] |].
  intros x Hx [-> | []].
  assert (T : existsb (RouteRef_eqb x) s = true).
  { apply existsb_exists. exists x. split; [exact Hx | apply RouteRef_eqb_eq; reflexivity]. }
  congruence.
Qed.

Lemma table_ok_nil : table_ok [] ([], []).
Proof.
  unfold table_ok. cbn. split; [constructor | split; [reflexivity |]].
  intros stop_id. split; [split; reflexivity | split; [constructor |]].
  intros r. split; [intros [] | intros [s [[] _]]].
Qed.

Lemma table_ok_step seen acc r stop :
  table_ok seen acc -> table_ok (seen ++ [(r, stop)]) (load_stop r acc stop).
Proof.
  destruct acc as [stop_info stop_routes]. intros [Hnd [Hkeys Hall]].
  cbn [fst snd] in *. unfold load_stop.
  set (sid0 := stop_StopId stop).
  pose proof (Hall sid0) as [H0 _].
  assert (Entry : exists stop_info' stop_routes',
             (match Py.get_Z sid0 stop_info with
              | Some _ => stop_info
              | None => stop_info ++ [(sid0, {| Lat := stop_Lat stop;
                                                Lng := stop_Lng stop;
                                                Name := stop_Name stop;
                                                Routes := [] |})]
              end) = stop_info'
             /\ (match Py.get_Z sid0 stop_routes with
                 | Some _ => modify sid0 (set_add r) stop_routes
                 | None => stop_routes ++ [(sid0, [r])]
                 end) = stop_routes'
             /\ NoDup (map fst stop_info')
             /\ map fst stop_routes' = map fst stop_info'
             /\ (forall k, k <> sid0 ->
                    Py.get_Z k stop_info' = Py.get_Z k stop_info
                    /\ Py.get_Z k stop_routes' = Py.get_Z k stop_routes)
             /\ exists e routes,
                  Py.get_Z sid0 stop_info' = Some e
                  /\ Py.get_Z sid0 stop_routes' = Some (set_add r routes)
                  /\ Routes e = routes
                  /\ routes = routes_of stop_routes sid0
                  /\ match find (has_stop_id sid0) seen with
                     | Some (_, first) =>
                         Lat e = stop_Lat first /\ Lng e = stop_Lng first
                         /\ Name e = stop_Name first
                     | None =>
                         Lat e = stop_Lat stop /\ Lng e = stop_Lng stop
                         /\ Name e = stop_Name stop
                     end).
  { destruct (find (has_stop_id sid0) seen) as [[r1 first]|] eqn:Ef.
    - destruct H0 as [e [Ge [La [Ln [Na Gr]]]]]. rewrite Ge, Gr.
      eexists _, _. split; [reflexivity | split; [reflexivity |]].
      rewrite map_fst_modify. split; [exact Hnd | split; [exact Hkeys | split]].
      + intros k Hk. split; [reflexivity |]. rewrite get_Z_modify.
        destruct (Z.eqb_spec k sid0); [contradiction | reflexivity].
      + exists e, (Routes e). rewrite get_Z_modify, Z.eqb_refl, Gr.
        unfold routes_of. rewrite Gr. cbn [option_map or_else]. auto 10.
    - destruct H0 as [Ge Gr]. rewrite Ge, Gr.
      eexists _, _. split; [reflexivity | split; [reflexivity |]].
      rewrite !map_app, Hkeys. cbn [map fst].
      split; [| split; [reflexivity | split]].
      + apply NoDup_app; [exact Hnd | constructor; [intros [] | constructor] |].
        intros x Hx [<- | []]. apply get_Z_none in Ge. contradiction.
      + intros k Hk. rewrite !get_Z_app. cbn [Py.get_Z].
        destruct (Z.eqb_spec sid0 k) as [E|_]; [congruence |].
        destruct (Py.get_Z k stop_info), (Py.get_Z k stop_routes); auto.
      + eexists _, []. rewrite !get_Z_app, Ge, Gr. cbn [Py.get_Z].
        rewrite Z.eqb_refl. unfold routes_of. rewrite Gr.
        cbn [Lat Lng Name Routes or_else set_add existsb app]. auto 10. }
  destruct Entry as [stop_info' [stop_routes' [-> [-> [Hnd' [Hkeys' [Hother Hsame]]]]]]].
  destruct Hsame as [e [routes [Ge [Gr [Re [Rr Hfirst]]]]]].
  unfold table_ok. cbn [fst snd]. rewrite map_fst_modify.
  split; [exact Hnd' | split; [exact Hkeys' |]].
  intros k. rewrite find_app. cbn [find]. unfold has_stop_id at 2. cbn [snd].
  fold sid0. rewrite get_Z_modify.
  destruct (Z.eqb_spec k sid0) as [->|Hne].
  - rewrite Z.eqb_refl, Ge, Gr. cbn [option_map].
    split; [| split].
    + destruct (find (has_stop_id sid0) seen) as [[r1 first]|];
        (eexists; split; [reflexivity |]); cbn [add_route Lat Lng Name Routes];
        rewrite Re; tauto.
    + unfold routes_of. rewrite Gr. cbn [or_else].
      apply NoDup_set_add. rewrite Rr. apply (Hall sid0).
    + intros x. unfold routes_of at 1. rewrite Gr. cbn [or_else].
      rewrite in_set_add, Rr. destruct (Hall sid0) as [_ [_ Hr]]. rewrite Hr.
      split.
      * intros [-> | [s [Hs Es]]].
        -- exists stop. split; [apply in_or_app; right; left; reflexivity | reflexivity].
        -- exists s. split; [apply in_or_app; left; exact Hs | exact Es].
      * intros [s [Hs Es]]. apply in_app_or in Hs.
        destruct Hs as [Hs | [E | []]]; [right; eauto | left; congruence].
  - destruct (Hother k Hne) as [Gi Gs]. rewrite Gi.
    destruct (Z.eqb_spec sid0 k) as [E|_]; [congruence |].
    destruct (Hall k) as [Hk [Hndk Hrk]]. unfold routes_of in *. rewrite Gs.
    split; [| split; [exact Hndk |]].
    + destruct (find (has_stop_id k) seen) as [[r1 first]|]; exact Hk.
    + intros x. rewrite Hrk. split.
      * intros [s [Hs Es]]. exists s. split; [apply in_or_app; left; exact Hs | exact Es].
      * intros [s [Hs Es]]. apply in_app_or in Hs.
        destruct Hs as [Hs | [E | []]]; [eauto |].
        exfalso. injection E as _ <-. apply Hne. symmetry. exact Es.
Qed.

Lemma table_ok_fold l : forall seen acc,
  table_ok seen acc ->
  table_ok (seen ++ l) (fold_left (fun acc p => load_stop (fst p) acc (snd p)) l acc).
Proof.
  induction l as [|[r s] l IH]; intros seen acc H.
  - rewrite app_nil_r. exact H.
  - cbn [fold_left fst snd].
    replace (seen ++ (r, s) :: l) with ((seen ++ [(r, s)]) ++ l)
      by (rewrite <- app_assoc; reflexivity).
    apply IH, table_ok_step, H.
Qed.

Lemma load_stop_info_ok data : table_ok (listed_stops data) (load_stop_info data).
Proof.
  rewrite load_stop_info_as_fold. apply (table_ok_fold _ [] _ table_ok_nil).
Qed.

(** X6.  [stop_info] has one entry per stop id, and a stop listed several
    times keeps the coordinates and the name of its first occurrence in the
    JSON; a stop id that is listed nowhere has no entry. *)
Theorem stop_info_first_occurrence data stop_id :
  NoDup (map fst (fst (load_stop_info data)))
  /\ match find (has_stop_id stop_id) (listed_stops data) with
     | Some (_, first) =>
         exists e, Py.get_Z stop_id (fst (load_stop_info data)) = Some e
                   /\ Lat e = stop_Lat first /\ Lng e = stop_Lng first
                   /\ Name e = stop_Name first
     | None => Py.get_Z stop_id (fst (load_stop_info data)) = None
     end.
Proof.
  destruct (load_stop_info_ok data) as [Hnd [_ Hall]]. split; [exact Hnd |].
  destruct (Hall stop_id) as [H _].
  destruct (find (has_stop_id stop_id) (listed_stops data)) as [[r first]|].
  - destruct H as [e [Ge [La [Ln [Na _]]]]]. exists e. auto.
  - exact (proj1 H).
Qed.

(** X7.  [stop_routes] has the same stop ids as [stop_info]; the routes of
    a stop are, without repetition, the route ids under which some listed
    variant has the stop, and the [Routes] of its [stop_info] entry are the
    same list. *)
Theorem stop_routes_exact data stop_id :
  map fst (snd (load_stop_info data)) = map fst (fst (load_stop_info data))
  /\ NoDup (routes_of (snd (load_stop_info data)) stop_id)
  /\ (forall r, In r (routes_of (snd (load_stop_info data)) stop_id) <->
                exists stop, In (r, stop) (listed_stops data)
                             /\ stop_StopId stop = stop_id)
  /\ (forall e, Py.get_Z stop_id (fst (load_stop_info data)) = Some e ->
                Routes e = routes_of (snd (load_stop_info data)) stop_id).
Proof.
  destruct (load_stop_info_ok data) as [_ [Hkeys Hall]].
  destruct (Hall stop_id) as [H [Hnd Hr]].
  split; [exact Hkeys | split; [exact Hnd | split; [exact Hr |]]].
  intros e Ge.
  destruct (find (has_stop_id stop_id) (listed_stops data)) as [[r first]|].
  - destruct H as [e' [Ge' [_ [_ [_ Gr]]]]]. rewrite Ge in Ge'. injection Ge' as <-.
    unfold routes_of. rewrite Gr. reflexivity.
  - destruct H as [Ge' _]. rewrite Ge in Ge'. discriminate Ge'.
Qed.

(** ** Degenerate configurations *)



Lemma walk_failure_zero_speed hav cfg walking_radius stop_info a :
  (WALKING_SPEED cfg == 0)%Q ->
  In (StopId a) (map fst stop_info) ->
  walk_failure hav cfg walking_radius stop_info a
  = match find_stops_within_radius hav (StopId a) stop_info walking_radius with
    | Some (_ :: _) => Some Py.ZeroDivisionError
    | _ => None
    end.
Proof.
  intros Hs Hin. apply get_Z_some_key in Hin. destruct Hin as [e He].
  unfold walk_failure, find_stops_within_radius. rewrite He.
  destruct (flat_map _ stop_info); [reflexivity |].
  apply Qeq_bool_iff in Hs. rewrite Hs. reflexivity.
Qed.

(** X9.  With a walking speed of 0 and every arrival's stop in
    [stop_info], the walk builder raises [ZeroDivisionError] as soon as an
    arrival has another stop within the radius, whatever the routes of the
    two stops; if no arrival has one, it completes without a link. *)
Theorem zero_walking_speed hav cfg node_df stop_info stop_routes output_file start :
  (WALKING_SPEED cfg == 0)%Q ->
  (forall a, In a node_df -> Event a = ARRIVAL ->
             In (StopId a) (map fst stop_info)) ->
  let result := append_walk_links_to_file hav cfg node_df stop_info stop_routes
                  output_file start (WALKING_RADIUS cfg) (MAX_WALK_WAIT_TIME cfg) in
  ((exists a ea stop_id eb,
       In a node_df /\ Event a = ARRIVAL
       /\ Py.get_Z (StopId a) stop_info = Some ea
       /\ In (stop_id, eb) stop_info /\ stop_id <> StopId a
       /\ (between hav ea eb <= WALKING_RADIUS cfg)%Q) ->
   snd result = inr Py.ZeroDivisionError)
  /\ (~ (exists a ea stop_id eb,
           In a node_df /\ Event a = ARRIVAL
           /\ Py.get_Z (StopId a) stop_info = Some ea
           /\ In (stop_id, eb) stop_info /\ stop_id <> StopId a
           /\ (between hav ea eb <= WALKING_RADIUS cfg)%Q) ->
      result = (output_file, inl start)).
Proof.
  intros Hs Hstops result.
  destruct (append_walk_links_sound hav cfg node_df stop_info stop_routes
              output_file start (WALKING_RADIUS cfg) (MAX_WALK_WAIT_TIME cfg))
    as [written [outcome [E [Hw [Hdone Hraised]]]]].
  fold result in E. rewrite E. cbn [snd].
  assert (Near : forall a, In a node_df -> Event a = ARRIVAL ->
            (walk_failure hav cfg (WALKING_RADIUS cfg) stop_info a
             = Some Py.ZeroDivisionError
             /\ exists ea stop_id eb,
                  Py.get_Z (StopId a) stop_info = Some ea
                  /\ In (stop_id, eb) stop_info /\ stop_id <> StopId a
                  /\ (between hav ea eb <= WALKING_RADIUS cfg)%Q)
            \/ (walk_failure hav cfg (WALKING_RADIUS cfg) stop_info a = None
                /\ forall ea stop_id eb,
                     Py.get_Z (StopId a) stop_info = Some ea ->
                     In (stop_id, eb) stop_info -> stop_id <> StopId a ->
                     ~ (between hav ea eb <= WALKING_RADIUS cfg)%Q)).
  { intros a Ha He. rewrite (walk_failure_zero_speed hav cfg _ _ a Hs (Hstops a Ha He)).
    pose proof (Hstops a Ha He) as Hin. apply get_Z_some_key in Hin.
    destruct Hin as [ea Hea].
    pose proof (fun n => in_find_stops_within_radius hav (StopId a) stop_info
                           (WALKING_RADIUS cfg) ea n Hea) as Hfind.
    destruct (find_stops_within_radius hav (StopId a) stop_info (WALKING_RADIUS cfg))
      as [[|n ns]|].
    - right. split; [reflexivity |]. intros ea' sid eb Hea' Hin Hne Hr.
      rewrite Hea in Hea'. injection Hea' as <-.
      apply (Hfind {| nearby_StopId := sid; Distance := between hav ea eb;
                      nearby_Name := Name eb |}).
      exists sid, eb. auto.
    - left. split; [reflexivity |].
      destruct (proj1 (Hfind n) (or_introl eq_refl)) as [sid [eb [Hin [Hne [Hr _]]]]].
      exists ea, sid, eb. auto.
    - destruct (Hfind {| nearby_StopId := 0; Distance := 0; nearby_Name := "" |}). }
  split.
  - intros [a [ea [sid [eb [Ha [He [Hea [Hin [Hne Hr]]]]]]]]].
    destruct outcome as [next | e].
    + exfalso. destruct (Hdone next eq_refl) as [Hall _].
      rewrite Forall_forall in Hall.
      assert (Hf : walk_failure hav cfg (WALKING_RADIUS cfg) stop_info a = None)
        by (apply Hall, filter_In; split; [exact Ha | apply is_event_true; exact He]).
      destruct (Near a Ha He) as [[Hf' _] | [_ Hno]]; [congruence |].
      exact (Hno ea sid eb Hea Hin Hne Hr).
    + destruct (Hraised e eq_refl) as [b [Hb [Heb Hf]]].
      destruct (Near b Hb Heb) as [[Hf' _] | [Hf' _]]; congruence.
  - intros Hnone. destruct outcome as [next | e].
    + destruct (Hdone next eq_refl) as [_ Hrows].
      assert (Erows : walk_contents hav cfg (WALKING_RADIUS cfg) (MAX_WALK_WAIT_TIME cfg)
                        stop_info stop_routes node_df = []).
      { destruct (walk_contents _ _ _ _ _ _ _) as [|c cs] eqn:Ec; [reflexivity |].
        assert (Hc : In c (walk_contents hav cfg (WALKING_RADIUS cfg)
                             (MAX_WALK_WAIT_TIME cfg) stop_info stop_routes node_df))
          by (rewrite Ec; left; reflexivity).
        apply in_walk_contents in Hc.
        destruct Hc as [a [dep [ea [eb [Ha [He [_ [_ [Hea [Hin [Hne [Hr _]]]]]]]]]]]].
        exfalso. apply Hnone. exists a, ea, (StopId dep), eb. auto 10. }
      rewrite Erows in Hrows. cbn [number] in Hrows. subst written.
      rewrite app_nil_r.
      unfold result in E.
      pose proof (append_walk_links_completes hav cfg (WALKING_RADIUS cfg)
                    (MAX_WALK_WAIT_TIME cfg) stop_info stop_routes node_df
                    output_file start (proj1 (Hdone next eq_refl))) as C.
      cbn zeta in C. rewrite Erows in C. cbn [number List.length] in C.
      rewrite C in E. apply (f_equal snd) in E. cbn [snd] in E.
      rewrite <- E. f_equal. f_equal. lia.
    + exfalso. destruct (Hraised e eq_refl) as [b [Hb [Heb Hf]]].
      destruct (Near b Hb Heb) as [[_ [ea [sid [eb [Hea [Hin [Hne Hr]]]]]]] | [Hf' _]];
        [| congruence].
      apply Hnone. exists b, ea, sid, eb. auto 10.
Qed.

Lemma zero_walking_speed_witness :
  snd (append_walk_links_to_file planar_distance (configure (Some zero_speed))
         terminal_nodes (fst (load_stop_info terminal_data))
         (snd (load_stop_info terminal_data)) [] 1
         (WALKING_RADIUS (configure (Some zero_speed)))
         (MAX_WALK_WAIT_TIME (configure (Some zero_speed))))
  = inr Py.ZeroDivisionError.
Proof.
  apply (zero_walking_speed planar_distance (configure (Some zero_speed))
           terminal_nodes (fst (load_stop_info terminal_data))
           (snd (load_stop_info terminal_data)) [] 1).
  - reflexivity.
  - intros a Ha _. vm_compute in Ha. vm_compute.
    repeat (destruct Ha as [<- | Ha]; [simpl; tauto |]). destruct Ha.
  - exists (row 2 1 10 11 1000 ARRIVAL),
      (mkEntry (105 # 10) (1065 # 10) "Terminal" [ById 1]), 12,
      (mkEntry (105 # 10) (1065 # 10) "Terminal" [ById 2]).
    repeat split; try (vm_compute; tauto); try (vm_compute; discriminate).
Defined.

(** ** Node ids and fields of a trip *)


Lemma ids_from_cons first n : ids_from first (S n) = first :: ids_from (first + 1) n.
Proof.
  unfold ids_from. cbn [seq map]. f_equal; [lia |].
  rewrite <- seq_shift, map_map. apply map_ext. intros i. lia.
Qed.

Lemma ids_from_app first n m :
  ids_from first (n + m) = ids_from first n ++ ids_from (first + Z.of_nat n) m.
Proof.
  revert first. induction n as [|n IH]; intros first.
  - unfold ids_from. cbn [Nat.add seq map app]. apply map_ext. intros i. lia.
  - cbn [Nat.add]. rewrite !ids_from_cons, IH. cbn [app]. do 3 f_equal. lia.
Qed.

Lemma make_node_of_trip ctx trip stops gid stop t e :
  In stop stops -> node_of_trip ctx trip stops (make_node ctx trip gid stop t e).
Proof.
  intros H. unfold node_of_trip, make_node. cbn. repeat split. eauto.
Qed.

Lemma later_events_ids ctx trip stop_distances avg_speed waiting_time :
  forall rest i t gid,
    map NodeId (later_events ctx trip stop_distances avg_speed waiting_time
                             i t gid rest)
    = ids_from gid (List.length (later_events ctx trip stop_distances avg_speed
                                             waiting_time i t gid rest)).
Proof.
  induction rest as [|stop later IH]; intros i t gid; [reflexivity |].
  destruct later as [|next later'].
  - cbn [later_events map List.length]. rewrite ids_from_cons. reflexivity.
  - rewrite later_events_step. cbn zeta. cbn [map List.length].
    rewrite !ids_from_cons, IH. cbn [make_node NodeId]. do 3 f_equal. lia.
Qed.

Lemma later_events_of_trip ctx trip stops stop_distances avg_speed waiting_time :
  forall rest i t gid,
    incl rest stops ->
    Forall (node_of_trip ctx trip stops)
           (later_events ctx trip stop_distances avg_speed waiting_time
                         i t gid rest).
Proof.
  induction rest as [|stop later IH]; intros i t gid Hin; [constructor |].
  assert (Hs : In stop stops) by (apply Hin; left; reflexivity).
  destruct later as [|next later'].
  - cbn [later_events]. constructor; [| constructor].
    apply make_node_of_trip, Hs.
  - rewrite later_events_step. cbn zeta.
    constructor; [apply make_node_of_trip, Hs |].
    constructor; [apply make_node_of_trip, Hs |].
    apply IH. intros x Hx. apply Hin. right. exact Hx.
Qed.

Lemma emit_trip_loop ctx s0 s1 more stop_distances avg_speed waiting_time trip
      start_seconds end_seconds gid :
  emit_trip ctx (s0 :: s1 :: more) true stop_distances avg_speed waiting_time trip
            start_seconds end_seconds gid
  = Emitted [make_node ctx trip gid s0 (inject_Z start_seconds) DEPARTURE;
             make_node ctx trip (gid + 1) s1 (inject_Z end_seconds) ARRIVAL]
            (gid + 2).
Proof.
  unfold emit_trip, emit. cbn [nodes NodeGen.global_node_id current_time app].
  f_equal. lia.
Qed.

Lemma process_trip_ids (cfg : NodeGen.Config) ctx stops is_loop_route
      stop_distances total_distance waiting_time trip gid new_nodes next_id :
  process_trip cfg ctx stops is_loop_route stop_distances total_distance
               waiting_time trip gid = Emitted new_nodes next_id ->
  map NodeId new_nodes = ids_from gid (List.length new_nodes)
  /\ next_id = gid + Z.of_nat (List.length new_nodes)
  /\ Forall (node_of_trip ctx trip stops) new_nodes.
Proof.
  intros H. apply process_trip_emitted in H. destruct H as [s [e [v H]]].
  destruct is_loop_route.
  - destruct stops as [|s0 [|s1 more]]; try discriminate H.
    rewrite emit_trip_loop in H. injection H as <- <-.
    split; [cbn [map List.length make_node NodeId]; rewrite !ids_from_cons;
            reflexivity | split; [reflexivity |]].
    constructor; [apply make_node_of_trip; left; reflexivity |].
    constructor; [apply make_node_of_trip; right; left; reflexivity | constructor].
  - destruct stops as [|first rest].
    + rewrite emit_trip_non_loop_nil in H. injection H as <- <-.
      split; [reflexivity | split; [cbn; lia | constructor]].
    + rewrite emit_trip_non_loop in H. cbn zeta in H. injection H as <- <-.
      split; [| split; [reflexivity |]].
      * cbn [map List.length]. rewrite ids_from_cons, later_events_ids. reflexivity.
      * constructor; [apply make_node_of_trip; left; reflexivity |].
        apply later_events_of_trip. intros x Hx. right. exact Hx.
Qed.

(** X10.  The nodes of a trip carry consecutive ids starting at the id the
    trip was given, and the next id returned is the first unused one; every
    node has the route, variant and trip of the call, one of the stops of
    the variant, and [Time] and [Attributes] that repeat its timestamp. *)
Theorem trip_nodes_numbered (cfg : NodeGen.Config) ctx stops is_loop_route
        stop_distances total_distance waiting_time trip gid new_nodes next_id :
  process_trip cfg ctx stops is_loop_route stop_distances total_distance
               waiting_time trip gid = Emitted new_nodes next_id ->
  map NodeId new_nodes = ids_from gid (List.length new_nodes)
  /\ next_id = gid + Z.of_nat (List.length new_nodes)
  /\ Forall (node_of_trip ctx trip stops) new_nodes.
Proof. apply process_trip_ids. Qed.

Lemma trip_nodes_numbered_witness :
  map NodeId single_trip_nodes = ids_from 1 (List.length single_trip_nodes)
  /\ 5 = 1 + Z.of_nat (List.length single_trip_nodes)
  /\ Forall (node_of_trip line_ctx line_trip line_stops) single_trip_nodes.
Proof.
  exact (trip_nodes_numbered default_config line_ctx line_stops false
           [1100; 1100]%Q 2200 30 line_trip 1 single_trip_nodes 5 eq_refl).
Defined.

Lemma process_trips_ids (cfg : NodeGen.Config) ctx stops is_loop_route
      stop_distances total_distance waiting_time :
  forall trips nodes gid all_nodes next_id,
    process_trips cfg ctx stops is_loop_route stop_distances total_distance
                  waiting_time trips nodes gid = inl (all_nodes, next_id) ->
    exists new_nodes,
      all_nodes = nodes ++ new_nodes
      /\ map NodeId new_nodes = ids_from gid (List.length new_nodes)
      /\ next_id = gid + Z.of_nat (List.length new_nodes)
      /\ Forall (fun n => exists trip, In trip trips
                                      /\ node_of_trip ctx trip stops n) new_nodes.
Proof.
  induction trips as [|trip trips IH]; intros nodes gid all_nodes next_id H.
  - cbn in H. injection H as <- <-. exists []. rewrite app_nil_r.
    split; [reflexivity | split; [reflexivity | split; [cbn; lia | constructor]]].
  - cbn [process_trips] in H.
    destruct (process_trip cfg ctx stops is_loop_route stop_distances
                total_distance waiting_time trip gid)
      as [trip_nodes next|  |e] eqn:Et; [| | discriminate H].
    + destruct (process_trip_ids _ _ _ _ _ _ _ _ _ _ _ Et) as [Hids [Hnext Hof]].
      destruct (IH _ _ _ _ H) as [more [-> [Hids' [-> Hof']]]].
      exists (trip_nodes ++ more). rewrite app_assoc, map_app, length_app.
      rewrite ids_from_app, Hids, Hids', Hnext, Nat2Z.inj_add.
      split; [reflexivity | split; [reflexivity | split; [lia |]]].
      apply Forall_app. split.
      * eapply Forall_impl; [| exact Hof]. intros n Hn. exists trip.
        split; [left; reflexivity | exact Hn].
      * eapply Forall_impl; [| exact Hof']. intros n [t [Ht Hn]]. exists t.
        split; [right; exact Ht | exact Hn].
    + destruct (IH _ _ _ _ H) as [more [-> [Hids' [-> Hof']]]].
      exists more. split; [reflexivity | split; [exact Hids' | split; [reflexivity |]]].
      eapply Forall_impl; [| exact Hof']. intros n [t [Ht Hn]]. exists t.
      split; [right; exact Ht | exact Hn].
Qed.

(** X11.  The trips of a timetable share one id counter: the nodes added
    by [process_trips] are numbered consecutively from the id it was given,
    a skipped trip uses no id, and the id returned is the first unused
    one. *)
Theorem process_trips_numbered (cfg : NodeGen.Config) ctx stops is_loop_route
        stop_distances total_distance waiting_time trips nodes gid all_nodes
        next_id :
  process_trips cfg ctx stops is_loop_route stop_distances total_distance
                waiting_time trips nodes gid = inl (all_nodes, next_id) ->
  exists new_nodes,
    all_nodes = nodes ++ new_nodes
    /\ map NodeId new_nodes = ids_from gid (List.length new_nodes)
    /\ next_id = gid + Z.of_nat (List.length new_nodes)
    /\ Forall (fun n => exists trip, In trip trips
                                    /\ node_of_trip ctx trip stops n) new_nodes.
Proof. apply process_trips_ids. Qed.

Lemma process_trips_numbered_witness :
  exists new_nodes,
    line_timetable_nodes = [] ++ new_nodes
    /\ map NodeId new_nodes = ids_from 1 (List.length new_nodes)
    /\ 9 = 1 + Z.of_nat (List.length new_nodes)
    /\ Forall (fun n => exists trip, In trip line_trips
                                    /\ node_of_trip line_ctx trip line_stops n)
              new_nodes.
Proof.
  apply (process_trips_numbered default_config line_ctx line_stops false
           [1100; 1100]%Q 2200 30 line_trips [] 1 line_timetable_nodes 9).
  vm_compute. reflexivity.
Defined.

(** ** Rounding and order of timestamps *)

Lemma round_proper x y : (x == y)%Q -> Py.round x = Py.round y.
Proof.
  intros E. unfold Py.round. rewrite (Qfloor_comp _ _ E).
  assert (E' : (x - inject_Z (Qfloor y) == y - inject_Z (Qfloor y))%Q)
    by (rewrite E; reflexivity).
  rewrite E'. reflexivity.
Qed.

Lemma round_bounds x :
  Qfloor x <= Py.round x <= Qfloor x + 1.
Proof.
  unfold Py.round. destruct (_ ?= _)%Q; [destruct (Z.even _) | |]; lia.
Qed.

Lemma round_monotone x y : (x <= y)%Q -> Py.round x <= Py.round y.
Proof.
  intros H. pose proof (Qfloor_resp_le _ _ H) as F.
  destruct (Z.eq_dec (Qfloor x) (Qfloor y)) as [E|N].
  - unfold Py.round. rewrite E.
    assert (R : (x - inject_Z (Qfloor y) <= y - inject_Z (Qfloor y))%Q).
    { apply Qplus_le_compat; [exact H | apply Qle_refl]. }
    destruct (Qcompare_spec (x - inject_Z (Qfloor y)) (1 # 2)) as [Hx|Hx|Hx];
      destruct (Qcompare_spec (y - inject_Z (Qfloor y)) (1 # 2)) as [Hy|Hy|Hy];
      try destruct (Z.even (Qfloor y)); try lia; exfalso; lra.
  - pose proof (round_bounds x). pose proof (round_bounds y). lia.
Qed.

Lemma process_trip_validated (cfg : NodeGen.Config) ctx stops is_loop_route
      stop_distances total_distance waiting_time trip gid new_nodes next_id :
  process_trip cfg ctx stops is_loop_route stop_distances total_distance
               waiting_time trip gid = Emitted new_nodes next_id ->
  exists start_seconds end_seconds,
    parse_time_to_seconds (StartTime trip) false = Some start_seconds
    /\ parse_time_to_seconds (EndTime trip) false = Some end_seconds
    /\ let end_seconds' := overnight_end trip start_seconds end_seconds in
       let traveling_time :=
         end_seconds' - start_seconds
         - (Z.of_nat (List.length stops) - 1) * waiting_time in
       let avg_speed := (total_distance / inject_Z traveling_time)%Q in
       0 < traveling_time
       /\ (MIN_AVG_SPEED cfg <= avg_speed <= 222 # 10)%Q
       /\ emit_trip ctx stops is_loop_route stop_distances avg_speed waiting_time
                    trip start_seconds end_seconds' gid
          = Emitted new_nodes next_id.
Proof.
  unfold process_trip.
  destruct (parse_time_to_seconds (StartTime trip) false) as [s|];
    [| destruct (negb _); discriminate].
  destruct (parse_time_to_seconds (EndTime trip) false) as [e|];
    [| destruct (negb _); discriminate].
  unfold validate_and_emit.
  destruct (Z.leb_spec (overnight_end trip s e - s
                        - (Z.of_nat (List.length stops) - 1) * waiting_time) 0)
    as [_|Htt]; [destruct (negb _); discriminate |].
  destruct (Qlt_le_dec _ _) as [|Hlo]; [discriminate |].
  destruct (Qlt_le_dec _ _) as [|Hhi]; [discriminate |].
  intros E. exists s, e. cbn zeta.
  split; [reflexivity | split; [reflexivity | split; [exact Htt |]]].
  split; [split; assumption | exact E].
Qed.

Lemma nth_nonneg (l : list Q) i : Forall (fun d => 0 <= d)%Q l -> (0 <= nth i l 0)%Q.
Proof.
  intros H. revert i. induction H as [|d l Hd _ IH]; intros [|i]; simpl;
    try apply Qle_refl; auto.
Qed.

Lemma later_events_sorted ctx trip stop_distances avg_speed waiting_time :
  Forall (fun d => 0 <= d)%Q stop_distances ->
  (0 < avg_speed)%Q -> 0 <= waiting_time ->
  forall rest i t gid,
    StronglySorted by_time
      (later_events ctx trip stop_distances avg_speed waiting_time i t gid rest)
    /\ Forall (fun n => Py.round t <= Timestamp n)
         (later_events ctx trip stop_distances avg_speed waiting_time i t gid rest).
Proof.
  intros Hd Hv Hw. induction rest as [|stop later IH]; intros i t gid.
  - split; constructor.
  - assert (Travel : (0 <= nth (i - 1) stop_distances 0 / avg_speed)%Q).
    { apply Qle_shift_div_l; [exact Hv |]. rewrite Qmult_0_l. apply nth_nonneg, Hd. }
    assert (Arr : Py.round t
                  <= Py.round (t + nth (i - 1) stop_distances 0 / avg_speed)%Q)
      by (apply round_monotone; lra).
    destruct later as [|next later'].
    + cbn [later_events]. split.
      * constructor; constructor.
      * constructor; [exact Arr | constructor].
    + rewrite later_events_step. cbn zeta.
      set (t_arr := (t + nth (i - 1) stop_distances 0 / avg_speed)%Q) in *.
      assert (Dep : Py.round t_arr <= Py.round (t_arr + inject_Z waiting_time)).
      { apply round_monotone.
        assert (0 <= inject_Z waiting_time)%Q
          by (change 0%Q with (inject_Z 0); rewrite <- Zle_Qle; exact Hw).
        lra. }
      destruct (IH (S i) (t_arr + inject_Z waiting_time)%Q (gid + 2)) as [S A].
      split.
      * constructor; [constructor; [exact S |] |].
        -- exact A.
        -- constructor; [unfold by_time; cbn [make_node Timestamp]; exact Dep |].
           eapply Forall_impl; [| exact A]. intros n Hn. unfold by_time.
           cbn [make_node Timestamp]. cbn beta in Hn. lia.
      * constructor; [cbn [make_node Timestamp]; exact Arr |].
        constructor; [cbn [make_node Timestamp]; lia |].
        eapply Forall_impl; [| exact A]. intros n Hn. cbn beta in Hn. lia.
Qed.

(** X12.  The timestamps of a trip never decrease along its events, when
    no segment has a negative length, the total distance is positive and
    the dwell time is not negative. *)
Theorem trip_timestamps_ordered (cfg : NodeGen.Config) ctx stops is_loop_route
        stop_distances total_distance waiting_time trip gid new_nodes next_id :
  Forall (fun d => 0 <= d)%Q stop_distances ->
  (0 < total_distance)%Q -> 0 <= waiting_time ->
  process_trip cfg ctx stops is_loop_route stop_distances total_distance
               waiting_time trip gid = Emitted new_nodes next_id ->
  StronglySorted by_time new_nodes.
Proof.
  intros Hd Htot Hw H. apply process_trip_validated in H.
  destruct H as [s [e [_ [_ H]]]]. cbn zeta in H. destruct H as [Htt [_ H]].
  set (e' := overnight_end trip s e) in *.
  set (tt := e' - s - (Z.of_nat (List.length stops) - 1) * waiting_time) in *.
  assert (Hv : (0 < total_distance / inject_Z tt)%Q).
  { apply Qlt_shift_div_l; [| rewrite Qmult_0_l; exact Htot].
    change 0%Q with (inject_Z 0). rewrite <- Zlt_Qlt. exact Htt. }
  destruct is_loop_route.
  - destruct stops as [|s0 [|s1 more]]; try discriminate H.
    rewrite emit_trip_loop in H. injection H as <- _.
    constructor; [constructor; constructor |].
    constructor; [| constructor]. unfold by_time. cbn [make_node Timestamp].
    rewrite !round_inject_Z.
    cbn [List.length] in tt. subst tt. nia.
  - destruct stops as [|first rest].
    + rewrite emit_trip_non_loop_nil in H. injection H as <- _. constructor.
    + rewrite emit_trip_non_loop in H. cbn zeta in H. injection H as <- _.
      destruct (later_events_sorted ctx trip stop_distances
                  (total_distance / inject_Z tt)%Q waiting_time Hd Hv Hw
                  rest 1%nat (inject_Z s) (gid + 1)) as [S A].
      constructor; [exact S |].
      eapply Forall_impl; [| exact A]. intros n Hn. unfold by_time.
      cbn [make_node Timestamp]. cbn beta in Hn. lia.
Qed.

Lemma trip_timestamps_ordered_witness : StronglySorted by_time zero_segment_nodes.
Proof.
  apply (trip_timestamps_ordered default_config line_ctx line_stops false
           [0; 2200]%Q 2200 30 line_trip 1 zero_segment_nodes 5).
  - repeat constructor; discriminate.
  - reflexivity.
  - lia.
  - reflexivity.
Defined.

(** X13.  A trip of a loop variant that passes validation gives exactly two
    nodes: a DEPARTURE from the first stop at the start time and an ARRIVAL
    at the second stop at the end time, moved to the next day for an overnight
    trip. *)
Theorem loop_trip_two_events (cfg : NodeGen.Config) ctx s0 s1 more stop_distances
        total_distance waiting_time trip gid new_nodes next_id :
  process_trip cfg ctx (s0 :: s1 :: more) true stop_distances total_distance
               waiting_time trip gid = Emitted new_nodes next_id ->
  exists start_seconds end_seconds,
    parse_time_to_seconds (StartTime trip) false = Some start_seconds
    /\ parse_time_to_seconds (EndTime trip) false = Some end_seconds
    /\ map (fun n => (NodeId n, StopId n, Event n, Timestamp n)) new_nodes
       = [(gid, stop_StopId s0, DEPARTURE, start_seconds);
          (gid + 1, stop_StopId s1, ARRIVAL,
           if end_seconds <=? start_seconds then end_seconds + 86400
           else end_seconds)]
    /\ next_id = gid + 2.
Proof.
  intros H. apply process_trip_validated in H.
  destruct H as [s [e [Hs [He H]]]]. cbn zeta in H. destruct H as [_ [_ H]].
  rewrite emit_trip_loop in H. injection H as <- <-.
  exists s, e. split; [exact Hs | split; [exact He | split; [| reflexivity]]].
  cbn [map make_node NodeId StopId Event Timestamp].
  rewrite !round_inject_Z, (overnight_end_spec _ _ _ He). reflexivity.
Qed.

Lemma loop_trip_two_events_witness :
  exists start_seconds end_seconds,
    parse_time_to_seconds (StartTime night_trip) false = Some start_seconds
    /\ parse_time_to_seconds (EndTime night_trip) false = Some end_seconds
    /\ map (fun n => (NodeId n, StopId n, Event n, Timestamp n))
           (nodes_of (process_trip default_config line_ctx [stop_A; stop_A] true
                                   [21540]%Q 21540 30 night_trip 1))
       = [(1, stop_StopId stop_A, DEPARTURE, start_seconds);
          (1 + 1, stop_StopId stop_A, ARRIVAL,
           if end_seconds <=? start_seconds then end_seconds + 86400
           else end_seconds)]
    /\ 3 = 1 + 2.
Proof.
  apply (loop_trip_two_events default_config line_ctx stop_A stop_A [] [21540]%Q
           21540 30 night_trip 1).
  vm_compute. reflexivity.
Defined.

(** ** The last arrival of a trip *)


Lemma fold_left_Qplus l : forall a, (fold_left Qplus l a == a + fold_left Qplus l 0)%Q.
Proof.
  induction l as [|d l IH]; intros a; cbn [fold_left].
  - ring.
  - rewrite (IH (a + d)%Q), (IH (0 + d)%Q). ring.
Qed.

Lemma Qsum_cons d l : (Qsum (d :: l) == d + Qsum l)%Q.
Proof. unfold Qsum. cbn [fold_left]. rewrite fold_left_Qplus. ring. Qed.

Lemma later_events_last ctx trip stop_distances avg_speed waiting_time :
  forall rest ds pre i t gid,
    stop_distances = pre ++ ds -> List.length pre = (i - 1)%nat -> (1 <= i)%nat ->
    List.length ds = List.length rest -> rest <> [] ->
    exists front last_id t_last,
      later_events ctx trip stop_distances avg_speed waiting_time i t gid rest
      = front ++ [make_node ctx trip last_id (last rest (mkStop 0 0 0 ""))
                            t_last ARRIVAL]
      /\ (t_last == t + Qsum ds / avg_speed
                    + inject_Z ((Z.of_nat (List.length rest) - 1) * waiting_time))%Q.
Proof.
  induction rest as [|stop later IH]; intros ds pre i t gid Hd Hp Hi Hl Hne;
    [contradiction |].
  destruct ds as [|d ds']; [discriminate Hl |].
  assert (Hn : nth (i - 1) stop_distances 0%Q = d).
  { rewrite Hd, app_nth2 by lia. rewrite Hp, Nat.sub_diag. reflexivity. }
  destruct later as [|next later'].
  - destruct ds' as [|]; [| discriminate Hl].
    cbn [later_events]. exists [], gid. eexists. split; [reflexivity |].
    rewrite Hn. cbn [List.length last]. rewrite Qsum_cons.
    unfold Qsum. cbn [fold_left]. unfold Qdiv.
    change (inject_Z ((Z.of_nat 1 - 1) * waiting_time)) with (inject_Z 0).
    change (inject_Z 0) with 0%Q. ring.
  - rewrite later_events_step. cbn zeta. rewrite Hn.
    destruct (IH ds' (pre ++ [d]) (S i)
                 (t + d / avg_speed + inject_Z waiting_time)%Q (gid + 2))
      as [front [last_id [t_last [E Ht]]]].
    + rewrite <- app_assoc. exact Hd.
    + rewrite length_app. cbn [List.length]. lia.
    + lia.
    + cbn [List.length] in Hl |- *. lia.
    + discriminate.
    + rewrite E. eexists (_ :: _ :: front), last_id, t_last.
      split; [reflexivity |]. rewrite Ht, Qsum_cons.
      replace (Z.of_nat (List.length (stop :: next :: later')) - 1)
        with (1 + (Z.of_nat (List.length (next :: later')) - 1))
        by (cbn [List.length]; lia).
      rewrite Z.mul_add_distr_r, inject_Z_plus, Z.mul_1_l. unfold Qdiv. ring.
Qed.

(** X14.  The last ARRIVAL of a non-loop trip is stamped one dwell time
    before the end time of the trip: the dwell is counted once per segment
    when the travelling time is computed, but spent only at the stops in
    between.  (Here the total distance is the sum of the segments, as line
    230 computes it.) *)
Theorem last_arrival_one_dwell_early (cfg : NodeGen.Config) ctx first rest
        stop_distances total_distance waiting_time trip gid new_nodes next_id :
  rest <> [] ->
  List.length stop_distances = List.length rest ->
  (Qsum stop_distances == total_distance)%Q ->
  ~ (total_distance == 0)%Q ->
  process_trip cfg ctx (first :: rest) false stop_distances total_distance
               waiting_time trip gid = Emitted new_nodes next_id ->
  exists start_seconds end_seconds front last_node,
    parse_time_to_seconds (StartTime trip) false = Some start_seconds
    /\ parse_time_to_seconds (EndTime trip) false = Some end_seconds
    /\ new_nodes = front ++ [last_node]
    /\ Event last_node = ARRIVAL
    /\ StopId last_node = stop_StopId (last rest first)
    /\ Timestamp last_node
       = overnight_end trip start_seconds end_seconds - waiting_time.
Proof.
  intros Hne Hlen Hsum Htot H. apply process_trip_validated in H.
  destruct H as [s [e [Hs [He H]]]]. cbn zeta in H. destruct H as [Htt [_ H]].
  set (e' := overnight_end trip s e) in *.
  set (tt := e' - s - (Z.of_nat (List.length (first :: rest)) - 1) * waiting_time)
    in *.
  rewrite emit_trip_non_loop in H. cbn zeta in H. injection H as <- _.
  destruct (later_events_last ctx trip stop_distances
              (total_distance / inject_Z tt)%Q waiting_time rest stop_distances []
              1%nat (inject_Z s) (gid + 1) eq_refl eq_refl (le_n 1) Hlen Hne)
    as [front [last_id [t_last [E Ht]]]].
  rewrite E. eexists s, e, (_ :: front), _.
  split; [exact Hs | split; [exact He | split; [reflexivity |]]].
  cbn [make_node Event StopId Timestamp]. split; [reflexivity | split].
  - f_equal. clear - Hne. induction rest as [|x [|y r] IH]; [contradiction | reflexivity |].
    change (last (x :: y :: r) (mkStop 0 0 0 "")) with (last (y :: r) (mkStop 0 0 0 "")).
    change (last (x :: y :: r) first) with (last (y :: r) first).
    apply IH. discriminate.
  - fold e'. rewrite <- (round_inject_Z (e' - waiting_time)). apply round_proper.
    rewrite Ht, Hsum.
    assert (Ntt : ~ (inject_Z tt == 0)%Q).
    { change 0%Q with (inject_Z 0). rewrite inject_Z_injective. lia. }
    assert (D : (total_distance / (total_distance / inject_Z tt) == inject_Z tt)%Q)
      by (field; split; assumption).
    rewrite D. rewrite <- !inject_Z_plus. apply inject_Z_injective.
    subst tt. cbn [List.length]. lia.
Qed.

Lemma last_arrival_one_dwell_early_witness :
  exists start_seconds end_seconds front last_node,
    parse_time_to_seconds (StartTime line_trip) false = Some start_seconds
    /\ parse_time_to_seconds (EndTime line_trip) false = Some end_seconds
    /\ single_trip_nodes = front ++ [last_node]
    /\ Event last_node = ARRIVAL
    /\ StopId last_node = stop_StopId (last [stop_B; stop_C] stop_A)
    /\ Timestamp last_node = overnight_end line_trip start_seconds end_seconds - 30.
Proof.
  apply (last_arrival_one_dwell_early default_config line_ctx stop_A
           [stop_B; stop_C] [1100; 1100]%Q 2200 30 line_trip 1 single_trip_nodes 5).
  - discriminate.
  - reflexivity.
  - reflexivity.
  - discriminate.
  - reflexivity.
Defined.

(** ** Times of day *)


Lemma round_trip_all :
  forallb (fun h => forallb (fun m => round_trip_ok (Z.of_nat h) (Z.of_nat m))
                            (seq 0 60))
          (seq 0 24) = true.
Proof. vm_compute. reflexivity. Qed.

(** X15.  Every time of day ["HH:MM"] of a timetable (two digits each,
    hour 00-23, minute 00-59) is parsed to [hours * 3600 + minutes * 60]
    seconds, and [seconds_to_time] renders that number of seconds as the
    same time followed by [":00"]. *)
Theorem time_of_day_round_trip hours minutes :
  0 <= hours <= 23 -> 0 <= minutes <= 59 ->
  parse_time_to_seconds (Some (hh_mm hours minutes)) false
  = Some (hours * 3600 + minutes * 60)
  /\ seconds_to_time (hours * 3600 + minutes * 60)
     = (hh_mm hours minutes ++ ":00")%string.
Proof.
  intros Hh Hm. pose proof round_trip_all as H.
  rewrite forallb_forall in H.
  specialize (H (Z.to_nat hours)). rewrite forallb_forall in H.
  assert (Hin : In (Z.to_nat hours) (seq 0 24)) by (apply in_seq; lia).
  specialize (H Hin (Z.to_nat minutes)).
  assert (Hin' : In (Z.to_nat minutes) (seq 0 60)) by (apply in_seq; lia).
  specialize (H Hin'). rewrite !Z2Nat.id in H by lia.
  unfold round_trip_ok in H.
  destruct (parse_time_to_seconds (Some (hh_mm hours minutes)) false)
    as [seconds|]; [| discriminate H].
  apply andb_true_iff in H. destruct H as [Hs Ht].
  apply Z.eqb_eq in Hs. apply String.eqb_eq in Ht. subst seconds.
  split; [reflexivity | exact Ht].
Qed.

Lemma time_of_day_round_trip_witness :
  parse_time_to_seconds (Some (hh_mm 7 5)) false = Some (7 * 3600 + 5 * 60)
  /\ seconds_to_time (7 * 3600 + 5 * 60) = (hh_mm 7 5 ++ ":00")%string.
Proof.
  apply (time_of_day_round_trip 7 5); lia.
Defined.

(** ** Trips that raise *)


(** X16.  Expanding a trip raises only when [SKIP_INVALID_TRIPS] is off,
    and then exactly for a start or end time that cannot be parsed and for
    a travelling time that is not positive; the exception is a
    [ValueError].  A trip that is too slow or too fast is skipped without
    an error whatever the setting. *)
Theorem trip_raises_exactly (cfg : NodeGen.Config) ctx stops is_loop_route
        stop_distances total_distance waiting_time trip gid e :
  (is_loop_route = true -> (2 <= List.length stops)%nat) ->
  process_trip cfg ctx stops is_loop_route stop_distances total_distance
               waiting_time trip gid = Raised e
  <-> e = Py.ValueError
      /\ SKIP_INVALID_TRIPS cfg = false
      /\ match parse_time_to_seconds (StartTime trip) false,
               parse_time_to_seconds (EndTime trip) false with
         | Some start_seconds, Some end_seconds =>
             overnight_end trip start_seconds end_seconds - start_seconds
             - (Z.of_nat (List.length stops) - 1) * waiting_time <= 0
         | _, _ => True
         end.
Proof.
  intros Hloop. unfold process_trip, validate_and_emit.
  destruct (parse_time_to_seconds (StartTime trip) false) as [s|];
    [destruct (parse_time_to_seconds (EndTime trip) false) as [en|] |].
  - cbn zeta.
    destruct (overnight_end trip s en - s
              - (Z.of_nat (List.length stops) - 1) * waiting_time <=? 0) eqn:Et.
    + apply Z.leb_le in Et. destruct (SKIP_INVALID_TRIPS cfg); cbn [negb]; split.
      * discriminate.
      * intros [_ [H _]]. discriminate H.
      * intros H. injection H as <-. repeat split. exact Et.
      * intros [-> _]. reflexivity.
    + apply Z.leb_gt in Et. split; [| intros [_ [_ H]]; lia].
      destruct (Qlt_le_dec _ (MIN_AVG_SPEED cfg)); [discriminate |].
      destruct (Qlt_le_dec (222 # 10) _); [discriminate |].
      unfold emit_trip. destruct is_loop_route; [| discriminate].
      destruct stops as [|s0 [|s1 more]]; cbn [List.length] in Hloop;
        [specialize (Hloop eq_refl); lia | specialize (Hloop eq_refl); lia |].
      discriminate.
  - destruct (SKIP_INVALID_TRIPS cfg); cbn [negb]; split.
    + discriminate.
    + intros [_ [H _]]. discriminate H.
    + intros H. injection H as <-. repeat split.
    + intros [-> _]. reflexivity.
  - destruct (SKIP_INVALID_TRIPS cfg); cbn [negb]; split.
    + discriminate.
    + intros [_ [H _]]. discriminate H.
    + intros H. injection H as <-. repeat split.
    + intros [-> _]. reflexivity.
Qed.

Lemma trip_raises_exactly_witness :
  process_trip strict_config line_ctx line_stops false [1100; 1100]%Q 2200 30
               invalid_trip 1 = Raised Py.ValueError
  <-> Py.ValueError = Py.ValueError
      /\ SKIP_INVALID_TRIPS strict_config = false
      /\ match parse_time_to_seconds (StartTime invalid_trip) false,
               parse_time_to_seconds (EndTime invalid_trip) false with
         | Some start_seconds, Some end_seconds =>
             overnight_end invalid_trip start_seconds end_seconds - start_seconds
             - (Z.of_nat (List.length line_stops) - 1) * 30 <= 0
         | _, _ => True
         end.
Proof.
  apply (trip_raises_exactly strict_config line_ctx line_stops false
           [1100; 1100]%Q 2200 30 invalid_trip 1 Py.ValueError).
  discriminate.
Defined.

Import Variants.
Import RouteExamples.


(** ** The error monad *)

Lemma foldM_app {A S : Type} (body : S -> A -> Result S) l l' s :
  foldM body (l ++ l') s = bind (foldM body l s) (foldM body l').
Proof.
  revert s. induction l as [|x l IH]; intros s; cbn [foldM app bind ret].
  - reflexivity.
  - destruct (body s x) as [s'|e]; cbn [bind]; [apply IH | reflexivity].
Qed.

Lemma foldM_fails {A S : Type} (body : S -> A -> Result S) x l :
  In x l -> (forall s, exists e, body s x = inr e) ->
  forall s, exists e, foldM body l s = inr e.
Proof.
  intros Hin Hx. induction l as [|y l IH]; intros s; [destruct Hin |].
  cbn [foldM]. destruct Hin as [-> | Hin].
  - destruct (Hx s) as [e ->]. exists e. reflexivity.
  - destruct (body s y) as [s'|e]; cbn [bind]; [apply IH, Hin | eexists; reflexivity].
Qed.

Lemma getitem_ok l i : (i < List.length l)%nat -> getitem l i = inl (nth i l 0%Q).
Proof.
  intros H. unfold getitem.
  destruct (nth_error l i) as [x|] eqn:E.
  - rewrite (nth_error_nth _ _ _ E). reflexivity.
  - apply nth_error_None in E. lia.
Qed.

Lemma getitem_fail l i : (List.length l <= i)%nat -> getitem l i = inr Py.IndexError.
Proof.
  intros H. unfold getitem. apply nth_error_None in H. rewrite H. reflexivity.
Qed.

Lemma getitem_error l i e : getitem l i = inr e -> e = Py.IndexError.
Proof.
  unfold getitem. destruct (nth_error l i); intros H; [discriminate H |].
  injection H as <-. reflexivity.
Qed.

(** ** The nearest vertex of the path *)

Section NearestFacts.

Variable haversine_distance : Q -> Q -> Q -> Q -> Q.
Variables stop_lat stop_lng : Q.
Variables path_lats path_lngs : list Q.

Lemma nearest_scan k :
  (k <= List.length path_lats)%nat -> (k <= List.length path_lngs)%nat ->
  exists st,
    foldM (nearest_step haversine_distance stop_lat stop_lng path_lats path_lngs)
          (seq 0 k) (None, 0%nat) = inl st
    /\ match k with
       | O => st = (None, 0%nat)
       | S _ =>
           (snd st < k)%nat
           /\ fst st = Some (vertex_distance haversine_distance stop_lat stop_lng
                                             path_lats path_lngs (snd st))
           /\ (forall j, (j < k)%nat ->
                 (vertex_distance haversine_distance stop_lat stop_lng path_lats
                                  path_lngs (snd st)
                  <= vertex_distance haversine_distance stop_lat stop_lng
                                     path_lats path_lngs j)%Q)
           /\ (forall j, (j < snd st)%nat ->
                 (vertex_distance haversine_distance stop_lat stop_lng path_lats
                                  path_lngs (snd st)
                  < vertex_distance haversine_distance stop_lat stop_lng
                                    path_lats path_lngs j)%Q)
       end.
Proof.
  induction k as [|k IH]; intros Hlat Hlng.
  - exists (None, 0%nat). split; reflexivity.
  - destruct IH as [st [E Hst]]; [lia | lia |].
    rewrite seq_S, foldM_app, E. cbn [bind foldM Nat.add].
    unfold nearest_step. rewrite (getitem_ok path_lats k), (getitem_ok path_lngs k)
      by lia. cbn [bind ret].
    change (haversine_distance stop_lat stop_lng (nth k path_lats 0%Q)
              (nth k path_lngs 0%Q))
      with (vertex_distance haversine_distance stop_lat stop_lng path_lats
              path_lngs k).
    destruct k as [|k'].
    + subst st. cbn [fst]. eexists. split; [reflexivity |]. cbn [fst snd].
      split; [lia | split; [reflexivity | split]].
      * intros j Hj. replace j with 0%nat by lia. apply Qle_refl.
      * intros j Hj. lia.
    + destruct Hst as [Hi [Hd [Hmin Hfirst]]]. rewrite Hd.
      destruct (Qlt_le_dec
                  (vertex_distance haversine_distance stop_lat stop_lng path_lats
                     path_lngs (S k'))
                  (vertex_distance haversine_distance stop_lat stop_lng path_lats
                     path_lngs (snd st))) as [Hlt|Hle].
      * eexists. split; [reflexivity |]. cbn [fst snd].
        split; [lia | split; [reflexivity | split]].
        -- intros j Hj. destruct (Nat.eq_dec j (S k')) as [->|Hne];
             [apply Qle_refl |].
           apply Qlt_le_weak. eapply Qlt_le_trans; [exact Hlt |].
           apply Hmin. lia.
        -- intros j Hj. eapply Qlt_le_trans; [exact Hlt |]. apply Hmin. lia.
      * exists st. split; [reflexivity |].
        split; [lia | split; [exact Hd | split]].
        -- intros j Hj. destruct (Nat.eq_dec j (S k')) as [->|Hne];
             [exact Hle | apply Hmin; lia].
        -- exact Hfirst.
Qed.

Lemma find_nearest_ok :
  path_lats <> [] -> (List.length path_lats <= List.length path_lngs)%nat ->
  exists nearest,
    find_nearest_point_on_path haversine_distance stop_lat stop_lng
                               path_lats path_lngs = inl nearest
    /\ (index nearest < List.length path_lats)%nat
    /\ nearest_lat nearest = nth (index nearest) path_lats 0%Q
    /\ nearest_lng nearest = nth (index nearest) path_lngs 0%Q
    /\ distance nearest
       = Some (vertex_distance haversine_distance stop_lat stop_lng path_lats
                               path_lngs (index nearest))
    /\ (forall j, (j < List.length path_lats)%nat ->
          (vertex_distance haversine_distance stop_lat stop_lng path_lats
                           path_lngs (index nearest)
           <= vertex_distance haversine_distance stop_lat stop_lng path_lats
                              path_lngs j)%Q)
    /\ (forall j, (j < index nearest)%nat ->
          (vertex_distance haversine_distance stop_lat stop_lng path_lats
                           path_lngs (index nearest)
           < vertex_distance haversine_distance stop_lat stop_lng path_lats
                             path_lngs j)%Q).
Proof.
  intros Hne Hlen.
  destruct (nearest_scan (List.length path_lats) (le_n _) Hlen) as [st [E Hst]].
  destruct (List.length path_lats) as [|n] eqn:En.
  { destruct path_lats; [contradiction | discriminate En]. }
  destruct Hst as [Hi [Hd [Hmin Hfirst]]].
  unfold find_nearest_point_on_path. rewrite En, E. cbn [bind].
  rewrite (getitem_ok path_lats (snd st)), (getitem_ok path_lngs (snd st)) by lia.
  cbn [bind ret]. eexists. split; [reflexivity |]. cbn [index distance
    nearest_lat nearest_lng]. repeat split; assumption.
Qed.

Lemma find_nearest_fails :
  path_lats = [] \/ (List.length path_lngs < List.length path_lats)%nat ->
  find_nearest_point_on_path haversine_distance stop_lat stop_lng
                             path_lats path_lngs = inr Py.IndexError.
Proof.
  intros [Hnil | Hshort]; unfold find_nearest_point_on_path.
  - rewrite Hnil. reflexivity.
  - set (m := List.length path_lngs) in *.
    replace (List.length path_lats) with (m + S (List.length path_lats - m - 1))%nat
      by lia.
    rewrite seq_app, foldM_app.
    destruct (nearest_scan m) as [st [E _]]; [lia | subst m; lia |].
    rewrite E. cbn [bind seq foldM Nat.add]. unfold nearest_step at 1.
    rewrite (getitem_ok path_lats m) by lia.
    rewrite (getitem_fail path_lngs m) by (subst m; lia). reflexivity.
Qed.

End NearestFacts.

Lemma find_nearest_error haversine_distance stop_lat stop_lng path_lats path_lngs e :
  find_nearest_point_on_path haversine_distance stop_lat stop_lng
                             path_lats path_lngs = inr e ->
  e = Py.IndexError
  /\ (path_lats = [] \/ (List.length path_lngs < List.length path_lats)%nat).
Proof.
  intros H.
  destruct path_lats as [|la lats] eqn:El.
  { rewrite find_nearest_fails in H by (left; reflexivity).
    injection H as <-. split; [reflexivity | left; reflexivity]. }
  rewrite <- El in *.
  destruct (le_lt_dec (List.length path_lats) (List.length path_lngs)) as [Hle|Hlt].
  - destruct (find_nearest_ok haversine_distance stop_lat stop_lng path_lats
                path_lngs) as [n [E _]]; [rewrite El; discriminate | exact Hle |].
    rewrite E in H. discriminate H.
  - rewrite find_nearest_fails in H by (right; exact Hlt).
    injection H as <-. split; [reflexivity | right; exact Hlt].
Qed.

(** X17.  On a path with at least one vertex and a longitude for every
    latitude, [find_nearest_point_on_path] returns the first vertex at
    minimal distance from the stop: no vertex is nearer, every vertex
    before it is farther, and the coordinates and the distance returned
    are those of that vertex. *)
Theorem nearest_vertex_is_first_minimum
        (haversine_distance : Q -> Q -> Q -> Q -> Q) stop_lat stop_lng
        path_lats path_lngs :
  path_lats <> [] -> (List.length path_lats <= List.length path_lngs)%nat ->
  exists nearest,
    find_nearest_point_on_path haversine_distance stop_lat stop_lng
                               path_lats path_lngs = inl nearest
    /\ (index nearest < List.length path_lats)%nat
    /\ nearest_lat nearest = nth (index nearest) path_lats 0%Q
    /\ nearest_lng nearest = nth (index nearest) path_lngs 0%Q
    /\ distance nearest
       = Some (haversine_distance stop_lat stop_lng (nearest_lat nearest)
                                  (nearest_lng nearest))
    /\ (forall j, (j < List.length path_lats)%nat ->
          (vertex_distance haversine_distance stop_lat stop_lng path_lats
                           path_lngs (index nearest)
           <= vertex_distance haversine_distance stop_lat stop_lng path_lats
                              path_lngs j)%Q)
    /\ (forall j, (j < index nearest)%nat ->
          (vertex_distance haversine_distance stop_lat stop_lng path_lats
                           path_lngs (index nearest)
           < vertex_distance haversine_distance stop_lat stop_lng path_lats
                             path_lngs j)%Q).
Proof.
  intros Hne Hlen.
  destruct (find_nearest_ok haversine_distance stop_lat stop_lng path_lats
              path_lngs Hne Hlen) as [n [E [Hi [Hla [Hln [Hd [Hmin Hfirst]]]]]]].
  exists n. rewrite Hla, Hln.
  repeat split; try assumption; reflexivity.
Qed.

Lemma nearest_vertex_is_first_minimum_witness :
  exists nearest,
    find_nearest_point_on_path planar_distance 10 (106006 # 1000)
                               (lat line_paths) (lng line_paths) = inl nearest
    /\ (index nearest < List.length (lat line_paths))%nat
    /\ nearest_lat nearest = nth (index nearest) (lat line_paths) 0%Q
    /\ nearest_lng nearest = nth (index nearest) (lng line_paths) 0%Q
    /\ distance nearest
       = Some (planar_distance 10 (106006 # 1000) (nearest_lat nearest)
                               (nearest_lng nearest))
    /\ (forall j, (j < List.length (lat line_paths))%nat ->
          (vertex_distance planar_distance 10 (106006 # 1000) (lat line_paths)
                           (lng line_paths) (index nearest)
           <= vertex_distance planar_distance 10 (106006 # 1000) (lat line_paths)
                              (lng line_paths) j)%Q)
    /\ (forall j, (j < index nearest)%nat ->
          (vertex_distance planar_distance 10 (106006 # 1000) (lat line_paths)
                           (lng line_paths) (index nearest)
           < vertex_distance planar_distance 10 (106006 # 1000) (lat line_paths)
                             (lng line_paths) j)%Q).
Proof.
  apply (nearest_vertex_is_first_minimum planar_distance 10 (106006 # 1000)
           (lat line_paths) (lng line_paths)).
  - discriminate.
  - cbn. lia.
Defined.

(** X18.  [find_nearest_point_on_path] raises exactly when the path has no
    vertex or fewer longitudes than latitudes, and the exception is an
    [IndexError]. *)
Theorem nearest_vertex_index_error
        (haversine_distance : Q -> Q -> Q -> Q -> Q) stop_lat stop_lng
        path_lats path_lngs :
  (forall e,
     find_nearest_point_on_path haversine_distance stop_lat stop_lng
                                path_lats path_lngs = inr e ->
     e = Py.IndexError)
  /\ (find_nearest_point_on_path haversine_distance stop_lat stop_lng
                                 path_lats path_lngs = inr Py.IndexError
      <-> path_lats = [] \/ (List.length path_lngs < List.length path_lats)%nat).
Proof.
  split.
  - intros e H. apply find_nearest_error in H. apply H.
  - split.
    + intros H. apply find_nearest_error in H. apply H.
    + apply find_nearest_fails.
Qed.

(** ** The distance of two stops along the path *)

Section PathFacts.

Variable haversine_distance : Q -> Q -> Q -> Q -> Q.
Variables path_lats path_lngs : list Q.

Lemma foldM_segment l : forall total,
  (forall i, In i l -> (i + 1 < List.length path_lats)%nat
                       /\ (i + 1 < List.length path_lngs)%nat) ->
  foldM (segment_step haversine_distance path_lats path_lngs) l total
  = inl (fold_left (fun t i =>
                      (t + segment_length haversine_distance path_lats path_lngs i)%Q)
                   l total).
Proof.
  induction l as [|i l IH]; intros total H; [reflexivity |].
  destruct (H i (or_introl eq_refl)) as [Hla Hln].
  cbn [foldM fold_left]. unfold segment_step at 1.
  rewrite (getitem_ok path_lats i), (getitem_ok path_lngs i),
    (getitem_ok path_lats (i + 1)), (getitem_ok path_lngs (i + 1)) by lia.
  cbn [bind ret]. apply IH. intros j Hj. apply H. right. exact Hj.
Qed.

Lemma path_length_ok start_idx end_idx :
  (end_idx < List.length path_lats)%nat -> (end_idx < List.length path_lngs)%nat ->
  path_length haversine_distance path_lats path_lngs start_idx end_idx
  = inl (fold_left (fun t i =>
                      (t + segment_length haversine_distance path_lats path_lngs i)%Q)
                   (seq start_idx (end_idx - start_idx)) 0%Q).
Proof.
  intros Hla Hln. unfold path_length. apply foldM_segment.
  intros i Hi. apply in_seq in Hi. lia.
Qed.


Lemma fold_segments_nonneg l :
  (forall lat1 lng1 lat2 lng2, (0 <= haversine_distance lat1 lng1 lat2 lng2)%Q) ->
  forall total, (0 <= total)%Q ->
  (0 <= fold_left (fun t i =>
                     (t + segment_length haversine_distance path_lats path_lngs i)%Q)
                  l total)%Q.
Proof.
  intros Hh. induction l as [|i l IH]; intros total Ht; cbn [fold_left];
    [exact Ht |].
  apply IH. pose proof (Hh (nth i path_lats 0%Q) (nth i path_lngs 0%Q)
                           (nth (i + 1) path_lats 0%Q) (nth (i + 1) path_lngs 0%Q)).
  unfold segment_length. lra.
Qed.

Lemma real_distance_as_path_length stop1 stop2 nearest1 nearest2 :
  find_nearest_point_on_path haversine_distance (stop_Lat stop1) (stop_Lng stop1)
                             path_lats path_lngs = inl nearest1 ->
  find_nearest_point_on_path haversine_distance (stop_Lat stop2) (stop_Lng stop2)
                             path_lats path_lngs = inl nearest2 ->
  calculate_real_distance haversine_distance stop1 stop2 path_lats path_lngs
  = inl (fold_left
           (fun t i =>
              (t + segment_length haversine_distance path_lats path_lngs i)%Q)
           (seq (Nat.min (index nearest1) (index nearest2))
                (Nat.max (index nearest1) (index nearest2)
                 - Nat.min (index nearest1) (index nearest2))) 0%Q).
Proof.
  intros E1 E2. unfold calculate_real_distance. rewrite E1, E2. cbn [bind].
  assert (Hok : path_lats <> []
                /\ (List.length path_lats <= List.length path_lngs)%nat).
  { destruct path_lats as [|la lats] eqn:El.
    - rewrite find_nearest_fails in E1 by (left; reflexivity). discriminate E1.
    - rewrite <- El in *. split; [rewrite El; discriminate |].
      destruct (le_lt_dec (List.length path_lats) (List.length path_lngs))
        as [Hle|Hlt]; [exact Hle |].
      rewrite find_nearest_fails in E1 by (right; exact Hlt). discriminate E1. }
  destruct Hok as [Hne Hlen].
  destruct (find_nearest_ok haversine_distance (stop_Lat stop1) (stop_Lng stop1)
              path_lats path_lngs Hne Hlen) as [n1 [E1' [H1 _]]].
  destruct (find_nearest_ok haversine_distance (stop_Lat stop2) (stop_Lng stop2)
              path_lats path_lngs Hne Hlen) as [n2 [E2' [H2 _]]].
  rewrite E1 in E1'. injection E1' as <-. rewrite E2 in E2'. injection E2' as <-.
  apply path_length_ok; lia.
Qed.

End PathFacts.

(** X19.  The distance along the path does not depend on the order of the
    two stops, also when it raises. *)
Theorem real_distance_symmetric (haversine_distance : Q -> Q -> Q -> Q -> Q)
        stop1 stop2 path_lats path_lngs :
  calculate_real_distance haversine_distance stop1 stop2 path_lats path_lngs
  = calculate_real_distance haversine_distance stop2 stop1 path_lats path_lngs.
Proof.
  unfold calculate_real_distance.
  destruct (find_nearest_point_on_path haversine_distance (stop_Lat stop1)
              (stop_Lng stop1) path_lats path_lngs) as [n1|e1] eqn:E1;
    destruct (find_nearest_point_on_path haversine_distance (stop_Lat stop2)
                (stop_Lng stop2) path_lats path_lngs) as [n2|e2] eqn:E2;
    cbn [bind]; try reflexivity.
  - rewrite Nat.min_comm, Nat.max_comm. reflexivity.
  - apply find_nearest_error in E1. apply find_nearest_error in E2.
    destruct E1 as [-> _]. destruct E2 as [-> _]. reflexivity.
Qed.



(** X21.  With a distance function that is never negative, the distance
    along the path is never negative, and it is 0 for two stops with the
    same nearest vertex. *)
Theorem real_distance_nonneg (haversine_distance : Q -> Q -> Q -> Q -> Q)
        stop1 stop2 path_lats path_lngs nearest1 nearest2 :
  (forall lat1 lng1 lat2 lng2, (0 <= haversine_distance lat1 lng1 lat2 lng2)%Q) ->
  find_nearest_point_on_path haversine_distance (stop_Lat stop1) (stop_Lng stop1)
                             path_lats path_lngs = inl nearest1 ->
  find_nearest_point_on_path haversine_distance (stop_Lat stop2) (stop_Lng stop2)
                             path_lats path_lngs = inl nearest2 ->
  exists d,
    calculate_real_distance haversine_distance stop1 stop2 path_lats path_lngs
    = inl d
    /\ (0 <= d)%Q
    /\ (index nearest1 = index nearest2 -> d = 0%Q).
Proof.
  intros Hh E1 E2.
  rewrite (real_distance_as_path_length _ _ _ _ _ _ _ E1 E2).
  eexists. split; [reflexivity | split].
  - apply fold_segments_nonneg; [exact Hh | apply Qle_refl].
  - intros ->. rewrite Nat.min_id, Nat.max_id, Nat.sub_diag. reflexivity.
Qed.

Lemma real_distance_nonneg_witness :
  exists d,
    calculate_real_distance planar_distance stop_A (mkStop 4 10 (106001 # 1000) "4")
                            (lat line_paths) (lng line_paths) = inl d
    /\ (0 <= d)%Q
    /\ (index (line_nearest stop_A)
        = index (line_nearest (mkStop 4 10 (106001 # 1000) "4")) -> d = 0%Q).
Proof.
  apply (real_distance_nonneg planar_distance stop_A
           (mkStop 4 10 (106001 # 1000) "4") (lat line_paths) (lng line_paths)
           (line_nearest stop_A)
           (line_nearest (mkStop 4 10 (106001 # 1000) "4"))).
  - apply planar_distance_nonneg.
  - vm_compute. reflexivity.
  - vm_compute. reflexivity.
Defined.

(** ** Variants and routes *)


Lemma process_timetables_ids cfg route_data ctx stops is_loop_route stop_distances
      total_distance waiting_time :
  forall timetables nodes gid all_nodes next_id,
    foldM (process_timetable cfg route_data ctx stops is_loop_route stop_distances
                             total_distance waiting_time)
          timetables (nodes, gid) = inl (all_nodes, next_id) ->
    exists new_nodes,
      all_nodes = nodes ++ new_nodes
      /\ map NodeId new_nodes = ids_from gid (List.length new_nodes)
      /\ next_id = gid + Z.of_nat (List.length new_nodes)
      /\ Forall (fun n =>
                   exists timetable trips trip,
                     In timetable timetables
                     /\ Py.get_str (Py.str (TimeTableId timetable))
                                   (gettripsbytimetable route_data) = Some trips
                     /\ In trip trips /\ node_of_trip ctx trip stops n)
                new_nodes.
Proof.
  induction timetables as [|timetable timetables IH];
    intros nodes gid all_nodes next_id H.
  - cbn in H. injection H as <- <-. exists []. rewrite app_nil_r.
    split; [reflexivity | split; [reflexivity | split; [cbn; lia | constructor]]].
  - cbn [foldM] in H. unfold process_timetable at 1 in H. cbn [fst snd] in H.
    destruct (process_trips cfg ctx stops is_loop_route stop_distances
                total_distance waiting_time _ nodes gid)
      as [[nodes1 gid1]|e] eqn:Et; cbn [bind] in H; [| discriminate H].
    apply process_trips_ids in Et.
    destruct Et as [new1 [-> [Hids1 [-> Hof1]]]].
    destruct (IH _ _ _ _ H) as [new2 [-> [Hids2 [-> Hof2]]]].
    exists (new1 ++ new2). rewrite app_assoc, map_app, length_app.
    rewrite ids_from_app, Hids1, Hids2, Nat2Z.inj_add.
    split; [reflexivity | split; [reflexivity | split; [lia |]]].
    apply Forall_app. split.
    + eapply Forall_impl; [| exact Hof1]. intros n [trip [Hin Hn]].
      destruct (Py.get_str (Py.str (TimeTableId timetable))
                           (gettripsbytimetable route_data)) as [trips|] eqn:Eg;
        [| destruct Hin].
      exists timetable, trips, trip.
      split; [left; reflexivity | split; [exact Eg | split; assumption]].
    + eapply Forall_impl; [| exact Hof2].
      intros n [tt [trips [trip [Hin H']]]]. exists tt, trips, trip.
      split; [right; exact Hin | exact H'].
Qed.

Lemma process_route_variant_ids haversine_distance cfg route_data variant_id
      route_id route_no gid nodes next_id :
  process_route_variant haversine_distance cfg route_data variant_id route_id
                        route_no gid = inl (nodes, next_id) ->
  map NodeId nodes = ids_from gid (List.length nodes)
  /\ next_id = gid + Z.of_nat (List.length nodes)
  /\ Forall (fun n => RouteId n = route_id /\ RouteNo n = route_no
                      /\ RouteVarId n = variant_id
                      /\ node_of_variant route_data n) nodes.
Proof.
  assert (Hskip : forall (r : list Node * Z),
             r = ([], gid) -> inl r = (inl (nodes, next_id) : Result _) ->
             map NodeId nodes = ids_from gid (List.length nodes)
             /\ next_id = gid + Z.of_nat (List.length nodes)
             /\ Forall (fun n => RouteId n = route_id /\ RouteNo n = route_no
                                 /\ RouteVarId n = variant_id
                                 /\ node_of_variant route_data n) nodes).
  { intros r -> H. injection H as <- <-.
    split; [reflexivity | split; [cbn; lia | constructor]]. }
  unfold process_route_variant, ret. cbn zeta.
  destruct (existsb (fun v => v =? variant_id) (getvarsbyroute route_data))
    eqn:Ev; cbn [negb]; [| apply Hskip; reflexivity].
  destruct (Py.get_str (Py.str variant_id) (getstopsbyvar route_data))
    as [[|s0 stops']|] eqn:Es;
    destruct (Py.get_str (Py.str variant_id) (getpathsbyvar route_data))
      as [paths|]; try (apply Hskip; reflexivity).
  destruct (_ || _)%bool; [apply Hskip; reflexivity |].
  destruct (_ <? 2)%nat; [apply Hskip; reflexivity |].
  destruct (_ || _)%bool; [apply Hskip; reflexivity |].
  destruct (distances haversine_distance (s0 :: stops') _ _ _) as [ds|e];
    cbn [bind]; [| discriminate].
  destruct (Qle_bool (snd ds) 0); [apply Hskip; reflexivity |].
  intros H. apply process_timetables_ids in H.
  destruct H as [new [-> [Hids [-> Hof]]]]. cbn [app].
  split; [exact Hids | split; [reflexivity |]].
  eapply Forall_impl; [| exact Hof].
  intros n [tt [trips [trip [Hin [Hg [Ht Hn]]]]]].
  pose proof Hn as [Hr [Hno [Hv _]]].
  cbn [NodeGen.route_id NodeGen.route_no NodeGen.variant_id] in Hr, Hno, Hv.
  split; [exact Hr | split; [exact Hno | split; [exact Hv |]]].
  unfold node_of_variant. rewrite Hv, Hr, Hno. split.
  - apply existsb_exists in Ev. destruct Ev as [v [Hv' Ev]].
    apply Z.eqb_eq in Ev. subst v. exact Hv'.
  - apply filter_In in Hin. destruct Hin as [Hin Hid]. apply Z.eqb_eq in Hid.
    exists tt, trips, trip, (s0 :: stops').
    split; [exact Hin | split; [exact Hid | split; [exact Hg |
      split; [exact Ht | split; [exact Es | exact Hn]]]]].
Qed.

Lemma process_route_ids haversine_distance cfg route :
  forall nodes gid all_nodes next_id,
    process_route haversine_distance cfg (nodes, gid) route
    = inl (all_nodes, next_id) ->
    exists new_nodes,
      all_nodes = nodes ++ new_nodes
      /\ map NodeId new_nodes = ids_from gid (List.length new_nodes)
      /\ next_id = gid + Z.of_nat (List.length new_nodes)
      /\ Forall (node_of_route route) new_nodes.
Proof.
  intros nodes gid all_nodes next_id. unfold process_route.
  destruct (Py.int (list_ascii_of_string (fst route))) as [key_id|] eqn:Ek;
    cbn [bind ret raise]; [| discriminate].
  set (route_id := match getroutebyid_RouteId (snd route) with
                   | Some r => r
                   | None => key_id
                   end).
  set (route_no := match getroutebyid_RouteNo (snd route) with
                   | Some r => r
                   | None => fst route
                   end).
  assert (Hroute : forall n, RouteId n = route_id -> RouteNo n = route_no ->
                             node_of_variant (snd route) n ->
                             node_of_route route n).
  { intros n Hr Hno Hv. unfold node_of_route. subst route_id route_no.
    split; [| split; [exact Hno | exact Hv]].
    destruct (getroutebyid_RouteId (snd route)); [exact Hr |].
    rewrite Hr. exact Ek. }
  clearbody route_id route_no.
  generalize (getvarsbyroute (snd route)) as variants.
  intros variants. revert nodes gid.
  induction variants as [|variant_id variants IH]; intros nodes gid H.
  - cbn in H. injection H as <- <-. exists []. rewrite app_nil_r.
    split; [reflexivity | split; [reflexivity | split; [cbn; lia | constructor]]].
  - cbn [foldM fst snd] in H.
    destruct (process_route_variant haversine_distance cfg (snd route) variant_id
                route_id route_no gid) as [[nodes1 gid1]|e] eqn:Ev;
      cbn [bind ret fst snd] in H; [| discriminate H].
    apply process_route_variant_ids in Ev. destruct Ev as [Hids1 [-> Hof1]].
    destruct (IH _ _ H) as [new2 [-> [Hids2 [-> Hof2]]]].
    exists (nodes1 ++ new2). rewrite app_assoc, map_app, length_app.
    rewrite ids_from_app, Hids1, Hids2, Nat2Z.inj_add.
    split; [reflexivity | split; [reflexivity | split; [lia |]]].
    apply Forall_app. split; [| exact Hof2].
    eapply Forall_impl; [| exact Hof1]. intros n [Hr [Hno [_ Hv]]].
    apply Hroute; assumption.
Qed.

Lemma process_routes_ids haversine_distance cfg :
  forall routes nodes gid all_nodes next_id,
    foldM (process_route haversine_distance cfg) routes (nodes, gid)
    = inl (all_nodes, next_id) ->
    exists new_nodes,
      all_nodes = nodes ++ new_nodes
      /\ map NodeId new_nodes = ids_from gid (List.length new_nodes)
      /\ next_id = gid + Z.of_nat (List.length new_nodes)
      /\ Forall (fun n => exists route, In route routes /\ node_of_route route n)
                new_nodes.
Proof.
  induction routes as [|route routes IH]; intros nodes gid all_nodes next_id H.
  - cbn in H. injection H as <- <-. exists []. rewrite app_nil_r.
    split; [reflexivity | split; [reflexivity | split; [cbn; lia | constructor]]].
  - cbn [foldM] in H.
    destruct (process_route haversine_distance cfg (nodes, gid) route)
      as [[nodes1 gid1]|e] eqn:Er; cbn [bind] in H; [| discriminate H].
    apply process_route_ids in Er. destruct Er as [new1 [-> [Hids1 [-> Hof1]]]].
    destruct (IH _ _ _ _ H) as [new2 [-> [Hids2 [-> Hof2]]]].
    exists (new1 ++ new2). rewrite app_assoc, map_app, length_app.
    rewrite ids_from_app, Hids1, Hids2, Nat2Z.inj_add.
    split; [reflexivity | split; [reflexivity | split; [lia |]]].
    apply Forall_app. split.
    + eapply Forall_impl; [| exact Hof1]. intros n Hn. exists route.
      split; [left; reflexivity | exact Hn].
    + eapply Forall_impl; [| exact Hof2]. intros n [r [Hin Hn]]. exists r.
      split; [right; exact Hin | exact Hn].
Qed.

(** X22.  The rows that [process_all_routes] writes to the CSV file are
    numbered 1, 2, 3, ... in the order of the file, and every row is an
    event of a trip that a selected route lists in a timetable of one of
    its variants, at a stop of that variant, with the route id and number of
    that route. *)
Theorem node_table_rows_numbered_and_listed
        (haversine_distance : Q -> Q -> Q -> Q -> Q) (cfg : NodeGen.Config)
        ROUTE_LIMIT data all_nodes :
  process_all_routes haversine_distance cfg ROUTE_LIMIT data = inl all_nodes ->
  map NodeId all_nodes = ids_from 1 (List.length all_nodes)
  /\ Forall (fun n => exists route,
                 In route (select_routes ROUTE_LIMIT data)
                 /\ node_of_route route n) all_nodes.
Proof.
  unfold process_all_routes. intros H.
  destruct (foldM (process_route haversine_distance cfg)
                  (select_routes ROUTE_LIMIT data) ([], 1))
    as [[nodes next_id]|e] eqn:E; cbn [bind ret fst] in H; [| discriminate H].
  injection H as <-. apply process_routes_ids in E.
  destruct E as [new [-> [Hids [_ Hof]]]]. cbn [app]. split; assumption.
Qed.

Lemma node_table_rows_numbered_and_listed_witness :
  map NodeId line_table = ids_from 1 (List.length line_table)
  /\ Forall (fun n => exists route,
                 In route (select_routes None line_json)
                 /\ node_of_route route n) line_table.
Proof.
  apply (node_table_rows_numbered_and_listed planar_distance default_config None
           line_json line_table).
  vm_compute. reflexivity.
Defined.

(** X23.  The default [int(route_key)] is computed for every selected
    route, also for one that has a [RouteId]: a single key that is not an
    integer makes the whole run raise, and no node table is written. *)
Theorem non_numeric_route_key_raises
        (haversine_distance : Q -> Q -> Q -> Q -> Q) (cfg : NodeGen.Config)
        ROUTE_LIMIT data route :
  In route (select_routes ROUTE_LIMIT data) ->
  Py.int (list_ascii_of_string (fst route)) = None ->
  exists e, process_all_routes haversine_distance cfg ROUTE_LIMIT data = inr e.
Proof.
  intros Hin Hk. unfold process_all_routes.
  destruct (foldM_fails (process_route haversine_distance cfg) route
              (select_routes ROUTE_LIMIT data) Hin) with (s := ([] : list Node, 1))
    as [e E].
  - intros s. unfold process_route. rewrite Hk. exists Py.ValueError. reflexivity.
  - exists e. rewrite E. reflexivity.
Qed.

Lemma non_numeric_route_key_raises_witness :
  exists e,
    process_all_routes planar_distance default_config None
                       [("7"%string, line_route); ("7a"%string, line_route)]
    = inr e.
Proof.
  apply (non_numeric_route_key_raises planar_distance default_config None
           [("7"%string, line_route); ("7a"%string, line_route)]
           ("7a"%string, line_route)).
  - right. left. reflexivity.
  - reflexivity.
Defined.

Lemma consecutive_distances_step haversine_distance stop next rest path_lats
      path_lngs :
  consecutive_distances haversine_distance (stop :: next :: rest) path_lats
                        path_lngs
  = bind (calculate_real_distance haversine_distance stop next path_lats path_lngs)
         (fun distance =>
            bind (consecutive_distances haversine_distance (next :: rest)
                                        path_lats path_lngs)
                 (fun stop_distances => ret (distance :: stop_distances))).
Proof. reflexivity. Qed.

Lemma path_length_short_lng haversine_distance path_lats path_lngs :
  (1 <= List.length path_lngs)%nat ->
  (List.length path_lngs < List.length path_lats)%nat ->
  path_length haversine_distance path_lats path_lngs 0
              (List.length path_lats - 1) = inr Py.IndexError.
Proof.
  intros H1 Hlt. unfold path_length. rewrite Nat.sub_0_r.
  set (m := List.length path_lngs) in *.
  replace (List.length path_lats - 1)%nat
    with ((m - 1) + S (List.length path_lats - 1 - m))%nat by lia.
  rewrite seq_app, foldM_app, foldM_segment.
  - cbn [bind seq foldM Nat.add]. unfold segment_step at 1.
    rewrite (getitem_ok path_lats (m - 1)), (getitem_ok path_lngs (m - 1)),
      (getitem_ok path_lats (m - 1 + 1)) by (subst m; lia).
    rewrite (getitem_fail path_lngs (m - 1 + 1)) by (subst m; lia). reflexivity.
  - intros i Hi. apply in_seq in Hi. subst m. lia.
Qed.

(** X24.  A path with fewer longitudes than latitudes makes the variant
    raise an [IndexError] as soon as it has two stops or more: the path is
    indexed by the positions of the latitudes. *)
Theorem short_longitude_list_raises
        (haversine_distance : Q -> Q -> Q -> Q -> Q) (cfg : NodeGen.Config)
        route_data variant_id route_id route_no gid stops paths :
  In variant_id (getvarsbyroute route_data) ->
  Py.get_str (Py.str variant_id) (getstopsbyvar route_data) = Some stops ->
  Py.get_str (Py.str variant_id) (getpathsbyvar route_data) = Some paths ->
  (2 <= List.length stops)%nat ->
  (2 <= List.length (lng paths))%nat ->
  (List.length (lng paths) < List.length (lat paths))%nat ->
  process_route_variant haversine_distance cfg route_data variant_id route_id
                        route_no gid = inr Py.IndexError.
Proof.
  intros Hv Es Ep Hs Hlng Hlt. unfold process_route_variant. cbn zeta.
  assert (Ev : existsb (fun v => v =? variant_id) (getvarsbyroute route_data)
               = true).
  { apply existsb_exists. exists variant_id. split; [exact Hv | apply Z.eqb_refl]. }
  rewrite Ev, Es, Ep. cbn [negb].
  destruct stops as [|s0 [|s1 more]]; cbn [List.length] in Hs; try lia.
  replace ((List.length (lat paths) =? 0) || (List.length (lng paths) =? 0))%nat
    with false
    by (symmetry; apply orb_false_iff; split; apply Nat.eqb_neq; lia).
  replace (List.length (s0 :: s1 :: more) <? 2)%nat with false
    by (symmetry; apply Nat.ltb_ge; cbn [List.length]; lia).
  replace ((List.length (lat paths) <? 2) || (List.length (lng paths) <? 2))%nat
    with false
    by (symmetry; apply orb_false_iff; split; apply Nat.ltb_ge; lia).
  unfold distances. destruct (is_loop (s0 :: s1 :: more)).
  - rewrite path_length_short_lng by lia. reflexivity.
  - rewrite consecutive_distances_step. unfold calculate_real_distance at 1.
    rewrite find_nearest_fails by (right; exact Hlt). reflexivity.
Qed.

Lemma short_longitude_list_raises_witness :
  process_route_variant planar_distance default_config short_lng_route 1 7 "7" 1
  = inr Py.IndexError.
Proof.
  apply (short_longitude_list_raises planar_distance default_config
           short_lng_route 1 7 "7"%string 1 line_stops
           (mkPaths [10; 10; 10]%Q [106; 10601 # 100]%Q)).
  - left. reflexivity.
  - reflexivity.
  - reflexivity.
  - cbn. lia.
  - cbn. lia.
  - cbn. lia.
Defined.

(** ** Runs that complete *)







